(** * hello_dev: the service test suite, its tax calculator and API harness

    A shallow embedding of [config.py], of the harness methods and the
    tests of [test_service_api.py] (class [TestServiceAPI]) that create,
    read and delete services, and of the boundary tables and the cleanup
    fixture of [test_ui.py].

    - Python [float] is IEEE-754 binary64, modelled with the Standard
      Library's [SpecFloat] (precision 53, [emax] 1024); Python [int] is [Z].
    - A decoded JSON body is the inductive [json]; a [dict] is an
      association list in insertion order.
    - Exceptions are the inductive [exn]; code that can raise returns a
      [result]; code that also talks to the remote service or mutates
      [self.created_service_uuids] lives in the monad [M], whose state
      survives a raised exception (as a Python object does). *)

From Stdlib Require Import ZArith List String Ascii Bool Lia.
From Stdlib Require Import Floats.SpecFloat.
Import ListNotations.
Local Open Scope Z_scope.
Set Warnings "-register-all".

(** ** Python numbers *)

Module PyNum.

Definition prec : Z := 53.
Definition emax : Z := 1024.

(** A Python [float]. *)
Definition float : Type := spec_float.

Definition fmul : float -> float -> float := SFmul prec emax.
Definition fadd : float -> float -> float := SFadd prec emax.

Definition is_finite (f : float) : bool :=
  match f with
  | S754_zero _ | S754_finite _ _ _ => true
  | S754_infinity _ | S754_nan => false
  end.

(** The double nearest to the rational [n / d] (ties to even), for
    [0 < d]: what [strtod] does with a decimal string, and what the
    parser does with a float literal. *)
Definition nearest_ratio (s : bool) (n d : positive) : float :=
  let '(q, e, l) := SFdiv_core_binary prec emax (Zpos n) 0 (Zpos d) 0 in
  binary_round_aux prec emax s q e l.

(** A decimal literal [m / 10^k], such as [0.22] ([m = 22], [k = 2]). *)
Definition decimal (m : Z) (k : nat) : float :=
  let d := Z.to_pos (10 ^ Z.of_nat k) in
  match m with
  | Z0 => S754_zero false
  | Zpos p => nearest_ratio false p d
  | Zneg p => nearest_ratio true p d
  end.

(** [round_half_even n d] is the integer nearest to [n / d], ties to
    even, for [0 <= n] and [0 < d]. *)
Definition round_half_even (n d : Z) : Z :=
  let q := n / d in
  let r := n mod d in
  match (2 * r ?= d) with
  | Lt => q
  | Gt => q + 1
  | Eq => if Z.even q then q else q + 1
  end.

(** [round(x, 2)] on a float ([float.__round__] with [ndigits = 2]):
    non-finite values and zeros round to themselves; a finite [x] is
    converted to the correctly rounded decimal with two digits after
    the point (ties to even on the exact binary value) and that decimal
    is converted back to the nearest double.  The sign of [x] is kept,
    so a value that rounds to nothing is a signed zero.  A double of
    magnitude [2^53] or more is an integer and rounds to itself, hence
    the overflow error of [double_round] cannot occur for two digits. *)
Definition round2 (x : float) : float :=
  match x with
  | S754_finite s m e =>
      let scaled :=
        match e with
        | Zneg p => round_half_even (Zpos m * 100) (Zpos (Pos.pow 2 p))
        | _ => Zpos m * 2 ^ e * 100
        end in
      match scaled with
      | Zpos n => nearest_ratio s n 100
      | _ => S754_zero s
      end
  | _ => x
  end.

(** The exceptions the arithmetic can raise. *)
Variant arith_error := OverflowError.

(** A number as the suite handles it: a Python [int] or [float]. *)
Variant num :=
  | PyInt (z : Z)
  | PyFloat (f : float).

(** [float(z)] for an [int] ([PyLong_AsDouble]): nearest double, ties to
    even; an [int] beyond the range of a double raises [OverflowError]
    ("int too large to convert to float"). *)
Definition float_of_int (z : Z) : arith_error + float :=
  let f := binary_normalize prec emax z 0 false in
  if is_finite f then inr f else inl OverflowError.

(** The conversion Python applies to the [int] operand of a mixed
    [int]/[float] operation. *)
Definition to_float (p : num) : arith_error + float :=
  match p with
  | PyInt z => float_of_int z
  | PyFloat f => inr f
  end.

(** Exact comparison of two finite values [(-1)^s * m * 2^e]. *)
Definition scaled (s : bool) (m : positive) (e e0 : Z) : Z :=
  cond_Zopp s (Zpos m) * 2 ^ (e - e0).

(** [a == b] on floats: a NaN equals nothing, the two zeros are equal. *)
Definition float_eqb (a b : float) : bool :=
  match a, b with
  | S754_nan, _ | _, S754_nan => false
  | S754_zero _, S754_zero _ => true
  | S754_infinity s, S754_infinity t => Bool.eqb s t
  | S754_finite s m e, S754_finite t n d =>
      let e0 := Z.min e d in scaled s m e e0 =? scaled t n d e0
  | _, _ => false
  end.

(** [z == f] for an [int] and a [float]: Python compares the exact
    values, without converting the [int]. *)
Definition int_float_eqb (z : Z) (f : float) : bool :=
  match f with
  | S754_zero _ => z =? 0
  | S754_finite s m e =>
      let e0 := Z.min e 0 in
      z * 2 ^ (0 - e0) =? scaled s m e e0
  | _ => false
  end.

(** [a == b] on numbers. *)
Definition eqb (a b : num) : bool :=
  match a, b with
  | PyInt x, PyInt y => x =? y
  | PyInt x, PyFloat g => int_float_eqb x g
  | PyFloat f, PyInt y => int_float_eqb y f
  | PyFloat f, PyFloat g => float_eqb f g
  end.

End PyNum.

(** ** config.py *)

Module Config.
Import PyNum.

(** [DB_LIMITS]. *)
Record db_limits := {
  name_max_length : Z;
  min_int : Z;
  max_int : Z;
  tax_rate : float;
  price_min : num;
  quantity_min : Z;
  tax_min : num;
  gross_min : num
}.

Definition DB_LIMITS : db_limits := {|
  name_max_length := 255;
  min_int := -2147483648;
  max_int := 2147483647;
  tax_rate := decimal 22 2;
  price_min := PyInt 1;
  quantity_min := 1;
  tax_min := PyFloat (decimal 1 2);
  gross_min := PyFloat (decimal 1 2)
|}.

(** [calculate_tax(price)]: [round(price * DB_LIMITS["tax_rate"], 2)]. *)
Definition calculate_tax (price : num) : arith_error + float :=
  match to_float price with
  | inl e => inl e
  | inr p => inr (round2 (fmul p (tax_rate DB_LIMITS)))
  end.

(** [calculate_gross(price)]: [tax = calculate_tax(price)], then
    [round(price + tax, 2)]. *)
Definition calculate_gross (price : num) : arith_error + float :=
  match calculate_tax price with
  | inl e => inl e
  | inr tax =>
      match to_float price with
      | inl e => inl e
      | inr p => inr (round2 (fadd p tax))
      end
  end.

End Config.

(** ** Python values, exceptions and results *)

Module Py.
Import PyNum.
Local Open Scope string_scope.

(** A Python [str]: the UTF-8 bytes of its text. *)
Definition str : Type := string.

(** [s.startswith(p)]. *)
Fixpoint starts_with (p s : str) : bool :=
  match p, s with
  | EmptyString, _ => true
  | String a p', String b s' => Ascii.eqb a b && starts_with p' s'
  | String _ _, EmptyString => false
  end.

(** [needle in hay] for two strings: [needle] occurs in [hay]. *)
Fixpoint str_in (needle hay : str) : bool :=
  starts_with needle hay ||
  match hay with
  | EmptyString => false
  | String _ hay' => str_in needle hay'
  end.

(** [c * n] for a one-character string. *)
Definition str_repeat (c : ascii) (n : nat) : str :=
  string_of_list_ascii (repeat c n).

(** [sep.join(parts)]. *)
Fixpoint str_join (sep : str) (parts : list str) : str :=
  match parts with
  | [] => ""
  | [p] => p
  | p :: rest => p ++ sep ++ str_join sep rest
  end.

(** Bytes [10xxxxxx] continue a UTF-8 character. *)
Definition is_continuation (c : ascii) : bool :=
  let n := N_of_ascii c in ((128 <=? n) && (n <? 192))%N.

(** The characters of a string, cut at the UTF-8 lead bytes; the first
    component collects the continuation bytes met before a lead byte. *)
Fixpoint utf8_split (s : str) : str * list str :=
  match s with
  | EmptyString => (EmptyString, [])
  | String c rest =>
      let '(tail, chars) := utf8_split rest in
      if is_continuation c then (String c tail, chars)
      else (EmptyString, String c tail :: chars)
  end.

(** [len(s)]: the number of characters of [s]. *)
Definition str_len (s : str) : nat := List.length (snd (utf8_split s)).

(** What [response.json()] decodes to.  A [dict] keeps its keys in
    insertion order; its keys are distinct and a lookup takes the first
    binding. *)
Inductive json :=
  | JNull
  | JBool (b : bool)
  | JNum (n : num)
  | JStr (s : str)
  | JArr (l : list json)
  | JObj (kv : list (str * json)).

(** [d.get(k)] on the bindings of a [dict]. *)
Fixpoint lookup (k : str) (kv : list (str * json)) : option json :=
  match kv with
  | [] => None
  | (k', v) :: rest => if String.eqb k k' then Some v else lookup k rest
  end.

(** [list(d.keys())]. *)
Definition keys (kv : list (str * json)) : list str := map fst kv.

(** A [bool] is an [int] in comparisons. *)
Definition num_of_bool (b : bool) : num := PyInt (if b then 1 else 0).

(** [a == b] on decoded values: numbers (and booleans) by value, strings
    and lists structurally, dicts key by key whatever the order. *)
Fixpoint py_eq (a b : json) {struct a} : bool :=
  match a, b with
  | JNull, JNull => true
  | JBool x, JBool y => PyNum.eqb (num_of_bool x) (num_of_bool y)
  | JBool x, JNum n => PyNum.eqb (num_of_bool x) n
  | JNum m, JBool y => PyNum.eqb m (num_of_bool y)
  | JNum m, JNum n => PyNum.eqb m n
  | JStr s, JStr t => String.eqb s t
  | JArr l, JArr l' =>
      (fix all2 (xs ys : list json) {struct xs} : bool :=
         match xs, ys with
         | [], [] => true
         | x :: xs', y :: ys' => py_eq x y && all2 xs' ys'
         | _, _ => false
         end) l l'
  | JObj kv, JObj kv' =>
      (List.length kv =? List.length kv')%nat &&
      (fix sub (xs : list (str * json)) {struct xs} : bool :=
         match xs with
         | [] => true
         | (k, v) :: xs' =>
             match lookup k kv' with
             | Some v' => py_eq v v'
             | None => false
             end && sub xs'
         end) kv
  | _, _ => false
  end.

(** An f-string: its text with [{}] for each interpolated expression,
    and the values interpolated, in order. *)
Record message := Fmt { template : str; args : list json }.

(** The exceptions of the suite.  [Failed] is what [pytest.fail] raises
    and [Skipped] what [pytest.skip] raises: both derive from
    [BaseException], not from [Exception].  [FailedParse e] is
    [pytest.fail(f"Не удалось распарсить ошибки валидации: {e}")]. *)
Inductive exn :=
  | AssertionError (m : option message)
  | TypeError
  | KeyError (k : str)
  | IndexError
  | AttributeError
  | ValueError
  | JSONDecodeError
  | ArithmeticError (e : arith_error)
  | RequestException
  | Failed (m : message)
  | FailedParse (cause : exn)
  | Skipped (m : message).

(** [isinstance(e, Exception)]. *)
Definition is_Exception (e : exn) : bool :=
  match e with
  | Failed _ | FailedParse _ | Skipped _ => false
  | _ => true
  end.

(** The outcome of an expression or call that can raise. *)
Variant result (A : Type) :=
  | Return (a : A)
  | Raise (e : exn).
Arguments Return {A} a.
Arguments Raise {A} e.

Definition rbind {A B} (c : result A) (k : A -> result B) : result B :=
  match c with
  | Return a => k a
  | Raise e => Raise e
  end.

(** [try: c / except Exception as e: h e]. *)
Definition try_except_Exception {A} (c : result A) (h : exn -> result A)
  : result A :=
  match c with
  | Return a => Return a
  | Raise e => if is_Exception e then h e else Raise e
  end.

(** [assert cond, msg]. *)
Definition py_assert (cond : bool) (m : option message) : result unit :=
  if cond then Return tt else Raise (AssertionError m).

Definition of_arith {A} (c : arith_error + A) : result A :=
  match c with
  | inl e => Raise (ArithmeticError e)
  | inr a => Return a
  end.

(** [needle in x] for a string [needle]: key membership on a [dict],
    element equality on a [list], substring on a [str]; the other
    values are not containers. *)
Definition py_in (needle : str) (x : json) : result bool :=
  match x with
  | JObj kv => Return (existsb (String.eqb needle) (keys kv))
  | JArr l => Return (existsb (py_eq (JStr needle)) l)
  | JStr s => Return (str_in needle s)
  | _ => Raise TypeError
  end.

(** [x[k]] for a string [k]. *)
Definition getitem (x : json) (k : str) : result json :=
  match x with
  | JObj kv =>
      match lookup k kv with
      | Some v => Return v
      | None => Raise (KeyError k)
      end
  | _ => Raise TypeError
  end.

(** [x[0]]. *)
Definition getitem0 (x : json) : result json :=
  match x with
  | JArr (v :: _) => Return v
  | JArr [] => Raise IndexError
  | JStr s =>
      match snd (utf8_split s) with
      | c :: _ => Return (JStr c)
      | [] => Raise IndexError
      end
  | JObj kv => Raise (KeyError "0")
  | _ => Raise TypeError
  end.

(** [isinstance(x, list)]. *)
Definition is_list (x : json) : bool :=
  match x with
  | JArr _ => true
  | _ => false
  end.

(** [list(x.keys())]: only a [dict] has [keys]. *)
Definition py_keys (x : json) : result json :=
  match x with
  | JObj kv => Return (JArr (map JStr (keys kv)))
  | _ => Raise AttributeError
  end.

(** [list(x)]: the items a [for] loop or a generator sees.  A [list]
    yields its elements, a [dict] its keys, a [str] its characters. *)
Definition py_iter (x : json) : result (list json) :=
  match x with
  | JArr l => Return l
  | JObj kv => Return (map JStr (keys kv))
  | JStr s => Return (map JStr (snd (utf8_split s)))
  | _ => Raise TypeError
  end.

(** A [requests.Response]: its status and its decoded body, [None] when
    the body is not JSON. *)
Record response := { status_code : Z; body : option json }.

(** [response.json()]. *)
Definition response_json (r : response) : result json :=
  match body r with
  | Some j => Return j
  | None => Raise JSONDecodeError
  end.

(** [response.status_code in [200, 201]]. *)
Definition status_ok (r : response) : bool :=
  existsb (Z.eqb (status_code r)) [200; 201].

End Py.

Import PyNum Config Py.

(** ** test_service_api.py: the harness methods that do not touch the
    network *)

Module Harness.
Local Open Scope string_scope.

Notation "'let*' x ':=' c 'in' k" := (rbind c (fun x => k))
  (at level 10, x name, c at level 100, k at level 200).

(** [len(x)]. *)
Definition py_len (x : json) : result Z :=
  match x with
  | JArr l => Return (Z.of_nat (List.length l))
  | JObj kv => Return (Z.of_nat (List.length kv))
  | JStr s => Return (Z.of_nat (str_len s))
  | _ => Raise TypeError
  end.

(** [TestServiceAPI.extract_service_from_response]. *)
Definition extract_service_from_response (response : response)
  : result json :=
  let* _ := py_assert (status_ok response)
              (Some (Fmt "Ожидался код 200/201, получен {}"
                         [JNum (PyInt (status_code response))])) in
  let* response_data := response_json response in
  let* has_uuid := py_in "uuid" response_data in
  if has_uuid then Return response_data else
  let* has_data := py_in "data" response_data in
  let* data_is_list :=
    if has_data
    then let* d := getitem response_data "data" in Return (is_list d)
    else Return false in
  if data_is_list then
    let* d := getitem response_data "data" in
    let* n := py_len d in
    let* _ := py_assert (0 <? n)%Z
                (Some (Fmt "Список data пустой, не удалось найти созданную услугу" [])) in
    let* d := getitem response_data "data" in
    getitem0 d
  else
    let* ks := py_keys response_data in
    Raise (Failed (Fmt "API вернул неожиданную структуру: {}\nОжидалось: {{uuid, ...}} или {{data: [...]}}" [ks])).

(** [if expected_field:] for an argument that is [None] or a string. *)
Definition truthy (expected_field : option str) : bool :=
  match expected_field with
  | None | Some EmptyString => false
  | Some (String _ _) => true
  end.

(** The body of the [try] block of [assert_validation_error]. *)
Definition parse_validation_errors (response : response)
    (expected_field : option str) : result json :=
  let* response_data := response_json response in
  let* has_errors := py_in "errors" response_data in
  let* _ := py_assert has_errors
              (Some (Fmt "В ответе отсутствует поле 'errors': {}"
                         [response_data])) in
  match expected_field with
  | Some field =>
      if truthy expected_field then
        let* errors := getitem response_data "errors" in
        let* has_field := py_in field errors in
        let* _ :=
          if has_field then Return tt
          else
            let* errors := getitem response_data "errors" in
            let* ks := py_keys errors in
            Raise (AssertionError
              (Some (Fmt "Ожидалась ошибка для поля '{}', получены ошибки: {}"
                         [JStr field; ks]))) in
        let* errors := getitem response_data "errors" in
        let* error_messages := getitem errors field in
        Return error_messages
      else getitem response_data "errors"
  | None => getitem response_data "errors"
  end.

(** [TestServiceAPI.assert_validation_error]. *)
Definition assert_validation_error (response : response)
    (expected_field : option str) : result json :=
  let* _ := py_assert (status_code response =? 422)%Z
              (Some (Fmt "Ожидался код 422, получен {}"
                         [JNum (PyInt (status_code response))])) in
  try_except_Exception
    (parse_validation_errors response expected_field)
    (fun e => Raise (FailedParse e)).

End Harness.

Import Harness.

(** ** Stateful code: a state that survives exceptions *)

Module StateM.

(** A computation over a state [S]: it returns or raises, and leaves a
    state behind either way. *)
Definition M (S A : Type) : Type := S -> result A * S.

Definition ret {S A} (a : A) : M S A := fun st => (Return a, st).

Definition bind {S A B} (c : M S A) (k : A -> M S B) : M S B :=
  fun st =>
    match c st with
    | (Return a, st') => k a st'
    | (Raise e, st') => (Raise e, st')
    end.

(** A call that does not touch the state. *)
Definition lift {S A} (c : result A) : M S A := fun st => (c, st).

Definition gets {S A} (f : S -> A) : M S A := fun st => (Return (f st), st).

(** [try: c / except: h] with a bare [except], which catches
    everything. *)
Definition try_except {S A} (c : M S A) (h : M S A) : M S A :=
  fun st =>
    match c st with
    | (Return a, st') => (Return a, st')
    | (Raise _, st') => h st'
    end.

(** [for x in xs: body x]. *)
Fixpoint for_each {S A} (xs : list A) (body : A -> M S unit) : M S unit :=
  match xs with
  | [] => ret tt
  | x :: rest => bind (body x) (fun _ => for_each rest body)
  end.

Notation "x <- c ;; k" := (bind c (fun x => k))
  (at level 61, c at next level, right associativity).
Notation "c ;; k" := (bind c (fun _ => k))
  (at level 61, right associativity).

End StateM.

Import StateM.

(** ** test_service_api.py: the methods and tests that call the service *)

Module Api.
Local Open Scope string_scope.

(** A call of [requests]: [post(API_URL, json=data)],
    [get(f"{API_URL}{id}")] or [delete(f"{API_URL}{id}")], always with
    [API_HEADERS]. *)
Variant request :=
  | POST (data : json)
  | GET (id : json)
  | DELETE (id : json).

(** The test instance and what it has sent so far. *)
Record test_state := {
  created_service_uuids : list json;
  sent : list request
}.

Definition set_created (l : list json) (st : test_state) : test_state :=
  {| created_service_uuids := l; sent := sent st |}.

(** [test_prices] of [test_create_service_with_different_prices]. *)
Definition test_prices : list num :=
  [PyInt 100; PyFloat (decimal 25050 2); PyInt 1000;
   PyFloat (decimal 9999 2); PyInt 1; PyInt 3000; PyInt 2500; PyInt 1500;
   PyInt 2000].

Section Remote.

(** The remote service: what a call returns, or the exception the
    transport raises, given the calls made before it. *)
Variable server : list request -> request -> result response.

(** [str(x)] of a number, as an f-string interpolates it. *)
Variable num_str : num -> str.

(** [s.lower()]. *)
Variable str_lower : str -> str.

Definition http (rq : request) : M test_state response :=
  fun st =>
    (server (sent st) rq,
     {| created_service_uuids := created_service_uuids st;
        sent := sent st ++ [rq] |}).

(** [self.created_service_uuids.append(u)]. *)
Definition append_created (u : json) : M test_state unit :=
  fun st => (Return tt, set_created (created_service_uuids st ++ [u]) st).

(** The [try] block of [create_service]. *)
Definition track_created (response : response) : M test_state unit :=
  service <- lift (extract_service_from_response response) ;;
  has_uuid <- lift (py_in "uuid" service) ;;
  if has_uuid : bool then
    u <- lift (getitem service "uuid") ;;
    append_created u
  else ret tt.

(** [TestServiceAPI.create_service]. *)
Definition create_service (data : json) : M test_state response :=
  response <- http (POST data) ;;
  (if status_ok response
   then try_except (track_created response) (ret tt)
   else ret tt) ;;
  ret response.

(** [l.remove(u)]: drops the first element equal to [u]; [None] when no
    element is. *)
Fixpoint list_remove (u : json) (l : list json) : option (list json) :=
  match l with
  | [] => None
  | x :: rest =>
      if py_eq x u then Some rest
      else option_map (cons x) (list_remove u rest)
  end.

(** [self.created_service_uuids.remove(u)], as the delete tests do after
    deleting the service themselves. *)
Definition remove_created (u : json) : M test_state unit :=
  fun st =>
    match list_remove u (created_service_uuids st) with
    | Some l => (Return tt, set_created l st)
    | None => (Raise ValueError, st)
    end.

(** [setup_and_teardown], before the [yield]. *)
Definition setup : M test_state unit :=
  fun st => (Return tt, set_created [] st).

(** [setup_and_teardown], after the [yield]. *)
Definition teardown : M test_state unit :=
  uuids <- gets created_service_uuids ;;
  for_each uuids (fun service_uuid =>
    try_except (http (DELETE service_uuid) ;; ret tt) (ret tt)).

(** A test method run under the autouse fixture: the teardown runs
    whatever the test did; the test's own exception is reported. *)
Definition run_test (test : M test_state unit) : M test_state unit :=
  setup ;;
  fun st =>
    match test st with
    | (Return _, st') => teardown st'
    | (Raise e, st') =>
        match teardown st' with
        | (_, st'') => (Raise e, st'')
        end
    end.

(** One iteration of the loop of
    [test_create_service_with_different_prices]. *)
Definition different_prices_step (price : num) : M test_state unit :=
  tax <- lift (of_arith (calculate_tax price)) ;;
  gross <- lift (of_arith (calculate_gross price)) ;;
  let service_data :=
    JObj [("name", JStr ("Service price " ++ num_str price));
          ("quantity", JNum (PyInt 1));
          ("price", JNum price);
          ("tax", JNum (PyFloat tax));
          ("gross", JNum (PyFloat gross))] in
  response <- create_service service_data ;;
  lift (py_assert (status_ok response)
          (Some (Fmt "Для цены {} ожидался код 200/201, получен {}"
                     [JNum price; JNum (PyInt (status_code response))]))) ;;
  response_data <- lift (response_json response) ;;
  expected_tax <- lift (of_arith (calculate_tax price)) ;;
  expected_gross <- lift (of_arith (calculate_gross price)) ;;
  actual_tax <- lift (getitem response_data "tax") ;;
  lift (py_assert (py_eq actual_tax (JNum (PyFloat expected_tax)))
          (Some (Fmt "НДС неверно рассчитан для цены {}: ожидалось {}, получено {}"
                     [JNum price; JNum (PyFloat expected_tax); actual_tax]))) ;;
  actual_gross <- lift (getitem response_data "gross") ;;
  lift (py_assert (py_eq actual_gross (JNum (PyFloat expected_gross)))
          (Some (Fmt "Общая сумма неверна для цены {}: ожидалось {}, получено {}"
                     [JNum price; JNum (PyFloat expected_gross); actual_gross]))).

(** [test_create_service_with_different_prices]. *)
Definition test_create_service_with_different_prices : M test_state unit :=
  for_each test_prices different_prices_step.

(** The payload of [test_create_service_with_min_positive_values]. *)
Definition min_positive_values_data : result json :=
  let* tax := of_arith (calculate_tax (price_min DB_LIMITS)) in
  let* gross := of_arith (calculate_gross (price_min DB_LIMITS)) in
  Return (JObj [("name", JStr "Min positive values");
                ("quantity", JNum (PyInt (quantity_min DB_LIMITS)));
                ("price", JNum (price_min DB_LIMITS));
                ("tax", JNum (PyFloat tax));
                ("gross", JNum (PyFloat gross))]).

(** [test_create_service_with_min_positive_values]. *)
Definition test_create_service_with_min_positive_values
  : M test_state unit :=
  service_data <- lift min_positive_values_data ;;
  response <- create_service service_data ;;
  lift (py_assert (status_ok response)
          (Some (Fmt "Ожидался код 200/201, получен {}"
                     [JNum (PyInt (status_code response))]))) ;;
  response_data <- lift (response_json response) ;;
  actual_price <- lift (getitem response_data "price") ;;
  lift (py_assert (py_eq actual_price (JNum (price_min DB_LIMITS))) None).

(** [test_get_service_success]. *)
Definition test_get_service_success : M test_state unit :=
  let price := PyInt 200 in
  tax <- lift (of_arith (calculate_tax price)) ;;
  gross <- lift (of_arith (calculate_gross price)) ;;
  let service_data :=
    JObj [("name", JStr "Service for GET");
          ("quantity", JNum (PyInt 5));
          ("price", JNum price);
          ("tax", JNum (PyFloat tax));
          ("gross", JNum (PyFloat gross))] in
  create_response <- create_service service_data ;;
  lift (py_assert (status_ok create_response)
          (Some (Fmt "Не удалось создать услугу" []))) ;;
  created <- lift (response_json create_response) ;;
  service_uuid <- lift (getitem created "uuid") ;;
  response <- http (GET service_uuid) ;;
  lift (py_assert (status_code response =? 200)%Z
          (Some (Fmt "Ожидался код 200, получен {}"
                     [JNum (PyInt (status_code response))]))) ;;
  response_data <- lift (response_json response) ;;
  actual_uuid <- lift (getitem response_data "uuid") ;;
  lift (py_assert (py_eq actual_uuid service_uuid) None) ;;
  actual_name <- lift (getitem response_data "name") ;;
  expected_name <- lift (getitem service_data "name") ;;
  lift (py_assert (py_eq actual_name expected_name) None) ;;
  actual_price <- lift (getitem response_data "price") ;;
  lift (py_assert (py_eq actual_price (JNum price)) None) ;;
  actual_tax <- lift (getitem response_data "tax") ;;
  expected_tax <- lift (of_arith (calculate_tax price)) ;;
  lift (py_assert (py_eq actual_tax (JNum (PyFloat expected_tax))) None).

(** The generator expression of the negative tests, consumed by [any]:
    ["не меньше" in err.lower() or "minimum" in err.lower()] for each
    [err], stopping at the first hit.  Only a [str] has [lower]. *)
Fixpoint any_minimum_message (errs : list json) : result bool :=
  match errs with
  | [] => Return false
  | err :: rest =>
      let* hit :=
        match err with
        | JStr s =>
            Return (str_in "не меньше" (str_lower s)
                    || str_in "minimum" (str_lower s))
        | _ => Raise AttributeError
        end in
      if hit : bool then Return true else any_minimum_message rest
  end.

(** The payload of [test_validation_min_quantity]. *)
Definition min_quantity_data : json :=
  JObj [("name", JStr "Test");
        ("quantity", JNum (PyInt 0));
        ("price", JNum (PyInt 100));
        ("tax", JNum (PyInt 22));
        ("gross", JNum (PyInt 122))].

(** [test_validation_min_quantity]. *)
Definition test_validation_min_quantity : M test_state unit :=
  response <- create_service min_quantity_data ;;
  errors <- lift (assert_validation_error response (Some "quantity")) ;;
  items <- lift (py_iter errors) ;;
  hit <- lift (any_minimum_message items) ;;
  lift (py_assert hit None) ;;
  _ <- lift (getitem0 errors) ;;
  ret tt.

End Remote.

End Api.

(** ** test_ui.py: the boundary tables of [TestServicesForm] *)

Module Ui.
Local Open Scope string_scope.

(** The service form as a test fills it before clicking submit. *)
Record form_fill := {
  form_name : str;
  form_quantity : str;
  form_price : str
}.

(** What the test reads from the page: the number of
    [.list-group-item] rows and the texts of [.invalid-feedback]. *)
Record page_view := {
  list_items : nat;
  invalid_feedback : list str
}.

(** The forms submitted so far. *)
Definition ui_state : Type := list form_fill.

(** The parameters of [test_price_boundaries]. *)
Definition price_boundaries : list (float * bool) :=
  [(decimal 0 2, false);
   (decimal 1 2, true);
   (decimal 99 2, true);
   (decimal 100 2, true);
   (decimal 9999999 2, true);
   (decimal 10000000 2, true);
   (decimal 214748364700 2, true);
   (decimal 214748364799 2, false);
   (decimal 214748364800 2, false);
   (decimal (-1) 2, false)].

(** [test_cases] of [test_name_validation]. *)
Definition name_cases : list (str * bool) :=
  [(str_repeat "a" 255, true);
   (str_repeat "a" 256, false);
   ("", false)].

(** The message [test_price_boundaries] looks for on a rejected price. *)
Definition price_error_message : str :=
  "значение «цена без ндс» должно быть не меньше 0.01".

Section Browser.

(** The page under test: what it shows after the given submissions. *)
Variable browser : list form_fill -> page_view.

(** [str(x)] of a number and [s.lower()]. *)
Variable num_str : num -> str.
Variable str_lower : str -> str.

(** [page.locator(UI_SELECTORS["services_list"]["items"]).count()]. *)
Definition count_items : M ui_state nat :=
  gets (fun submitted => list_items (browser submitted)).

(** [page.locator(".invalid-feedback").all_inner_texts()]. *)
Definition all_inner_texts : M ui_state (list str) :=
  gets (fun submitted => invalid_feedback (browser submitted)).

(** The three [page.fill] calls and the click on submit. *)
Definition fill_and_submit (f : form_fill) : M ui_state unit :=
  fun submitted => (Return tt, (submitted ++ [f])%list).

(** [test_price_boundaries(price, should_pass)]. *)
Definition test_price_boundaries (price : float) (should_pass : bool)
  : M ui_state unit :=
  services_before <- count_items ;;
  fill_and_submit
    {| form_name := "Price boundary " ++ num_str (PyFloat price);
       form_quantity := "1";
       form_price := num_str (PyFloat price) |} ;;
  services_after <- count_items ;;
  if should_pass then
    lift (py_assert (services_before <? services_after)%nat
            (Some (Fmt "Цена {} должна создавать услугу"
                       [JNum (PyFloat price)])))
  else
    lift (py_assert (services_after =? services_before)%nat
            (Some (Fmt "Цена {} НЕ должна создавать услугу"
                       [JNum (PyFloat price)]))) ;;
    texts <- all_inner_texts ;;
    let error_text := str_lower (str_join " " texts) in
    lift (py_assert (str_in price_error_message error_text)
            (Some (Fmt "Не найдено сообщение об ошибке для цены {}"
                       [JNum (PyFloat price)]))).

(** One iteration of the loop of [test_name_validation]. *)
Definition name_validation_step (case : str * bool) : M ui_state unit :=
  let '(name, should_pass) := case in
  services_before <- count_items ;;
  fill_and_submit
    {| form_name := name; form_quantity := "1"; form_price := "100" |} ;;
  services_after <- count_items ;;
  let len := JNum (PyInt (Z.of_nat (str_len name))) in
  if should_pass then
    lift (py_assert (services_before <? services_after)%nat
            (Some (Fmt "Имя длиной {} должно создать услугу" [len])))
  else
    lift (py_assert (services_after =? services_before)%nat
            (Some (Fmt "Имя длиной {} НЕ должно создать услугу" [len]))).

(** [test_name_validation]. *)
Definition test_name_validation : M ui_state unit :=
  for_each name_cases name_validation_step.

End Browser.

End Ui.

(** ** Python values: what the remaining tests use *)

Module PyMore.
Local Open Scope string_scope.

(** The exact comparison of a float with an int, [None] for a NaN (every
    ordered comparison with a NaN is false). *)
Definition float_compare_int (f : float) (z : Z) : option comparison :=
  match f with
  | S754_nan => None
  | S754_infinity s => Some (if s then Lt else Gt)
  | S754_zero _ => Some (0 ?= z)%Z
  | S754_finite s m e =>
      let e0 := Z.min e 0 in
      Some (scaled s m e e0 ?= z * 2 ^ (0 - e0))%Z
  end.

Definition num_compare_int (p : num) (z : Z) : option comparison :=
  match p with
  | PyInt x => Some (x ?= z)%Z
  | PyFloat f => float_compare_int f z
  end.

(** [p <= z] and [p > z] for a number [p] and an int [z]. *)
Definition num_le_int (p : num) (z : Z) : bool :=
  match num_compare_int p z with
  | Some Lt | Some Eq => true
  | _ => false
  end.

Definition num_gt_int (p : num) (z : Z) : bool :=
  match num_compare_int p z with
  | Some Gt => true
  | _ => false
  end.

(** [bool(x)], as [if x:] takes it. *)
Definition py_truthy (x : json) : bool :=
  match x with
  | JNull => false
  | JBool b => b
  | JNum (PyInt z) => negb (z =? 0)%Z
  | JNum (PyFloat (S754_zero _)) => false
  | JNum (PyFloat _) => true
  | JStr EmptyString => false
  | JStr (String _ _) => true
  | JArr [] => false
  | JArr (_ :: _) => true
  | JObj [] => false
  | JObj (_ :: _) => true
  end.

(** [x.get(k)]: only a [dict] has [get]; a missing key gives [None]. *)
Definition py_get (x : json) (k : str) : result json :=
  match x with
  | JObj kv =>
      match lookup k kv with
      | Some v => Return v
      | None => Return JNull
      end
  | _ => Raise AttributeError
  end.

(** [x.get(k, default)]. *)
Definition py_get_default (x : json) (k : str) (default : json)
  : result json :=
  match x with
  | JObj kv =>
      match lookup k kv with
      | Some v => Return v
      | None => Return default
      end
  | _ => Raise AttributeError
  end.

(** [x - f] for a decoded value [x] and a float [f]: a number (or a
    boolean, which is an int) is converted to a float first. *)
Definition py_sub_float (x : json) (f : float) : result float :=
  match x with
  | JNum n =>
      let* a := of_arith (to_float n) in Return (SFsub prec emax a f)
  | JBool b =>
      let* a := of_arith (to_float (num_of_bool b)) in
      Return (SFsub prec emax a f)
  | _ => Raise TypeError
  end.

(** [abs(x - f) < 0.01]. *)
Definition within_tolerance (x : json) (f : float) : result bool :=
  let* d := py_sub_float x f in
  Return (SFltb (SFabs d) (decimal 1 2)).

(** [response.status_code in codes]. *)
Definition status_in (r : response) (codes : list Z) : bool :=
  existsb (Z.eqb (status_code r)) codes.

End PyMore.

Import PyMore.

(** ** config.py: the canned services *)

Module ConfigData.
Local Open Scope string_scope.

(** An entry of [REALISTIC_DATA["services"]]. *)
Record service_info := {
  info_name : str;
  info_quantity : Z;
  info_price : num
}.

(** [REALISTIC_DATA["services"]]. *)
Definition REALISTIC_services : list service_info :=
  [{| info_name := "Консультация специалиста";
      info_quantity := 1; info_price := PyInt 3000 |};
   {| info_name := "Техническое обслуживание сервера";
      info_quantity := 1; info_price := PyInt 2147483646 |};
   {| info_name := "Разработка мобильного приложения";
      info_quantity := 1; info_price := PyInt 2147483648 |};
   {| info_name := "SEO-оптимизация сайта";
      info_quantity := 1; info_price := PyFloat (decimal 214748364700 2) |};
   {| info_name := "Обучение работе с CRM";
      info_quantity := 10; info_price := PyInt 2500 |};
   {| info_name := "Ремонт компьютера";
      info_quantity := 1; info_price := PyInt (-3500) |};
   {| info_name := "Установка Windows";
      info_quantity := 1; info_price := PyInt 2000 |};
   {| info_name := "Чистка от вирусов";
      info_quantity := 1; info_price := PyInt 1500 |};
   {| info_name := "service";
      info_quantity := 10; info_price := PyFloat (decimal 10000 2) |}].

End ConfigData.

Import ConfigData.

(** ** test_service_api.py: the remaining tests *)

Module ApiTests.
Local Open Scope string_scope.

(** The payload every test builds: the five fields, in this order. *)
Definition service_data (name quantity price tax gross : json) : json :=
  JObj [("name", name); ("quantity", quantity); ("price", price);
        ("tax", tax); ("gross", gross)].

(** A payload whose tax and gross come from the calculator. *)
Definition calculated_data (name : str) (quantity : json) (price : num)
  : result json :=
  let* tax := of_arith (calculate_tax price) in
  let* gross := of_arith (calculate_gross price) in
  Return (service_data (JStr name) quantity (JNum price)
            (JNum (PyFloat tax)) (JNum (PyFloat gross))).

(** [assert key in x, msg]. *)
Definition assert_in (key : str) (x : json) (msg : str) : result unit :=
  let* has := py_in key x in
  py_assert has (Some (Fmt msg [])).

(** [assert x[key] == expected]. *)
Definition assert_item_eq (x : json) (key : str) (expected : json)
  : result unit :=
  let* actual := getitem x key in
  py_assert (py_eq actual expected) None.

(** [assert x[key] == y[key]]. *)
Definition assert_same_item (x y : json) (key : str) : result unit :=
  let* actual := getitem x key in
  let* expected := getitem y key in
  py_assert (py_eq actual expected) None.

(** The payload of [test_create_service_from_example]. *)
Definition example_data : json :=
  service_data (JStr "service") (JNum (PyInt 10)) (JNum (PyInt 100))
    (JNum (PyInt 22)) (JNum (PyInt 122)).

(** The payloads of the negative tests. *)
Definition empty_name_data : json :=
  service_data (JStr "") (JNum (PyInt 10)) (JNum (PyInt 100))
    (JNum (PyInt 22)) (JNum (PyInt 122)).

Definition missing_name_data : json :=
  JObj [("quantity", JNum (PyInt 10)); ("price", JNum (PyInt 100));
        ("tax", JNum (PyInt 22)); ("gross", JNum (PyInt 122))].

Definition min_price_data : json :=
  service_data (JStr "Test") (JNum (PyInt 1)) (JNum (PyInt 0))
    (JNum (PyInt 0)) (JNum (PyInt 0)).

Definition min_tax_data : json :=
  service_data (JStr "Test") (JNum (PyInt 1)) (JNum (PyInt 100))
    (JNum (PyInt 0)) (JNum (PyInt 100)).

Definition min_gross_data : json :=
  service_data (JStr "Test") (JNum (PyInt 1)) (JNum (PyInt 100))
    (JNum (PyInt 22)) (JNum (PyInt 0)).

(** [required_fields] of [test_validation_empty_json]. *)
Definition required_fields : list str :=
  ["name"; "quantity"; "price"; "tax"; "gross"].

(** The payloads of the overflow observations. *)
Definition overflow_quantity_data : json :=
  service_data (JStr "Overflow quantity test")
    (JNum (PyInt (max_int DB_LIMITS + 1))) (JNum (PyInt 100))
    (JNum (PyInt 22)) (JNum (PyInt 122)).

Definition overflow_price_data : json :=
  service_data (JStr "Overflow price test") (JNum (PyInt 1))
    (JNum (PyInt (max_int DB_LIMITS + 1)))
    (JNum (PyInt 22)) (JNum (PyInt 122)).

Definition underflow_data : json :=
  service_data (JStr "Integer underflow test")
    (JNum (PyInt (min_int DB_LIMITS - 1)))
    (JNum (PyInt (min_int DB_LIMITS - 1)))
    (JNum (PyFloat (decimal 1 2))) (JNum (PyFloat (decimal 1 2))).

Definition inconsistent_data : json :=
  service_data (JStr "Bug test inconsistent response") (JNum (PyInt 10))
    (JNum (PyInt 100)) (JNum (PyInt 22)) (JNum (PyInt 122)).

Definition negative_price_data : json :=
  service_data (JStr "Negative price test") (JNum (PyInt 1))
    (JNum (PyInt (-100))) (JNum (PyInt (-22))) (JNum (PyInt (-122))).

Definition quantity_as_string_data : json :=
  service_data (JStr "Test") (JStr "ten") (JNum (PyInt 100))
    (JNum (PyInt 22)) (JNum (PyInt 122)).

(** [too_long_name] of [test_bug_exceeding_name_length]. *)
Definition too_long_name : str :=
  str_repeat "A" (Z.to_nat (name_max_length DB_LIMITS + 1)).

(** What three tests evaluate on a 422 to print the first error of a
    field: [errors = response.json().get("errors", {})], then, if the
    field is in [errors], [errors[field][0]]. *)
Definition first_error (field : str) (response : response) : result unit :=
  let* response_data := response_json response in
  let* errors := py_get_default response_data "errors" (JObj []) in
  let* has := py_in field errors in
  if has : bool then
    let* messages := getitem errors field in
    let* _ := getitem0 messages in
    Return tt
  else Return tt.

(** [test_cases] of [test_tax_calculation_precision]: price, expected
    tax, expected gross. *)
Definition precision_cases : list (num * float * float) :=
  [(PyInt 100, decimal 220 1, decimal 1220 1);
   (PyFloat (decimal 25050 2), decimal 5511 2, decimal 30561 2);
   (PyFloat (decimal 9999 2), decimal 220 1, decimal 12199 2);
   (PyInt 1000, decimal 2200 1, decimal 12200 1);
   (PyFloat (decimal 3333 2), decimal 733 2, decimal 4066 2);
   (PyInt 3000, decimal 6600 1, decimal 36600 1);
   (PyInt 2500, decimal 5500 1, decimal 30500 1)].

(** [max_name] of [test_create_service_with_max_name_length]. *)
Definition max_name : str :=
  str_repeat "A" (Z.to_nat (name_max_length DB_LIMITS)).

(** [test_cases] of [test_create_service_with_boundary_integers]: name,
    quantity and price, [safe_max_value] being 1000000. *)
Definition boundary_cases : list (str * Z * Z) :=
  [("Large price", 1, 1000000); ("Large quantity", 1000, 100)]%Z.

(** The payload of [test_invalid_data_type_name_as_number]. *)
Definition name_as_number_data : json :=
  service_data (JNum (PyInt 123)) (JNum (PyInt 1)) (JNum (PyInt 100))
    (JNum (PyInt 22)) (JNum (PyInt 122)).

(** The rows of [REALISTIC_DATA] that [test_create_realistic_services]
    does not skip. *)
Definition eligible (info : service_info) : bool :=
  negb (num_le_int (info_price info) 0) &&
  negb (num_gt_int (info_price info) (max_int DB_LIMITS)).

Section Remote.

Variable server : list Api.request -> Api.request -> result response.
Variable num_str : num -> str.
Variable str_lower : str -> str.

(** [test_create_service_success]. *)
Definition test_create_service_success : M Api.test_state unit :=
  data <- lift (calculated_data "Test Service" (JNum (PyInt 10)) (PyInt 100)) ;;
  response <- Api.create_service server data ;;
  created_service <- lift (extract_service_from_response response) ;;
  lift (assert_in "name" created_service "В ответе отсутствует name") ;;
  lift (assert_in "description" created_service
          "В ответе отсутствует description") ;;
  lift (assert_in "price" created_service "В ответе отсутствует price") ;;
  lift (assert_in "tax" created_service "В ответе отсутствует tax") ;;
  lift (assert_in "gross" created_service "В ответе отсутствует gross") ;;
  lift (assert_same_item created_service data "name") ;;
  lift (assert_same_item created_service data "price") ;;
  lift (assert_same_item created_service data "tax") ;;
  lift (assert_same_item created_service data "gross") ;;
  _ <- lift (getitem created_service "uuid") ;;
  ret tt.

(** [test_create_service_from_example]. *)
Definition test_create_service_from_example : M Api.test_state unit :=
  response <- Api.create_service server example_data ;;
  created_service <- lift (extract_service_from_response response) ;;
  lift (assert_item_eq created_service "name" (JStr "service")) ;;
  lift (assert_item_eq created_service "price" (JNum (PyInt 100))) ;;
  lift (assert_item_eq created_service "tax" (JNum (PyInt 22))) ;;
  lift (assert_item_eq created_service "gross" (JNum (PyInt 122))).

(** The loop of [test_create_realistic_services], with its counter. *)
Fixpoint realistic_loop (services : list service_info)
    (successful_count : Z) : M Api.test_state Z :=
  match services with
  | [] => ret successful_count
  | info :: rest =>
      if num_le_int (info_price info) 0 then
        realistic_loop rest successful_count
      else if num_gt_int (info_price info) (max_int DB_LIMITS) then
        realistic_loop rest successful_count
      else
        data <- lift (calculated_data (info_name info)
                        (JNum (PyInt (info_quantity info)))
                        (info_price info)) ;;
        response <- Api.create_service server data ;;
        realistic_loop rest
          (if status_ok response then successful_count + 1
           else successful_count)%Z
  end.

(** [test_create_realistic_services]. *)
Definition test_create_realistic_services : M Api.test_state unit :=
  successful_count <- realistic_loop REALISTIC_services 0 ;;
  lift (py_assert (0 <? successful_count)%Z
          (Some (Fmt "Не удалось создать ни одной реалистичной услуги" []))).

(** [test_delete_service_success]. *)
Definition test_delete_service_success : M Api.test_state unit :=
  data <- lift (calculated_data "Service to Delete" (JNum (PyInt 1))
                  (PyInt 100)) ;;
  create_response <- Api.create_service server data ;;
  lift (py_assert (status_ok create_response)
          (Some (Fmt "Не удалось создать услугу" []))) ;;
  created <- lift (response_json create_response) ;;
  service_uuid <- lift (getitem created "uuid") ;;
  response <- Api.http server (Api.DELETE service_uuid) ;;
  lift (py_assert (status_in response [200; 204]%Z)
          (Some (Fmt "Ожидался код 200/204, получен {}"
                     [JNum (PyInt (status_code response))]))) ;;
  get_response <- Api.http server (Api.GET service_uuid) ;;
  lift (py_assert (status_code get_response =? 404)%Z
          (Some (Fmt "Удаленная услуга все еще доступна" []))) ;;
  Api.remove_created service_uuid.

(** [test_delete_service_twice]. *)
Definition test_delete_service_twice : M Api.test_state unit :=
  data <- lift (calculated_data "Service for double delete"
                  (JNum (PyInt 1)) (PyInt 100)) ;;
  create_response <- Api.create_service server data ;;
  (if status_ok create_response then ret tt
   else lift (Raise (Skipped (Fmt "Не удалось создать услугу для теста" [])))) ;;
  created <- lift (response_json create_response) ;;
  service_uuid <- lift (getitem created "uuid") ;;
  response1 <- Api.http server (Api.DELETE service_uuid) ;;
  lift (py_assert (status_in response1 [200; 204]%Z) None) ;;
  response2 <- Api.http server (Api.DELETE service_uuid) ;;
  lift (py_assert (status_in response2 [404; 204]%Z)
          (Some (Fmt "Ожидался код 404/204, получен {}"
                     [JNum (PyInt (status_code response2))]))) ;;
  Api.remove_created service_uuid.

(** What the four minimum-value tests do after building their payload:
    [test_validation_min_quantity], [test_validation_min_price],
    [test_validation_min_tax] and [test_validation_min_gross] differ in
    the payload and the field only. *)
Definition validation_min_test (data : json) (field : str)
  : M Api.test_state unit :=
  response <- Api.create_service server data ;;
  errors <- lift (assert_validation_error response (Some field)) ;;
  items <- lift (py_iter errors) ;;
  hit <- lift (Api.any_minimum_message str_lower items) ;;
  lift (py_assert hit None) ;;
  _ <- lift (getitem0 errors) ;;
  ret tt.

Definition test_validation_min_price : M Api.test_state unit :=
  validation_min_test min_price_data "price".

Definition test_validation_min_tax : M Api.test_state unit :=
  validation_min_test min_tax_data "tax".

Definition test_validation_min_gross : M Api.test_state unit :=
  validation_min_test min_gross_data "gross".

(** The generator of the two name tests, consumed by [any]:
    ["заполнить" in err.lower() or "required" in err.lower()]. *)
Fixpoint any_required_message (errs : list json) : result bool :=
  match errs with
  | [] => Return false
  | err :: rest =>
      let* hit :=
        match err with
        | JStr s =>
            Return (str_in "заполнить" (str_lower s)
                    || str_in "required" (str_lower s))
        | _ => Raise AttributeError
        end in
      if hit : bool then Return true else any_required_message rest
  end.

(** What the two name tests do with the response. *)
Definition check_name_errors (response : response) : result unit :=
  let* errors := assert_validation_error response (Some "name") in
  let* items := py_iter errors in
  let* hit := any_required_message items in
  let* _ := py_assert hit None in
  let* _ := getitem0 errors in
  Return tt.

(** [test_validation_empty_name]: through [create_service]. *)
Definition test_validation_empty_name : M Api.test_state unit :=
  response <- Api.create_service server empty_name_data ;;
  lift (check_name_errors response).

(** [test_validation_missing_name]: a [requests.post] of its own. *)
Definition test_validation_missing_name : M Api.test_state unit :=
  response <- Api.http server (Api.POST missing_name_data) ;;
  lift (check_name_errors response).

(** The loop of [test_validation_empty_json] over the required fields. *)
Fixpoint assert_fields (fields : list str) (all_errors : json)
  : result unit :=
  match fields with
  | [] => Return tt
  | field :: rest =>
      let* has := py_in field all_errors in
      let* _ := py_assert has
                  (Some (Fmt "Ожидалась ошибка для поля '{}'" [JStr field])) in
      assert_fields rest all_errors
  end.

(** [test_validation_empty_json]: a [requests.post] of its own; the last
    line prints [list(all_errors.keys())]. *)
Definition test_validation_empty_json : M Api.test_state unit :=
  response <- Api.http server (Api.POST (JObj [])) ;;
  all_errors <- lift (assert_validation_error response None) ;;
  lift (assert_fields required_fields all_errors) ;;
  _ <- lift (py_keys all_errors) ;;
  ret tt.

(** [test_bug_integer_overflow_quantity]: after the creation it only
    prints, whatever the status. *)
Definition test_bug_integer_overflow_quantity : M Api.test_state unit :=
  _ <- Api.create_service server overflow_quantity_data ;;
  ret tt.

(** [test_bug_integer_underflow]: likewise. *)
Definition test_bug_integer_underflow : M Api.test_state unit :=
  _ <- Api.create_service server underflow_data ;;
  ret tt.

(** [test_bug_integer_overflow_price]: on a 200 or 201 it reads
    [response.json().get("price")]. *)
Definition test_bug_integer_overflow_price : M Api.test_state unit :=
  response <- Api.create_service server overflow_price_data ;;
  if (status_code response =? 422)%Z then ret tt
  else if status_ok response then
    response_data <- lift (response_json response) ;;
    _ <- lift (py_get response_data "price") ;;
    ret tt
  else ret tt.

(** [test_bug_critical_inconsistent_response_structure]: what it
    evaluates for its prints. *)
Definition test_bug_critical_inconsistent_response_structure
  : M Api.test_state unit :=
  response <- Api.create_service server inconsistent_data ;;
  lift (py_assert (status_ok response)
          (Some (Fmt "Запрос завершился с ошибкой: {}"
                     [JNum (PyInt (status_code response))]))) ;;
  response_data <- lift (response_json response) ;;
  _ <- lift (py_keys response_data) ;;
  has_uuid <- lift (py_in "uuid" response_data) ;;
  if has_uuid : bool then
    _ <- lift (getitem response_data "uuid") ;;
    ret tt
  else
    has_data <- lift (py_in "data" response_data) ;;
    if has_data : bool then
      data <- lift (getitem response_data "data") ;;
      _ <- lift (py_len data) ;;
      if py_truthy data then
        first <- lift (getitem0 data) ;;
        _ <- lift (py_keys first) ;;
        ret tt
      else ret tt
    else ret tt.

(** [test_bug_exceeding_name_length]: on a 422 the first error is read
    inside a [try] with a bare [except]; on a 200 or 201 the test takes
    [len(response_data.get("name", ""))]. *)
Definition test_bug_exceeding_name_length : M Api.test_state unit :=
  data <- lift (calculated_data too_long_name (JNum (PyInt 1)) (PyInt 100)) ;;
  response <- Api.create_service server data ;;
  if (status_code response =? 422)%Z then
    try_except (lift (first_error "name" response)) (ret tt)
  else if status_ok response then
    response_data <- lift (response_json response) ;;
    name <- lift (py_get_default response_data "name" (JStr "")) ;;
    _ <- lift (py_len name) ;;
    ret tt
  else ret tt.

(** [test_negative_price]: on a 422 the first error is read without a
    [try]. *)
Definition test_negative_price : M Api.test_state unit :=
  response <- Api.create_service server negative_price_data ;;
  if (status_code response =? 422)%Z then
    lift (first_error "price" response)
  else ret tt.

(** [test_invalid_data_type_quantity_as_string]: likewise. *)
Definition test_invalid_data_type_quantity_as_string
  : M Api.test_state unit :=
  response <- Api.create_service server quantity_as_string_data ;;
  if (status_code response =? 422)%Z then
    lift (first_error "quantity" response)
  else ret tt.

(** One iteration of the loop of [test_tax_calculation_precision]. *)
Definition precision_step (case : num * float * float)
  : M Api.test_state unit :=
  let '(price, expected_tax, expected_gross) := case in
  calculated_tax <- lift (of_arith (calculate_tax price)) ;;
  calculated_gross <- lift (of_arith (calculate_gross price)) ;;
  let data :=
    service_data (JStr ("Tax test " ++ num_str price)) (JNum (PyInt 1))
      (JNum price) (JNum (PyFloat calculated_tax))
      (JNum (PyFloat calculated_gross)) in
  response <- Api.create_service server data ;;
  lift (py_assert (status_ok response)
          (Some (Fmt "Для цены {} ожидался код 200/201, получен {}"
                     [JNum price; JNum (PyInt (status_code response))]))) ;;
  response_data <- lift (response_json response) ;;
  actual_tax <- lift (getitem response_data "tax") ;;
  tax_close <- lift (within_tolerance actual_tax expected_tax) ;;
  lift (py_assert tax_close
          (Some (Fmt "НДС для {}: ожидалось {}, получено {}"
                     [JNum price; JNum (PyFloat expected_tax); actual_tax]))) ;;
  actual_gross <- lift (getitem response_data "gross") ;;
  gross_close <- lift (within_tolerance actual_gross expected_gross) ;;
  lift (py_assert gross_close
          (Some (Fmt "Итого для {}: ожидалось {}, получено {}"
                     [JNum price; JNum (PyFloat expected_gross);
                      actual_gross]))).

(** [test_tax_calculation_precision]. *)
Definition test_tax_calculation_precision : M Api.test_state unit :=
  for_each precision_cases precision_step.

(** [test_create_service_with_max_name_length]. *)
Definition test_create_service_with_max_name_length
  : M Api.test_state unit :=
  data <- lift (calculated_data max_name (JNum (PyInt 5)) (PyInt 100)) ;;
  response <- Api.create_service server data ;;
  lift (py_assert (status_ok response)
          (Some (Fmt "Ожидался код 200/201, получен {}"
                     [JNum (PyInt (status_code response))]))) ;;
  response_data <- lift (response_json response) ;;
  name <- lift (getitem response_data "name") ;;
  actual_length <- lift (py_len name) ;;
  lift (py_assert (actual_length <=? name_max_length DB_LIMITS)%Z
          (Some (Fmt "Длина названия превышает максимум: {} > {}"
                     [JNum (PyInt actual_length);
                      JNum (PyInt (name_max_length DB_LIMITS))]))).

(** One iteration of the loop of
    [test_create_service_with_boundary_integers]: both branches on the
    status only print. *)
Definition boundary_step (case : str * Z * Z) : M Api.test_state unit :=
  let '(name, quantity, price) := case in
  data <- lift (calculated_data name (JNum (PyInt quantity)) (PyInt price)) ;;
  _ <- Api.create_service server data ;;
  ret tt.

(** [test_create_service_with_boundary_integers]. *)
Definition test_create_service_with_boundary_integers
  : M Api.test_state unit :=
  for_each boundary_cases boundary_step.

(** [test_invalid_data_type_name_as_number]: on a 200 or 201 it reads
    [response.json().get("name")]. *)
Definition test_invalid_data_type_name_as_number : M Api.test_state unit :=
  response <- Api.create_service server name_as_number_data ;;
  if (status_code response =? 422)%Z then ret tt
  else if status_ok response then
    response_data <- lift (response_json response) ;;
    _ <- lift (py_get response_data "name") ;;
    ret tt
  else ret tt.

End Remote.

End ApiTests.

(** ** test_ui.py: the cleanup fixture *)

Module UiCleanup.

Section Page.

(** The number of delete links the page shows after the given number of
    clicks on the first one (each click followed by the waits). *)
Variable delete_buttons : nat -> nat.

(** [cleanup_services], before the [yield]: click the first delete link
    while there is one.  [fuel] bounds the clicks; [None] when it runs
    out with links left, otherwise the number of clicks made. *)
Fixpoint cleanup_services (fuel clicks : nat) : option nat :=
  if (0 <? delete_buttons clicks)%nat then
    match fuel with
    | O => None
    | S fuel' => cleanup_services fuel' (S clicks)
    end
  else Some clicks.

End Page.

End UiCleanup.

(** ** More sample collaborators *)

Module MoreSamples.
Local Open Scope string_scope.

(** Some earlier request deleted the identifier. *)
Definition deleted (log : list Api.request) (id : json) : bool :=
  existsb (fun rq => match rq with
                     | Api.DELETE i => py_eq i id
                     | _ => false
                     end) log.

(** A service that stores and deletes: a POST of an object answers 201
    with the object, a fresh [uuid] and a [description]; a GET answers
    200 with the stored object, or 404 once it is deleted; a DELETE
    answers 204, or 404 once it is deleted. *)
Definition store_server (log : list Api.request) (rq : Api.request)
  : result response :=
  match rq with
  | Api.POST (JObj kv) =>
      Return {| status_code := 201;
                body := Some (JObj (("uuid",
                  JNum (PyInt (Z.of_nat (List.length log))))
                  :: ("description", JNull) :: kv)) |}
  | Api.POST _ => Return {| status_code := 400; body := None |}
  | Api.GET id =>
      if deleted log id then Return {| status_code := 404; body := None |}
      else
        match id with
        | JNum (PyInt n) =>
            match nth_error log (Z.to_nat n) with
            | Some (Api.POST (JObj kv)) =>
                Return {| status_code := 200;
                          body := Some (JObj (("uuid", id)
                                         :: ("description", JNull) :: kv)) |}
            | _ => Return {| status_code := 404; body := None |}
            end
        | _ => Return {| status_code := 404; body := None |}
        end
  | Api.DELETE id =>
      if deleted log id then Return {| status_code := 404; body := None |}
      else Return {| status_code := 204; body := None |}
  end.

(** A service that answers every creation in the collection shape, the
    record it stored first. *)
Definition collection_server (log : list Api.request) (rq : Api.request)
  : result response :=
  match rq with
  | Api.POST (JObj kv) =>
      Return {| status_code := 200;
                body := Some (JObj [("data", JArr [JObj (("uuid",
                                       JNum (PyInt (Z.of_nat (List.length log))))
                                       :: kv)]);
                                    ("pagination", JObj [])]) |}
  | _ => Return {| status_code := 404; body := None |}
  end.

(** A service that is down: every call answers 500 with a page that is
    not JSON. *)
Definition failing_server (log : list Api.request) (rq : Api.request)
  : result response :=
  Return {| status_code := 500; body := None |}.

(** A service that refuses every creation with a 422 and an error for
    each of the five fields. *)
Definition refusing_server (log : list Api.request) (rq : Api.request)
  : result response :=
  Return {| status_code := 422;
            body := Some (JObj [("errors", JObj
              (map (fun field => (field, JArr [JStr "необходимо заполнить"]))
                   ApiTests.required_fields))]) |}.

(** A service that refuses with a 422 and a page that is not JSON. *)
Definition blunt_server (log : list Api.request) (rq : Api.request)
  : result response :=
  Return {| status_code := 422; body := None |}.

(** A page with three delete links, each click removing one. *)
Definition three_links (clicks : nat) : nat := 3 - clicks.

End MoreSamples.

(** ** Sample collaborators

    Small stand-ins for the remote service, the page and the string
    functions, on which the tests can be run. *)

Module Sample.
Local Open Scope string_scope.

(** A service that stores what it is sent: a POST of an object answers
    201 with the object and a fresh [uuid] (the number of earlier calls),
    except that a quantity of 0 is refused with a 422; a GET of an
    identifier answers 200 with the object posted under it; a DELETE
    answers 204. *)
Definition memory_server (log : list Api.request) (rq : Api.request)
  : result response :=
  match rq with
  | Api.POST (JObj kv) =>
      match lookup "quantity" kv with
      | Some (JNum (PyInt 0)) =>
          Return {| status_code := 422;
                    body := Some (JObj [("errors", JObj [("quantity",
                      JArr [JStr "значение «количество» должно быть не меньше 1"])])]) |}
      | _ =>
          Return {| status_code := 201;
                    body := Some (JObj (("uuid",
                      JNum (PyInt (Z.of_nat (List.length log)))) :: kv)) |}
      end
  | Api.POST _ => Return {| status_code := 400; body := None |}
  | Api.GET (JNum (PyInt n)) =>
      match nth_error log (Z.to_nat n) with
      | Some (Api.POST (JObj kv)) =>
          Return {| status_code := 200;
                    body := Some (JObj (("uuid", JNum (PyInt n)) :: kv)) |}
      | _ => Return {| status_code := 404; body := None |}
      end
  | Api.GET _ => Return {| status_code := 404; body := None |}
  | Api.DELETE _ => Return {| status_code := 204; body := None |}
  end.

(** A service that answers every creation in the collection shape, with
    records that carry no [uuid]. *)
Definition listing_server (log : list Api.request) (rq : Api.request)
  : result response :=
  Return {| status_code := 200;
            body := Some (JObj [("data", JArr [JObj [("name", JStr "service")]]);
                                ("pagination", JObj [])]) |}.

(** A payload with a NaN among its fields. *)
Definition has_nan_field (data : json) : bool :=
  match data with
  | JObj kv =>
      existsb (fun binding => match snd binding with
                              | JNum (PyFloat S754_nan) => true
                              | _ => false
                              end) kv
  | _ => false
  end.

(** The storing service behind the transport of [requests]: a payload
    with a NaN cannot be encoded, [requests.post] raises
    [InvalidJSONError], a [RequestException], and there is no response;
    every other call is answered as by [memory_server]. *)
Definition encoding_server (log : list Api.request) (rq : Api.request)
  : result response :=
  match rq with
  | Api.POST data =>
      if has_nan_field data then Raise RequestException
      else memory_server log rq
  | _ => memory_server log rq
  end.

(** [str(x)] on the two smallest prices of the price table. *)
Definition price_text (n : num) : str :=
  match n with
  | PyInt _ => "int"
  | PyFloat f =>
      if float_eqb f (decimal 0 2) then "0.0"
      else if float_eqb f (decimal 1 2) then "0.01"
      else "float"
  end.

(** A form the validating page accepts: a name of 1 to 255 characters
    and a price that is not written 0.0. *)
Definition form_accepted (f : Ui.form_fill) : bool :=
  negb (String.eqb (Ui.form_name f) "") &&
  (str_len (Ui.form_name f) <=? 255)%nat &&
  negb (String.eqb (Ui.form_price f) "0.0").

(** A page that validates: it lists the accepted submissions, and shows
    the price error after a submission with the price 0.0. *)
Definition validating_browser (submitted : list Ui.form_fill)
  : Ui.page_view :=
  {| Ui.list_items := List.length (filter form_accepted submitted);
     Ui.invalid_feedback :=
       match rev submitted with
       | f :: _ =>
           if String.eqb (Ui.form_price f) "0.0"
           then [Ui.price_error_message] else []
       | [] => []
       end |}.

Definition num_str (n : num) : str :=
  match n with
  | PyInt _ => "int"
  | PyFloat _ => "float"
  end.

(** Lower case on text that is already lower case. *)
Definition str_lower (s : str) : str := s.

Definition start : Api.test_state :=
  {| Api.created_service_uuids := []; Api.sent := [] |}.

End Sample.

(** ** Vocabulary of the statements *)

Local Open Scope string_scope.
Local Open Scope list_scope.

(** The values an exception's message interpolates. *)
Definition error_args (e : exn) : list json :=
  match e with
  | AssertionError (Some m) | Failed m | Skipped m => args m
  | _ => []
  end.

(** The fixed text of an exception's message, around what it
    interpolates. *)
Definition error_text (e : exn) : str :=
  match e with
  | AssertionError (Some m) | Failed m | Skipped m => template m
  | _ => ""
  end.

(** The key [k] is written in the value [j] as a message prints it: [j]
    is a text that contains [k], or a list with such a text. *)
Definition written_in (k : str) (j : json) : bool :=
  match j with
  | JStr s => str_in k s
  | JArr l =>
      existsb (fun x => match x with JStr s => str_in k s | _ => false end) l
  | _ => false
  end.

(** The message of [e] mentions the key [k]: [k] occurs in its fixed
    text or in a value it interpolates. *)
Definition mentions_key (e : exn) (k : str) : bool :=
  str_in k (error_text e) || existsb (written_in k) (error_args e).

(** The message of [e] names the keys of the dict [kv]: it mentions
    every one of them. *)
Definition names_keys (e : exn) (kv : list (str * json)) : Prop :=
  forall k, In k (keys kv) -> mentions_key e k = true.

(** What [assert_validation_error] hands back for a response and an
    optional field: the body is an object with the key [errors]; without
    a field (or with the empty string, which [if expected_field:] takes
    for none) the result is the value of [errors] whatever its type; with
    a field, [errors] is itself an object that has the field as a key and
    the result is the field's value. *)
Definition validation_result (r : response) (field : option str) (v : json)
  : Prop :=
  exists kv errors,
    body r = Some (JObj kv) /\ lookup "errors" kv = Some errors /\
    ((truthy field = false /\ v = errors) \/
     (exists f ekv,
        field = Some f /\ truthy field = true /\
        errors = JObj ekv /\ lookup f ekv = Some v)).

(** The identifier [create_service] tracks for a response, if any: the
    status is 200 or 201, the extraction succeeds, and the extracted
    record is an object that carries [uuid]. *)
Definition tracked_uuid (r : response) : option json :=
  if status_ok r then
    match extract_service_from_response r with
    | Return (JObj kv) => lookup "uuid" kv
    | _ => None
    end
  else None.

(** The tracked list after a response: one identifier more, or the same. *)
Definition track (r : response) (created : list json) : list json :=
  match tracked_uuid r with
  | Some u => created ++ [u]
  | None => created
  end.

(** [u] came from a creation recorded in [log]: a POST that the service
    answered with status 200 or 201 and a body whose extracted record is
    an object with [u] under [uuid]. *)
Definition came_from_creation
    (server : list Api.request -> Api.request -> result response)
    (log : list Api.request) (u : json) : Prop :=
  exists before data after r kv,
    log = before ++ Api.POST data :: after /\
    server before (Api.POST data) = Return r /\
    status_ok r = true /\
    extract_service_from_response r = Return (JObj kv) /\
    lookup "uuid" kv = Some u.

(** The invariant of [self.created_service_uuids]. *)
Definition tracked_invariant
    (server : list Api.request -> Api.request -> result response)
    (st : Api.test_state) : Prop :=
  Forall (came_from_creation server (Api.sent st))
         (Api.created_service_uuids st).

(** The payload [test_create_service_with_different_prices] posts for a
    price, given the tax and gross it computed. *)
Definition different_prices_data (num_str : num -> str)
    (price : num) (tax gross : float) : json :=
  JObj [("name", JStr ("Service price " ++ num_str price)%string);
        ("quantity", JNum (PyInt 1));
        ("price", JNum price);
        ("tax", JNum (PyFloat tax));
        ("gross", JNum (PyFloat gross))].

(** What a passing run of [test_create_service_with_different_prices] has
    checked for a price, [log] being the requests sent by the end: the
    payload with the computed tax and gross was posted, the service
    answered with status 200 or 201, and the body of that answer carries
    a [tax] and a [gross] equal to the computed ones. *)
Definition creation_checked
    (server : list Api.request -> Api.request -> result response)
    (num_str : num -> str) (log : list Api.request) (price : num) : Prop :=
  exists tax gross before after r response_data actual_tax actual_gross,
    calculate_tax price = inr tax /\
    calculate_gross price = inr gross /\
    log = before ++ Api.POST (different_prices_data num_str price tax gross)
                 :: after /\
    server before (Api.POST (different_prices_data num_str price tax gross))
      = Return r /\
    status_ok r = true /\
    body r = Some response_data /\
    getitem response_data "tax" = Return actual_tax /\
    py_eq actual_tax (JNum (PyFloat tax)) = true /\
    getitem response_data "gross" = Return actual_gross /\
    py_eq actual_gross (JNum (PyFloat gross)) = true.

(** The payload of [test_get_service_success]: price 200, with the tax
    44.0 and the gross 244.0 that the calculator gives for it. *)
Definition get_service_data : json :=
  JObj [("name", JStr "Service for GET");
        ("quantity", JNum (PyInt 5));
        ("price", JNum (PyInt 200));
        ("tax", JNum (PyFloat (decimal 440 1)));
        ("gross", JNum (PyFloat (decimal 2440 1)))].

(** [response_data[key] == expected] holds. *)
Definition field_equals (response_data : json) (key : str) (expected : json)
  : Prop :=
  exists actual,
    getitem response_data key = Return actual /\
    py_eq actual expected = true.

(** What a passing run of [test_get_service_success] from the log
    [before] has checked: the service was created with price 200, the
    answer carried an identifier, the GET of that identifier answered
    200, and the body read back has the same identifier, name, price and
    tax. *)
Definition read_back_checked
    (server : list Api.request -> Api.request -> result response)
    (before log : list Api.request) : Prop :=
  exists create_response created service_uuid response response_data,
    server before (Api.POST get_service_data) = Return create_response /\
    status_ok create_response = true /\
    body create_response = Some created /\
    getitem created "uuid" = Return service_uuid /\
    server (before ++ [Api.POST get_service_data]) (Api.GET service_uuid)
      = Return response /\
    status_code response = 200%Z /\
    body response = Some response_data /\
    field_equals response_data "uuid" service_uuid /\
    field_equals response_data "name" (JStr "Service for GET") /\
    field_equals response_data "price" (JNum (PyInt 200)) /\
    field_equals response_data "tax" (JNum (PyFloat (decimal 440 1))) /\
    log = before ++ [Api.POST get_service_data; Api.GET service_uuid].

(** The outcomes the table of [test_price_boundaries] expects for a
    price: the [should_pass] of every row whose price equals it. *)
Definition expected_for_price (price : float) : list bool :=
  map snd (filter (fun row => float_eqb (fst row) price) Ui.price_boundaries).

(** The form [test_name_validation] submits for a name. *)
Definition name_form (name : str) : Ui.form_fill :=
  {| Ui.form_name := name; Ui.form_quantity := "1"; Ui.form_price := "100" |}.

(** The form [test_price_boundaries] submits for a price. *)
Definition price_form (num_str : num -> str) (price : float) : Ui.form_fill :=
  {| Ui.form_name := ("Price boundary " ++ num_str (PyFloat price))%string;
     Ui.form_quantity := "1";
     Ui.form_price := num_str (PyFloat price) |}.

(** ** Vocabulary of the further statements *)

(** The sign bit of [x] is [s]; a NaN has no sign. *)
Definition sign_is (s : bool) (x : float) : Prop :=
  match x with
  | S754_nan => True
  | S754_zero t | S754_infinity t | S754_finite t _ _ => t = s
  end.

(** The payload of [test_create_service_success]. *)
Definition create_success_data : json :=
  ApiTests.service_data (JStr "Test Service") (JNum (PyInt 10))
    (JNum (PyInt 100)) (JNum (PyFloat (decimal 220 1)))
    (JNum (PyFloat (decimal 1220 1))).

(** The price a request posts, if it is a creation. *)
Definition posted_price (rq : Api.request) : option json :=
  match rq with
  | Api.POST (JObj kv) => lookup "price" kv
  | _ => None
  end.

(** Some creation recorded in [log] was answered with status 200 or
    201. *)
Definition some_creation_accepted
    (server : list Api.request -> Api.request -> result response)
    (log : list Api.request) : Prop :=
  exists before data after r,
    log = before ++ Api.POST data :: after /\
    server before (Api.POST data) = Return r /\
    status_ok r = true.

(** The payloads of the two delete tests. *)
Definition delete_data : json :=
  ApiTests.service_data (JStr "Service to Delete") (JNum (PyInt 1))
    (JNum (PyInt 100)) (JNum (PyFloat (decimal 220 1)))
    (JNum (PyFloat (decimal 1220 1))).

Definition double_delete_data : json :=
  ApiTests.service_data (JStr "Service for double delete") (JNum (PyInt 1))
    (JNum (PyInt 100)) (JNum (PyFloat (decimal 220 1)))
    (JNum (PyFloat (decimal 1220 1))).

(** The state a test leaves behind under the fixture: the teardown has
    sent one DELETE for each identifier still tracked. *)
Definition after_teardown (st : Api.test_state) : Api.test_state :=
  {| Api.created_service_uuids := Api.created_service_uuids st;
     Api.sent := Api.sent st ++ map Api.DELETE (Api.created_service_uuids st) |}.

(** The [data] of a collection body can be printed by
    [test_bug_critical_inconsistent_response_structure]: it is empty (a
    list, a text or an object), or a list whose first element is an
    object. *)
Definition data_printable (d : json) : bool :=
  match d with
  | JArr [] | JStr EmptyString | JObj [] => true
  | JArr (JObj _ :: _) => true
  | _ => false
  end.

(** The assertion error of [assert_validation_error] on a status that is
    not 422. *)
Definition expected_422 (r : response) : exn :=
  AssertionError
    (Some (Fmt "Ожидался код 422, получен {}"
               [JNum (PyInt (status_code r))])).

(** The payload [test_tax_calculation_precision] posts for a price. *)
Definition precision_data (num_str : num -> str)
    (price : num) (tax gross : float) : json :=
  ApiTests.service_data (JStr ("Tax test " ++ num_str price)%string)
    (JNum (PyInt 1)) (JNum price) (JNum (PyFloat tax)) (JNum (PyFloat gross)).

(** What a passing run of [test_tax_calculation_precision] has checked
    for a row of its table, [log] being the requests sent by the end: the
    payload with the row's price and the row's expected tax and gross
    was posted, the answer had status 200 or 201, and the [tax] and
    [gross] of its body are within 0.01 of the expected ones. *)
Definition precision_checked
    (server : list Api.request -> Api.request -> result response)
    (num_str : num -> str) (log : list Api.request)
    (case : num * float * float) : Prop :=
  let '(price, expected_tax, expected_gross) := case in
  exists before after r response_data actual_tax actual_gross,
    log = before
          ++ Api.POST (precision_data num_str price expected_tax expected_gross)
          :: after /\
    server before
      (Api.POST (precision_data num_str price expected_tax expected_gross))
      = Return r /\
    status_ok r = true /\
    body r = Some response_data /\
    getitem response_data "tax" = Return actual_tax /\
    within_tolerance actual_tax expected_tax = Return true /\
    getitem response_data "gross" = Return actual_gross /\
    within_tolerance actual_gross expected_gross = Return true.

(** The expected values of a row are the calculator's. *)
Definition row_matches_calculator (case : num * float * float) : Prop :=
  let '(price, expected_tax, expected_gross) := case in
  calculate_tax price = inr expected_tax /\
  calculate_gross price = inr expected_gross.

(** The payload of [test_bug_exceeding_name_length]: a name of 256
    characters. *)
Definition exceeding_name_data : json :=
  ApiTests.service_data (JStr ApiTests.too_long_name) (JNum (PyInt 1))
    (JNum (PyInt 100)) (JNum (PyFloat (decimal 220 1)))
    (JNum (PyFloat (decimal 1220 1))).

(** The payloads of the positive boundary tests, with the tax and gross
    the calculator gives. *)
Definition max_name_data : json :=
  ApiTests.service_data (JStr ApiTests.max_name) (JNum (PyInt 5))
    (JNum (PyInt 100)) (JNum (PyFloat (decimal 220 1)))
    (JNum (PyFloat (decimal 1220 1))).

Definition min_positive_data : json :=
  ApiTests.service_data (JStr "Min positive values") (JNum (PyInt 1))
    (JNum (PyInt 1)) (JNum (PyFloat (decimal 22 2)))
    (JNum (PyFloat (decimal 122 2))).

Definition large_price_data : json :=
  ApiTests.service_data (JStr "Large price") (JNum (PyInt 1))
    (JNum (PyInt 1000000)) (JNum (PyFloat (decimal 2200000 1)))
    (JNum (PyFloat (decimal 12200000 1))).

Definition large_quantity_data : json :=
  ApiTests.service_data (JStr "Large quantity") (JNum (PyInt 1000))
    (JNum (PyInt 100)) (JNum (PyFloat (decimal 220 1)))
    (JNum (PyFloat (decimal 1220 1))).

(** [x == 1] holds for the decoded value [x]: a number equal to 1, or
    [True]. *)
Definition equals_one (x : json) : Prop :=
  x = JBool true \/ exists n, x = JNum n /\ PyNum.eqb n (PyInt 1) = true.

(** * Properties *)

(** ** Helper lemmas on dicts and results *)

Lemma key_in_lookup (k : str) (kv : list (str * json)) :
  existsb (String.eqb k) (keys kv) =
  match lookup k kv with Some _ => true | None => false end.
Proof.
  induction kv as [|[k' v] rest IH]; cbn; [reflexivity|].
  destruct (String.eqb k k'); cbn; [reflexivity | exact IH].
Qed.

(** ** The envelope normalisation *)

Lemma starts_with_refl (s : str) : starts_with s s = true.
Proof.
  induction s as [|a s IH]; cbn [starts_with]; [reflexivity|].
  rewrite Ascii.eqb_refl, IH. reflexivity.
Qed.

Lemma str_in_refl (s : str) : str_in s s = true.
Proof. destruct s; cbn [str_in]; rewrite starts_with_refl; reflexivity. Qed.

(** C1 (as amended): [extract_service_from_response] first requires
    status 200 or 201: with any other status it fails with the assertion
    error that gives the status, whatever the body is, JSON or not.  With
    status 200 or 201 and a body that is the object [kv]: a body with the
    key [uuid] is returned unchanged; otherwise a body whose [data] is a
    non-empty list yields the first element of that list; a body whose
    [data] is an empty list fails with the assertion "Список data пустой,
    не удалось найти созданную услугу", a fixed text that lists no key;
    every other body fails through [pytest.fail] with the list of the
    body's top-level keys, an error that names every key of the body. *)
Theorem C1_extract_service_from_response_shapes
    (code : Z) (kv : list (str * json)) :
  (extract_service_from_response
     {| status_code := code; body := Some (JObj kv) |} =
   if negb ((code =? 200)%Z || (code =? 201)%Z) then
     Raise (AssertionError
              (Some (Fmt "Ожидался код 200/201, получен {}"
                         [JNum (PyInt code)])))
   else
     match lookup "uuid" kv, lookup "data" kv with
     | Some _, _ => Return (JObj kv)
     | None, Some (JArr (first :: _)) => Return first
     | None, Some (JArr []) =>
         Raise (AssertionError
                  (Some (Fmt "Список data пустой, не удалось найти созданную услугу" [])))
     | None, _ =>
         Raise (Failed
                  (Fmt "API вернул неожиданную структуру: {}\nОжидалось: {{uuid, ...}} или {{data: [...]}}"
                       [JArr (map JStr (keys kv))]))
     end) /\
  (forall answer : option json,
     (code =? 200)%Z || (code =? 201)%Z = false ->
     extract_service_from_response
       {| status_code := code; body := answer |} =
     Raise (AssertionError
              (Some (Fmt "Ожидался код 200/201, получен {}"
                         [JNum (PyInt code)])))) /\
  names_keys
    (Failed
       (Fmt "API вернул неожиданную структуру: {}\nОжидалось: {{uuid, ...}} или {{data: [...]}}"
            [JArr (map JStr (keys kv))])) kv.
Proof.
  split; [|split].
  - unfold extract_service_from_response, status_ok, response_json.
    cbn [status_code body existsb py_assert rbind].
    rewrite Bool.orb_false_r.
    destruct ((code =? 200)%Z || (code =? 201)%Z); cbn [negb rbind];
      [|reflexivity].
    unfold py_in. rewrite !key_in_lookup. cbn [rbind].
    destruct (lookup "uuid" kv) as [u|]; [reflexivity|].
    unfold getitem.
    destruct (lookup "data" kv) as [d|]; cbn [rbind]; [|reflexivity].
    destruct d as [| | | |l|]; cbn [is_list rbind py_keys]; try reflexivity.
    destruct l as [|first rest]; reflexivity.
  - intros answer Hcode.
    unfold extract_service_from_response, status_ok.
    cbn [status_code existsb]. rewrite Bool.orb_false_r, Hcode. reflexivity.
  - intros k Hk. unfold mentions_key.
    apply Bool.orb_true_iff. right.
    cbn [error_args args existsb written_in]. rewrite Bool.orb_false_r.
    apply existsb_exists. exists (JStr k).
    split; [apply in_map; exact Hk | apply str_in_refl].
Qed.

(** C1, as stated, fails on the body [{"data": [], "pagination": {}}]
    with status 200: the body has no [uuid] and its [data] is not a
    non-empty list, yet the failure is the assertion about the empty
    list, whose fixed text has the word [data] but not [pagination]: the
    error does not name the top-level keys of the body. *)
Lemma C1_empty_data_does_not_name_the_keys :
  let kv := [("data", JArr []); ("pagination", JObj [])] in
  lookup "uuid" kv = None /\
  lookup "data" kv = Some (JArr []) /\
  exists e,
    extract_service_from_response
      {| status_code := 200; body := Some (JObj kv) |} = Raise e /\
    e = AssertionError
          (Some (Fmt "Список data пустой, не удалось найти созданную услугу" [])) /\
    mentions_key e "data" = true /\
    mentions_key e "pagination" = false /\
    ~ names_keys e kv.
Proof.
  cbn zeta. split; [reflexivity|]. split; [reflexivity|].
  eexists. split; [reflexivity|]. split; [reflexivity|].
  split; [vm_compute; reflexivity|]. split; [vm_compute; reflexivity|].
  intros H.
  assert (Hp : mentions_key
                 (AssertionError
                    (Some (Fmt "Список data пустой, не удалось найти созданную услугу" [])))
                 "pagination" = true).
  { apply H. cbn. auto. }
  vm_compute in Hp. discriminate Hp.
Qed.

(** The three bodies of the specification's normalisation property: a
    single record is returned unchanged, a collection yields its first
    record, the empty object fails with an empty list of keys. *)
Lemma extract_service_examples :
  let record := JObj [("uuid", JStr "x"); ("name", JStr "y")] in
  extract_service_from_response
    {| status_code := 201; body := Some record |} = Return record /\
  extract_service_from_response
    {| status_code := 200;
       body := Some (JObj [("data", JArr [record]); ("pagination", JObj [])]) |}
    = Return record /\
  extract_service_from_response
    {| status_code := 200; body := Some (JObj []) |}
    = Raise (Failed
        (Fmt "API вернул неожиданную структуру: {}\nОжидалось: {{uuid, ...}} или {{data: [...]}}"
             [JArr []])).
Proof. cbn zeta. repeat split; reflexivity. Qed.

(** ** The tax calculator *)

Local Open Scope Z_scope.

(** A number of [d] binary digits is at least [2^(d-1)]. *)
Lemma digits2_pos_lower (m : positive) :
  2 ^ (Zpos (digits2_pos m) - 1) <= Zpos m.
Proof.
  induction m as [m IH|m IH|]; cbn [digits2_pos].
  - rewrite Pos2Z.inj_succ.
    replace (Z.succ (Zpos (digits2_pos m)) - 1) with (Z.succ (Zpos (digits2_pos m) - 1)) by lia.
    rewrite Z.pow_succ_r by lia. lia.
  - rewrite Pos2Z.inj_succ.
    replace (Z.succ (Zpos (digits2_pos m)) - 1) with (Z.succ (Zpos (digits2_pos m) - 1)) by lia.
    rewrite Z.pow_succ_r by lia. lia.
  - cbn. lia.
Qed.

Lemma digits2_pos_small (m : positive) :
  Zpos m < 2 ^ 53 -> Zpos (digits2_pos m) <= 53.
Proof.
  intros H. pose proof (digits2_pos_lower m) as Hl.
  destruct (Z_le_gt_dec (Zpos (digits2_pos m)) 53) as [|Hgt]; [assumption|].
  exfalso. assert (2 ^ 53 <= 2 ^ (Zpos (digits2_pos m) - 1)).
  { apply Z.pow_le_mono_r; lia. }
  lia.
Qed.

(** Shifting left by [k] adds [k] digits and multiplies by [2^k]. *)
Lemma iter_xO_spec (m k : positive) :
  digits2_pos (Pos.iter xO m k) = (digits2_pos m + k)%positive /\
  Zpos (Pos.iter xO m k) = Zpos m * 2 ^ Zpos k.
Proof.
  induction k as [|k IH] using Pos.peano_ind.
  - cbn [Pos.iter digits2_pos]. split; [symmetry; apply Pos.add_1_r | lia].
  - rewrite Pos.iter_succ. cbn [digits2_pos]. destruct IH as [-> IH2]. split.
    + rewrite Pos.add_succ_r. reflexivity.
    + rewrite Pos2Z.inj_xO, IH2, Pos2Z.inj_succ, Z.pow_succ_r by lia. lia.
Qed.

(** A 53-digit mantissa in the exponent range is kept as it is. *)
Lemma binary_round_aux_exact (s : bool) (m : positive) (e : Z) :
  Zpos (digits2_pos m) = 53 -> -1074 <= e <= 971 ->
  binary_round_aux prec emax s (Zpos m) e loc_Exact = S754_finite s m e.
Proof.
  intros Hd He.
  assert (Hf : fexp prec emax (Zdigits2 (Zpos m) + e) - e = 0).
  { unfold fexp, emin, prec, emax. cbn [Zdigits2]. rewrite Hd. lia. }
  unfold binary_round_aux, shr_fexp. rewrite Hf.
  cbn [shr shr_record_of_loc shr_m loc_of_shr_record round_nearest_even].
  rewrite Hf. cbn [shr shr_record_of_loc shr_m].
  replace (e <=? emax - prec) with true; [reflexivity|].
  symmetry. apply Z.leb_le. unfold emax, prec. lia.
Qed.

Lemma binary_round_small (s : bool) (m : positive) :
  Zpos m < 2 ^ 53 ->
  exists mz ez,
    binary_round prec emax s m 0 = S754_finite s mz ez /\
    -52 <= ez <= 0 /\ Zpos mz = Zpos m * 2 ^ (- ez).
Proof.
  intros Hm. pose proof (digits2_pos_small m Hm) as Hd.
  unfold binary_round, shl_align.
  assert (Hf : fexp prec emax (Zpos (digits2_pos m) + 0) = Zpos (digits2_pos m) - 53).
  { unfold fexp, emin, prec, emax. lia. }
  rewrite Hf.
  destruct (Zpos (digits2_pos m) - 53 - 0) as [|k|k] eqn:Hk; [| lia |].
  - exists m, 0. rewrite binary_round_aux_exact by lia.
    split; [reflexivity|]. split; [lia|]. cbn; lia.
  - destruct (iter_xO_spec m k) as [Hdig Hval].
    exists (Pos.iter xO m k), (Zpos (digits2_pos m) - 53).
    rewrite binary_round_aux_exact.
    + split; [reflexivity|]. split; [lia|]. rewrite Hval. f_equal. f_equal. lia.
    + rewrite Hdig, Pos2Z.inj_add. lia.
    + lia.
Qed.

(** [float(z)] is exact below [2^53]: it succeeds, and the result equals
    [z]. *)
Lemma float_of_int_small (z : Z) :
  Z.abs z < 2 ^ 53 ->
  exists f, float_of_int z = inr f /\ int_float_eqb z f = true.
Proof.
  intros Hz. unfold float_of_int, binary_normalize.
  destruct z as [|m|m].
  - exists (S754_zero false). split; reflexivity.
  - destruct (binary_round_small false m) as (mz & ez & -> & He & Hv); [exact Hz|].
    exists (S754_finite false mz ez). split; [reflexivity|].
    unfold int_float_eqb, scaled. cbn [cond_Zopp].
    rewrite Z.min_l by lia. rewrite Z.sub_diag, Z.mul_1_r, Hv.
    apply Z.eqb_eq. replace (0 - ez) with (- ez) by lia. reflexivity.
  - destruct (binary_round_small true m) as (mz & ez & -> & He & Hv); [exact Hz|].
    exists (S754_finite true mz ez). split; [reflexivity|].
    unfold int_float_eqb, scaled. cbn [cond_Zopp].
    rewrite Z.min_l by lia. rewrite Z.sub_diag, Z.mul_1_r.
    apply Z.eqb_eq. rewrite Hv.
    replace (0 - ez) with (- ez) by lia. lia.
Qed.

(** C2 (as amended): for every float [p], negative, infinite and NaN
    included, and for every int [p] that Python can convert to a float,
    [calculate_tax(p)] returns [round(p * 0.22, 2)] and
    [calculate_gross(p)] returns [round(p + calculate_tax(p), 2)], that is
    [round(p + round(p * 0.22, 2), 2)]; an int too large for a float
    makes both raise [OverflowError].  Every int of magnitude below
    [2^53] is converted, and exactly. *)
Theorem C2_calculate_tax_and_gross (p : num) :
  match to_float p with
  | inr f =>
      calculate_tax p = inr (round2 (fmul f (decimal 22 2))) /\
      calculate_gross p =
        inr (round2 (fadd f (round2 (fmul f (decimal 22 2))))) /\
      (forall tax, calculate_tax p = inr tax ->
         calculate_gross p = inr (round2 (fadd f tax)))
  | inl e =>
      (exists z, p = PyInt z /\ 2 ^ 53 <= Z.abs z /\
                 float_of_int z = inl OverflowError) /\
      calculate_tax p = inl OverflowError /\
      calculate_gross p = inl OverflowError
  end.
Proof.
  unfold calculate_gross, calculate_tax.
  destruct p as [z|f]; cbn [to_float].
  - destruct (float_of_int z) as [[]|f] eqn:Hz.
    + split; [|split; reflexivity].
      exists z. split; [reflexivity|]. split; [|exact Hz].
      destruct (Z_lt_le_dec (Z.abs z) (2 ^ 53)) as [Hsmall|Hbig]; [|exact Hbig].
      destruct (float_of_int_small z Hsmall) as (f & Hf & _). congruence.
    + split; [reflexivity|]. split; [reflexivity|].
      intros tax H. injection H as <-. reflexivity.
  - split; [reflexivity|]. split; [reflexivity|].
    intros tax H. injection H as <-. reflexivity.
Qed.

(** C2, as stated, fails on the int [10 ** 400]: the product with the
    float tax rate raises [OverflowError], in both functions. *)
Lemma C2_huge_int_overflows :
  calculate_tax (PyInt (10 ^ 400)) = inl OverflowError /\
  calculate_gross (PyInt (10 ^ 400)) = inl OverflowError.
Proof. split; vm_compute; reflexivity. Qed.

(** The values the suite itself expects from the calculator
    ([test_tax_calculation_precision]): 100 gives 22.0 and 122.0, 250.50
    gives 55.11 and 305.61, 99.99 gives 22.0 and 121.99; a negative price
    is not refused. *)
Lemma calculate_examples :
  calculate_tax (PyInt 100) = inr (decimal 220 1) /\
  calculate_gross (PyInt 100) = inr (decimal 1220 1) /\
  calculate_tax (PyFloat (decimal 25050 2)) = inr (decimal 5511 2) /\
  calculate_gross (PyFloat (decimal 25050 2)) = inr (decimal 30561 2) /\
  calculate_tax (PyFloat (decimal 9999 2)) = inr (decimal 220 1) /\
  calculate_gross (PyFloat (decimal 9999 2)) = inr (decimal 12199 2) /\
  calculate_tax (PyInt (-100)) = inr (decimal (-220) 1) /\
  calculate_gross (PyInt (-100)) = inr (decimal (-1220) 1).
Proof. repeat split; vm_compute; reflexivity. Qed.

(** ** The minimum price *)


(** ** The validation-error assertion *)

Local Open Scope string_scope.
Local Open Scope list_scope.

(** The [try] block either returns a [validation_result] or raises an
    exception that derives from [Exception], and then no result exists. *)
Lemma parse_validation_errors_outcome (r : response) (field : option str) :
  match parse_validation_errors r field with
  | Return v => validation_result r field v
  | Raise e =>
      is_Exception e = true /\ forall v, ~ validation_result r field v
  end.
Proof.
  destruct r as [code [j|]]; unfold parse_validation_errors, response_json;
    cbn [body rbind].
  2:{ split; [reflexivity|]. intros v (kv & errors & H & _). discriminate. }
  assert (Hno : (forall kv, j <> JObj kv) ->
            forall v, ~ validation_result
                          {| status_code := code; body := Some j |} field v).
  { intros Hj v' (kv & errors & H & _). cbn in H. injection H as ->.
    eapply Hj. reflexivity. }
  destruct j as [| b | n | s | l | kv]; cbn [py_in rbind];
    try (split; [reflexivity | apply Hno; congruence]).
  - (* a string body *)
    destruct (str_in "errors" s); cbn [py_assert rbind].
    + destruct field as [[|c f]|]; cbn [truthy getitem rbind];
        (split; [reflexivity | apply Hno; congruence]).
    + split; [reflexivity | apply Hno; congruence].
  - (* a list body *)
    destruct (existsb (py_eq (JStr "errors")) l); cbn [py_assert rbind].
    + destruct field as [[|c f]|]; cbn [truthy getitem rbind];
        (split; [reflexivity | apply Hno; congruence]).
    + split; [reflexivity | apply Hno; congruence].
  - (* an object body *)
    clear Hno. rewrite key_in_lookup. cbn [getitem].
    destruct (lookup "errors" kv) as [errors|] eqn:He; cbn [py_assert rbind].
    2:{ split; [reflexivity|]. intros v (kv' & errors & H & H' & _).
        cbn in H. injection H as <-. congruence. }
    assert (Hinv : forall v, validation_result
                    {| status_code := code; body := Some (JObj kv) |} field v ->
              (truthy field = false /\ v = errors) \/
              (exists f ekv, field = Some f /\ truthy field = true /\
                             errors = JObj ekv /\ lookup f ekv = Some v)).
    { intros v (kv' & errors' & H & H' & Hc). cbn in H. injection H as <-.
      rewrite He in H'. injection H' as <-. exact Hc. }
    destruct field as [f|].
    2:{ exists kv, errors. cbn. auto. }
    destruct (truthy (Some f)) eqn:Ht.
    2:{ exists kv, errors. cbn [body]. auto. }
    destruct errors as [| b | n | s | l | ekv]; cbn [py_in rbind getitem];
      try (split; [reflexivity|]; intros v Hv;
           destruct (Hinv v Hv) as [[? _]|(f' & ekv & _ & _ & ? & _)];
           congruence).
    + (* errors is a string *)
      destruct (str_in f s); cbn [rbind py_keys];
        (split; [reflexivity|]; intros v Hv;
         destruct (Hinv v Hv) as [[? _]|(f' & ekv & _ & _ & ? & _)];
         congruence).
    + (* errors is a list *)
      destruct (existsb (py_eq (JStr f)) l); cbn [rbind py_keys];
        (split; [reflexivity|]; intros v Hv;
         destruct (Hinv v Hv) as [[? _]|(f' & ekv & _ & _ & ? & _)];
         congruence).
    + (* errors is an object *)
      rewrite key_in_lookup.
      destruct (lookup f ekv) as [msgs|] eqn:Hf; cbn [rbind py_keys].
      * exists kv, (JObj ekv). cbn [body]. repeat split; auto.
        right. exists f, ekv. auto.
      * split; [reflexivity|]. intros v Hv.
        destruct (Hinv v Hv) as [[? _]|(f' & ekv' & Hf' & _ & He' & Hl)];
          [congruence|].
        injection Hf' as <-. injection He' as <-. congruence.
Qed.

(** C4 (as amended): [assert_validation_error] raises an assertion error
    unless the status is exactly 422; on a 422 it returns exactly when
    the body is an object with the key [errors] and, for a non-empty
    field name, [errors] is an object with that field as a key, the
    result being the field's value; without a field (or with the empty
    string) the result is the value of [errors], mapping or not; every
    other 422 response, a body that is not JSON included, ends in the
    [pytest.fail] of the handler. *)
Theorem C4_assert_validation_error_outcomes
    (r : response) (field : option str) :
  (status_code r <> 422%Z ->
   assert_validation_error r field =
   Raise (AssertionError
            (Some (Fmt "Ожидался код 422, получен {}"
                       [JNum (PyInt (status_code r))])))) /\
  (status_code r = 422%Z ->
   (forall v, assert_validation_error r field = Return v <->
              validation_result r field v) /\
   ((forall v, ~ validation_result r field v) ->
    exists cause, assert_validation_error r field = Raise (FailedParse cause)) /\
   (body r = None ->
    assert_validation_error r field = Raise (FailedParse JSONDecodeError))).
Proof.
  unfold assert_validation_error. split.
  - intros Hc. apply Z.eqb_neq in Hc. rewrite Hc. reflexivity.
  - intros Hc. rewrite Hc. cbn [Z.eqb Pos.eqb py_assert rbind].
    pose proof (parse_validation_errors_outcome r field) as Hp.
    destruct (parse_validation_errors r field) as [v0|e] eqn:Hr;
      cbn [try_except_Exception].
    + split; [|split].
      * intros v. split.
        -- intros H. injection H as <-. exact Hp.
        -- intros Hv. f_equal.
           destruct Hp as (kv & errors & Hb & He & Hc1).
           destruct Hv as (kv' & errors' & Hb' & He' & Hc2).
           rewrite Hb in Hb'. injection Hb' as <-.
           rewrite He in He'. injection He' as <-.
           destruct Hc1 as [[Ht ->]|(f & ekv & -> & Ht & -> & Hl)];
             destruct Hc2 as [[Ht' ->]|(f' & ekv' & Hf & Ht' & Hq & Hl')];
             congruence.
      * intros Hn. exfalso. exact (Hn _ Hp).
      * intros Hb. destruct Hp as (kv & errors & Hb' & _). congruence.
    + destruct Hp as [He Hn]. rewrite He. split; [|split].
      * intros v. split; [discriminate|].
        intros Hv. exfalso. exact (Hn _ Hv).
      * intros _. exists e. reflexivity.
      * intros Hb. unfold parse_validation_errors, response_json in Hr.
        rewrite Hb in Hr. cbn in Hr. congruence.
Qed.

(** C4 at a rejected creation: status 422, body
    [{"errors": {"name": ["Необходимо заполнить"]}}], field [name]. *)
Lemma C4_outcomes_witness :
  assert_validation_error
    {| status_code := 422;
       body := Some (JObj [("errors",
                 JObj [("name", JArr [JStr "Необходимо заполнить"])])]) |}
    (Some "name") = Return (JArr [JStr "Необходимо заполнить"]).
Proof.
  apply (proj1 (proj2 (C4_assert_validation_error_outcomes
    {| status_code := 422;
       body := Some (JObj [("errors",
                 JObj [("name", JArr [JStr "Необходимо заполнить"])])]) |}
    (Some "name")) eq_refl)).
  exists [("errors", JObj [("name", JArr [JStr "Необходимо заполнить"])])],
         (JObj [("name", JArr [JStr "Необходимо заполнить"])]).
  split; [reflexivity|]. split; [reflexivity|].
  right. exists "name", [("name", JArr [JStr "Необходимо заполнить"])].
  repeat split; reflexivity.
Defined.

(** C4, as stated, fails on a 422 response with body [{"errors": 5}] and
    no field: the body contains no [errors] mapping, yet the call returns
    (the number 5) instead of failing. *)
Lemma C4_errors_need_not_be_a_mapping :
  assert_validation_error
    {| status_code := 422;
       body := Some (JObj [("errors", JNum (PyInt 5))]) |} None
  = Return (JNum (PyInt 5)) /\
  (forall ekv, JNum (PyInt 5) <> JObj ekv).
Proof. split; [reflexivity | discriminate]. Qed.

(** C10: on a 422 response every failure of [assert_validation_error]
    is the [pytest.fail] of its handler, around an exception that the
    [try] block raised; in particular a missing [errors] key and a
    missing field surface as that failure, with the assertion error as
    its cause, never as the assertion error itself. *)
Theorem C10_checks_fail_through_handler
    (r : response) (field : option str) :
  status_code r = 422%Z ->
  (forall e, assert_validation_error r field = Raise e ->
     exists cause,
       e = FailedParse cause /\ is_Exception cause = true /\
       parse_validation_errors r field = Raise cause) /\
  (forall m, assert_validation_error r field <> Raise (AssertionError m)) /\
  (forall kv, body r = Some (JObj kv) -> lookup "errors" kv = None ->
     assert_validation_error r field =
     Raise (FailedParse (AssertionError
       (Some (Fmt "В ответе отсутствует поле 'errors': {}" [JObj kv]))))) /\
  (forall kv ekv f,
     body r = Some (JObj kv) -> lookup "errors" kv = Some (JObj ekv) ->
     field = Some f -> f <> "" -> lookup f ekv = None ->
     assert_validation_error r field =
     Raise (FailedParse (AssertionError
       (Some (Fmt "Ожидалась ошибка для поля '{}', получены ошибки: {}"
                  [JStr f; JArr (map JStr (keys ekv))]))))).
Proof.
  intros Hc. unfold assert_validation_error. rewrite Hc.
  cbn [Z.eqb Pos.eqb py_assert rbind].
  assert (Hfirst : forall e,
            try_except_Exception (parse_validation_errors r field)
              (fun e0 => Raise (FailedParse e0)) = Raise e ->
            exists cause, e = FailedParse cause /\ is_Exception cause = true /\
                          parse_validation_errors r field = Raise cause).
  { intros e. pose proof (parse_validation_errors_outcome r field) as Hp.
    destruct (parse_validation_errors r field) as [v|e0];
      cbn [try_except_Exception]; [discriminate|].
    destruct Hp as [He _]. rewrite He. intros H. injection H as <-.
    exists e0. auto. }
  split; [exact Hfirst|]. split.
  - intros m H. destruct (Hfirst _ H) as (cause & Hq & _). discriminate.
  - split.
    + intros kv Hb Hl. destruct r as [code b]. cbn in Hb. subst b.
      unfold parse_validation_errors, response_json. cbn [body rbind py_in].
      rewrite key_in_lookup, Hl. reflexivity.
    + intros kv ekv f Hb Hl -> Hf Hn. destruct r as [code b]. cbn in Hb. subst b.
      unfold parse_validation_errors, response_json. cbn [body rbind py_in].
      rewrite key_in_lookup, Hl. cbn [py_assert rbind getitem]. rewrite Hl.
      destruct f as [|c f]; [congruence|]. cbn [truthy rbind py_in].
      rewrite key_in_lookup, Hn. reflexivity.
Qed.

(** C10 at a 422 response whose body [{"message": "no"}] has no [errors]
    key. *)
Lemma C10_handler_witness :
  assert_validation_error
    {| status_code := 422; body := Some (JObj [("message", JStr "no")]) |}
    (Some "name")
  = Raise (FailedParse (AssertionError
      (Some (Fmt "В ответе отсутствует поле 'errors': {}"
                 [JObj [("message", JStr "no")]])))).
Proof.
  apply (proj1 (proj2 (proj2
    (C10_checks_fail_through_handler
       {| status_code := 422; body := Some (JObj [("message", JStr "no")]) |}
       (Some "name") eq_refl)))); reflexivity.
Defined.

(** ** Reasoning about stateful runs *)

Lemma bind_returns {S A B} (c : M S A) (k : A -> M S B) st b st' :
  bind c k st = (Return b, st') ->
  exists a st1, c st = (Return a, st1) /\ k a st1 = (Return b, st').
Proof.
  unfold bind. destruct (c st) as [[a|e] st1]; [|discriminate].
  intros H. exists a, st1. auto.
Qed.

Lemma lift_returns {S A} (c : result A) (st : S) a st' :
  lift c st = (Return a, st') -> c = Return a /\ st' = st.
Proof. unfold lift. intros H. injection H as -> ->. auto. Qed.

Lemma assert_returns (cond : bool) m u :
  py_assert cond m = Return u -> cond = true.
Proof. destruct cond; [reflexivity | discriminate]. Qed.

Lemma of_arith_returns {A} (c : arith_error + A) a :
  of_arith c = Return a -> c = inr a.
Proof. destruct c; cbn; congruence. Qed.

(** [run_step H as a st Ha] peels the first call off a run [H] that
    returned: the call returned [a] and left [st] ([Ha]), and [H] becomes
    the run of the rest. *)
Tactic Notation "run_step" hyp(H) "as" ident(a) ident(st) ident(Ha) :=
  apply bind_returns in H; destruct H as (a & st & Ha & H).

(** [pure_step H as a Ha] does the same for a call that leaves the state
    alone. *)
Tactic Notation "pure_step" hyp(H) "as" ident(a) ident(Ha) :=
  let st := fresh "st" in
  let Hs := fresh "Hs" in
  apply bind_returns in H; destruct H as (a & st & Ha & H);
  apply lift_returns in Ha; destruct Ha as [Ha Hs]; subst st.

(** ** create_service *)

Section SuiteProperties.

Variable server : list Api.request -> Api.request -> result response.

(** What the [try]/[except] of [create_service] leaves behind. *)
Lemma track_created_swallowed (r : response) (st : Api.test_state) :
  status_ok r = true ->
  try_except (Api.track_created r) (ret tt) st =
  (Return tt, Api.set_created (track r (Api.created_service_uuids st)) st).
Proof.
  intros Hok. unfold track, tracked_uuid. rewrite Hok.
  unfold try_except, Api.track_created, bind, lift, ret.
  destruct (extract_service_from_response r) as [service|e];
    [|destruct st; reflexivity].
  destruct service as [| b | n | s | l | kv]; cbn [py_in];
    try (destruct st; reflexivity).
  - destruct (str_in "uuid" s); destruct st; reflexivity.
  - destruct (existsb (py_eq (JStr "uuid")) l); destruct st; reflexivity.
  - rewrite key_in_lookup. cbn [getitem].
    destruct (lookup "uuid" kv) as [u|]; destruct st; reflexivity.
Qed.

(** [create_service] in one equation: the POST is issued, its outcome is
    the outcome of the call, and the tracked list grows by [track]. *)
Lemma create_service_run (data : json) (st : Api.test_state) :
  Api.create_service server data st =
  match server (Api.sent st) (Api.POST data) with
  | Return r =>
      (Return r,
       {| Api.created_service_uuids := track r (Api.created_service_uuids st);
          Api.sent := Api.sent st ++ [Api.POST data] |})
  | Raise e =>
      (Raise e,
       {| Api.created_service_uuids := Api.created_service_uuids st;
          Api.sent := Api.sent st ++ [Api.POST data] |})
  end.
Proof.
  unfold Api.create_service, Api.http. unfold bind at 1 2.
  destruct (server (Api.sent st) (Api.POST data)) as [r|e]; [|reflexivity].
  destruct (status_ok r) eqn:Hok.
  - rewrite track_created_swallowed by exact Hok. reflexivity.
  - unfold track, tracked_uuid. rewrite Hok. reflexivity.
Qed.

(** C3 (as amended): [create_service] makes exactly one POST call, with
    the payload, and its outcome is the outcome of that call.  When the
    call returns a response, the caller gets that raw response; when the
    call itself raises (the payload cannot be encoded, the connection
    fails), the exception reaches the caller and the tracked list is
    left as it was.  The tracked list changes only when the status is
    200 or 201 and the extraction succeeds with a record that carries
    [uuid], whose value is then appended; with another status, or when
    the extraction fails, the failure is swallowed and the list is left
    as it was. *)
Theorem C3_create_service_returns_raw_response
    (data : json) (st : Api.test_state) :
  let run := Api.create_service server data st in
  Api.sent (snd run) = Api.sent st ++ [Api.POST data] /\
  fst run = server (Api.sent st) (Api.POST data) /\
  (forall r, server (Api.sent st) (Api.POST data) = Return r ->
    fst run = Return r /\
    (status_ok r = false ->
     Api.created_service_uuids (snd run) = Api.created_service_uuids st) /\
    (forall e, extract_service_from_response r = Raise e ->
     Api.created_service_uuids (snd run) = Api.created_service_uuids st) /\
    (forall service,
       status_ok r = true ->
       extract_service_from_response r = Return service ->
       Api.created_service_uuids (snd run) =
       match service with
       | JObj kv =>
           match lookup "uuid" kv with
           | Some u => Api.created_service_uuids st ++ [u]
           | None => Api.created_service_uuids st
           end
       | _ => Api.created_service_uuids st
       end)) /\
  (forall e, server (Api.sent st) (Api.POST data) = Raise e ->
    fst run = Raise e /\
    Api.created_service_uuids (snd run) = Api.created_service_uuids st).
Proof.
  cbn zeta. rewrite create_service_run.
  destruct (server (Api.sent st) (Api.POST data)) as [r|e]; cbn [fst snd].
  - split; [reflexivity|]. split; [reflexivity|]. split; [|discriminate].
    intros r' Hr. injection Hr as <-. cbn [Api.created_service_uuids].
    unfold track, tracked_uuid. split; [reflexivity|]. split; [|split].
    + intros ->. reflexivity.
    + intros e ->. destruct (status_ok r); reflexivity.
    + intros service -> ->. destruct service; reflexivity.
  - split; [reflexivity|]. split; [reflexivity|]. split; [discriminate|].
    intros e' He. injection He as <-. split; reflexivity.
Qed.

(** ** The teardown *)

(** The deletion loop over any list of identifiers: it returns, and it
    has sent one DELETE per identifier, in order. *)
Lemma delete_loop_run (uuids : list json) (st : Api.test_state) :
  for_each uuids
    (fun service_uuid =>
       try_except (Api.http server (Api.DELETE service_uuid) ;; ret tt)
                  (ret tt)) st =
  (Return tt,
   {| Api.created_service_uuids := Api.created_service_uuids st;
      Api.sent := Api.sent st ++ map Api.DELETE uuids |}).
Proof.
  revert st. induction uuids as [|u rest IH]; intros st; cbn [for_each map].
  - rewrite app_nil_r. destruct st; reflexivity.
  - unfold bind at 1. unfold try_except, bind, Api.http, ret.
    destruct (server (Api.sent st) (Api.DELETE u)) as [r|e];
      rewrite IH; cbn [Api.sent Api.created_service_uuids];
      rewrite <- app_assoc; reflexivity.
Qed.


(** ** The invariant of the tracked list *)

Lemma came_from_creation_later (log more : list Api.request) (u : json) :
  came_from_creation server log u ->
  came_from_creation server (log ++ more) u.
Proof.
  intros (before & data & after & r & kv & -> & H).
  exists before, data, (after ++ more), r, kv. split; [|exact H].
  rewrite <- app_assoc. reflexivity.
Qed.

Lemma tracked_invariant_later (created : list json) (log more : list Api.request) :
  Forall (came_from_creation server log) created ->
  Forall (came_from_creation server (log ++ more)) created.
Proof.
  intros H. eapply Forall_impl; [|exact H].
  intros u. apply came_from_creation_later.
Qed.

Lemma tracked_uuid_some (r : response) (u : json) :
  tracked_uuid r = Some u ->
  status_ok r = true /\
  exists kv, extract_service_from_response r = Return (JObj kv) /\
             lookup "uuid" kv = Some u.
Proof.
  unfold tracked_uuid. destruct (status_ok r); [|discriminate].
  destruct (extract_service_from_response r) as [[| | | | |kv]|e];
    try discriminate.
  intros H. split; [reflexivity|]. exists kv. auto.
Qed.

Lemma list_remove_incl (u : json) (l l' : list json) :
  Api.list_remove u l = Some l' -> incl l' l.
Proof.
  revert l'. induction l as [|x rest IH]; intros l'; cbn; [discriminate|].
  destruct (py_eq x u).
  - intros H. injection H as <-. apply incl_tl, incl_refl.
  - destruct (Api.list_remove u rest) as [l0|]; cbn; [|discriminate].
    intros H. injection H as <-.
    apply incl_cons; [left; reflexivity|]. apply incl_tl, IH. reflexivity.
Qed.

(** C9: [tracked_invariant] holds after the fixture's setup and is kept
    by every operation of the class on the list or on the service:
    [create_service] (the only place that appends), a plain request, the
    [remove] of the delete tests, and the teardown.  So every tracked
    identifier is the [uuid] of the record extracted from a response with
    status 200 or 201.  Consequently a response in the collection shape
    whose first element carries no [uuid] is returned to the caller and
    the tracked list is left as it was. *)
Theorem C9_tracked_identifiers_come_from_creations :
  (forall st, tracked_invariant server (snd (Api.setup st))) /\
  (forall data st,
     tracked_invariant server st ->
     tracked_invariant server (snd (Api.create_service server data st))) /\
  (forall rq st,
     tracked_invariant server st ->
     tracked_invariant server (snd (Api.http server rq st))) /\
  (forall u st,
     tracked_invariant server st ->
     tracked_invariant server (snd (Api.remove_created u st))) /\
  (forall st,
     tracked_invariant server st ->
     tracked_invariant server (snd (Api.teardown server st))) /\
  (forall data st r kv first rest,
     server (Api.sent st) (Api.POST data) = Return r ->
     status_ok r = true ->
     body r = Some (JObj kv) ->
     lookup "uuid" kv = None ->
     lookup "data" kv = Some (JArr (first :: rest)) ->
     (forall fkv, first = JObj fkv -> lookup "uuid" fkv = None) ->
     extract_service_from_response r = Return first /\
     Api.create_service server data st =
     (Return r,
      {| Api.created_service_uuids := Api.created_service_uuids st;
         Api.sent := Api.sent st ++ [Api.POST data] |})).
Proof.
  unfold tracked_invariant. repeat apply conj.
  - intros st. cbn. constructor.
  - intros data st Hinv. rewrite create_service_run.
    destruct (server (Api.sent st) (Api.POST data)) as [r|e] eqn:Hr;
      cbn [snd Api.sent Api.created_service_uuids];
      [|apply tracked_invariant_later; exact Hinv].
    unfold track. destruct (tracked_uuid r) as [u|] eqn:Hu;
      [|apply tracked_invariant_later; exact Hinv].
    apply Forall_app. split; [apply tracked_invariant_later; exact Hinv|].
    constructor; [|constructor].
    destruct (tracked_uuid_some _ _ Hu) as (Hok & kv & Hex & Hl).
    exists (Api.sent st), data, [], r, kv. auto.
  - intros rq st Hinv. cbn. apply tracked_invariant_later. exact Hinv.
  - intros u st Hinv. unfold Api.remove_created.
    destruct (Api.list_remove u (Api.created_service_uuids st)) as [l|] eqn:Hl;
      cbn; [|exact Hinv].
    apply Forall_forall. intros x Hx.
    eapply Forall_forall; [exact Hinv|].
    eapply list_remove_incl; eauto.
  - intros st Hinv. unfold Api.teardown, bind, gets.
    rewrite delete_loop_run. cbn. apply tracked_invariant_later. exact Hinv.
  - intros data st r kv first rest Hr Hok Hb Hu Hd Hfirst.
    assert (Hex : extract_service_from_response r = Return first).
    { unfold extract_service_from_response, response_json.
      rewrite Hok, Hb. cbn [py_assert rbind py_in].
      rewrite !key_in_lookup, Hu, Hd. cbn [rbind getitem]. rewrite Hd.
      reflexivity. }
    split; [exact Hex|].
    rewrite create_service_run, Hr. unfold track, tracked_uuid.
    rewrite Hok, Hex. destruct first as [| | | | |fkv]; try reflexivity.
    rewrite (Hfirst fkv eq_refl). reflexivity.
Qed.

(** ** The price round trip *)

Variable num_str : num -> str.

Lemma response_json_returns (r : response) (j : json) :
  response_json r = Return j -> body r = Some j.
Proof. unfold response_json. destruct (body r); congruence. Qed.

(** One passing iteration of the price loop. *)
Lemma different_prices_step_run (price : num) (st st' : Api.test_state) :
  Api.different_prices_step server num_str price st = (Return tt, st') ->
  exists tax gross r response_data actual_tax actual_gross,
    calculate_tax price = inr tax /\
    calculate_gross price = inr gross /\
    Api.sent st' =
      Api.sent st ++ [Api.POST (different_prices_data num_str price tax gross)] /\
    server (Api.sent st)
      (Api.POST (different_prices_data num_str price tax gross)) = Return r /\
    status_ok r = true /\
    body r = Some response_data /\
    getitem response_data "tax" = Return actual_tax /\
    py_eq actual_tax (JNum (PyFloat tax)) = true /\
    getitem response_data "gross" = Return actual_gross /\
    py_eq actual_gross (JNum (PyFloat gross)) = true.
Proof.
  unfold Api.different_prices_step. intros H.
  pure_step H as tax Htax. apply of_arith_returns in Htax.
  pure_step H as gross Hgross. apply of_arith_returns in Hgross.
  fold (different_prices_data num_str price tax gross) in H.
  run_step H as r st1 Hr. rewrite create_service_run in Hr.
  destruct (server (Api.sent st)
              (Api.POST (different_prices_data num_str price tax gross)))
    as [r0|e] eqn:Hpost; [|discriminate].
  injection Hr as E1 E2. subst r st1.
  pure_step H as u1 Hok. apply assert_returns in Hok.
  pure_step H as response_data Hbody. apply response_json_returns in Hbody.
  pure_step H as expected_tax Htax'. apply of_arith_returns in Htax'.
  pure_step H as expected_gross Hgross'. apply of_arith_returns in Hgross'.
  pure_step H as actual_tax Hat.
  pure_step H as u2 Heqt. apply assert_returns in Heqt.
  pure_step H as actual_gross Hag.
  apply lift_returns in H. destruct H as [Heqg ->].
  apply assert_returns in Heqg.
  assert (expected_tax = tax) by congruence.
  assert (expected_gross = gross) by congruence. subst.
  exists tax, gross, r0, response_data, actual_tax, actual_gross.
  cbn [Api.sent]. auto 12.
Qed.


(** A passing run of the loop over any list of prices. *)
Lemma different_prices_loop_run (prices : list num) (st st' : Api.test_state) :
  for_each prices (Api.different_prices_step server num_str) st
    = (Return tt, st') ->
  (exists more, Api.sent st' = Api.sent st ++ more) /\
  Forall (creation_checked server num_str (Api.sent st')) prices.
Proof.
  revert st. induction prices as [|price rest IH]; intros st H.
  - cbn in H. injection H as <-. split; [|constructor].
    exists []. rewrite app_nil_r. reflexivity.
  - cbn [for_each] in H. run_step H as u st1 Hstep. destruct u.
    destruct (IH _ H) as [[more Hmore] Hrest].
    destruct (different_prices_step_run _ _ _ Hstep)
      as (tax & gross & r & response_data & actual_tax & actual_gross
          & Ht & Hg & Hsent & Hpost & Hchecks).
    rewrite Hsent, <- app_assoc in Hmore. cbn [app] in Hmore. split.
    + exists (Api.POST (different_prices_data num_str price tax gross) :: more).
      exact Hmore.
    + constructor; [|exact Hrest].
      exists tax, gross, (Api.sent st), more, r, response_data,
             actual_tax, actual_gross. auto 12.
Qed.

Lemma calculate_200 :
  calculate_tax (PyInt 200) = inr (decimal 440 1) /\
  calculate_gross (PyInt 200) = inr (decimal 2440 1).
Proof. split; vm_compute; reflexivity. Qed.

(** A passing run of [test_get_service_success]. *)
Lemma get_service_run (st st' : Api.test_state) :
  Api.test_get_service_success server st = (Return tt, st') ->
  read_back_checked server (Api.sent st) (Api.sent st').
Proof.
  unfold Api.test_get_service_success. intros H.
  destruct calculate_200 as [H200 H244].
  pure_step H as tax Htax. apply of_arith_returns in Htax.
  pure_step H as gross Hgross. apply of_arith_returns in Hgross.
  assert (tax = decimal 440 1) by congruence.
  assert (gross = decimal 2440 1) by congruence. subst tax gross.
  fold get_service_data in H.
  run_step H as r st1 Hr. rewrite create_service_run in Hr.
  destruct (server (Api.sent st) (Api.POST get_service_data))
    as [create_response|e] eqn:Hpost; [|discriminate].
  injection Hr as E1 E2. subst r st1.
  pure_step H as u1 Hok. apply assert_returns in Hok.
  pure_step H as created Hbody. apply response_json_returns in Hbody.
  pure_step H as service_uuid Huuid.
  run_step H as response st2 Hget.
  unfold Api.http in Hget. cbn [Api.sent Api.created_service_uuids] in Hget.
  injection Hget as Hget E2. subst st2.
  pure_step H as u2 Hcode. apply assert_returns in Hcode.
  apply Z.eqb_eq in Hcode.
  pure_step H as response_data Hbody2. apply response_json_returns in Hbody2.
  pure_step H as actual_uuid Hau.
  pure_step H as u3 Heu. apply assert_returns in Heu.
  pure_step H as actual_name Han.
  pure_step H as expected_name Hen. cbn in Hen. injection Hen as <-.
  pure_step H as u4 Hename. apply assert_returns in Hename.
  pure_step H as actual_price Hap.
  pure_step H as u5 Hep. apply assert_returns in Hep.
  pure_step H as actual_tax Hat.
  pure_step H as expected_tax Het. apply of_arith_returns in Het.
  assert (expected_tax = decimal 440 1) by congruence. subst expected_tax.
  apply lift_returns in H. destruct H as [Hetax ->].
  apply assert_returns in Hetax.
  exists create_response, created, service_uuid, response, response_data.
  cbn [Api.sent]. rewrite <- app_assoc. cbn [app].
  unfold field_equals. repeat (split; [solve [eauto]|]). reflexivity.
Qed.



(** ** Texts inside texts, and a returning validation assertion *)

Lemma starts_with_app (p s : str) :
  starts_with p s = true <-> exists q, s = (p ++ q)%string.
Proof.
  revert s. induction p as [|a p IH]; intros s; cbn.
  - split; [intros _; exists s; reflexivity | reflexivity].
  - destruct s as [|b s]; [split; [discriminate | intros [q H]; discriminate]|].
    rewrite Bool.andb_true_iff, Ascii.eqb_eq, IH. split.
    + intros [-> [q ->]]. exists q. reflexivity.
    + intros [q H]. injection H as -> ->. split; [reflexivity | exists q; reflexivity].
Qed.

Lemma string_app_assoc (a b c : str) :
  ((a ++ b) ++ c = a ++ (b ++ c))%string.
Proof. induction a as [|x a IH]; cbn; [reflexivity | rewrite IH; reflexivity]. Qed.

(** [needle in hay] says that [hay] is some text, [needle], some text. *)
Lemma str_in_app (needle hay : str) :
  str_in needle hay = true <->
  exists before after, hay = (before ++ needle ++ after)%string.
Proof.
  induction hay as [|c hay IH]; cbn [str_in].
  - rewrite Bool.orb_false_r, starts_with_app. split.
    + intros [q H]. exists ""%string, q. exact H.
    + intros [[|x before] [after H]]; [exists after; exact H | discriminate].
  - rewrite Bool.orb_true_iff, starts_with_app, IH. split.
    + intros [[q H]|[before [after H]]].
      * exists ""%string, q. exact H.
      * exists (String c before), after. cbn. rewrite H. reflexivity.
    + intros [[|x before] [after H]].
      * left. exists after. exact H.
      * right. cbn in H. injection H as <- H. exists before, after. exact H.
Qed.

(** A text that contains a message contains every part of the message. *)
Lemma str_in_trans (part message text : str) :
  str_in part message = true -> str_in message text = true ->
  str_in part text = true.
Proof.
  rewrite !str_in_app. intros (b1 & a1 & ->) (b2 & a2 & ->).
  exists (b2 ++ b1)%string, (a1 ++ a2)%string.
  rewrite !string_app_assoc. reflexivity.
Qed.

Lemma assert_validation_error_returns (r : response) (field : option str) v :
  assert_validation_error r field = Return v ->
  status_code r = 422%Z /\ validation_result r field v.
Proof.
  unfold assert_validation_error.
  destruct (status_code r =? 422)%Z eqn:Hc; [|discriminate].
  apply Z.eqb_eq in Hc. cbn [py_assert rbind].
  pose proof (parse_validation_errors_outcome r field) as Hp.
  destruct (parse_validation_errors r field) as [v0|e];
    cbn [try_except_Exception].
  - intros H. injection H as <-. auto.
  - destruct Hp as [-> _]. discriminate.
Qed.

End SuiteProperties.

(** ** The theorems on sample collaborators *)

(** C3 on the storing service: the caller gets the 201 response. *)
Lemma C3_create_service_witness :
  fst (Api.create_service Sample.memory_server
         (JObj [("name", JStr "service"); ("quantity", JNum (PyInt 10))])
         Sample.start)
  = Return {| status_code := 201;
              body := Some (JObj [("uuid", JNum (PyInt 0));
                                  ("name", JStr "service");
                                  ("quantity", JNum (PyInt 10))]) |}.
Proof.
  apply (proj1 (proj2 (proj2 (C3_create_service_returns_raw_response
           Sample.memory_server
           (JObj [("name", JStr "service"); ("quantity", JNum (PyInt 10))])
           Sample.start)))).
  reflexivity.
Defined.

(** C3, as stated, fails for the payload
    [{"name": "service", "price": NaN}]: [requests.post] raises on it, so
    [create_service] raises too and hands no response to its caller. *)
Lemma C3_post_that_raises :
  let data := JObj [("name", JStr "service");
                    ("price", JNum (PyFloat S754_nan))] in
  Sample.encoding_server (Api.sent Sample.start) (Api.POST data)
  = Raise RequestException /\
  fst (Api.create_service Sample.encoding_server data Sample.start)
  = Raise RequestException /\
  ~ exists r,
      fst (Api.create_service Sample.encoding_server data Sample.start)
      = Return r.
Proof.
  cbn zeta. split; [reflexivity|]. split; [reflexivity|].
  intros [r H]. vm_compute in H. discriminate H.
Qed.

(** C9 on the listing service: the response is returned and nothing is
    tracked. *)
Lemma C9_untracked_collection_witness :
  Api.create_service Sample.listing_server (JObj []) Sample.start =
  (Return {| status_code := 200;
             body := Some (JObj [("data", JArr [JObj [("name", JStr "service")]]);
                                 ("pagination", JObj [])]) |},
   {| Api.created_service_uuids := [];
      Api.sent := [Api.POST (JObj [])] |}).
Proof.
  apply (proj2 (proj2 (proj2 (proj2 (proj2
           (C9_tracked_identifiers_come_from_creations Sample.listing_server)))))
         (JObj []) Sample.start _
         [("data", JArr [JObj [("name", JStr "service")]]); ("pagination", JObj [])]
         (JObj [("name", JStr "service")]) []);
    try reflexivity.
  intros fkv H. injection H as <-. reflexivity.
Defined.




(** * Further properties *)

(** ** The tax calculator is odd *)

Local Open Scope Z_scope.

Lemma binary_round_aux_opp (s : bool) (m e : Z) (l : location) :
  binary_round_aux prec emax (negb s) m e l =
  SFopp (binary_round_aux prec emax s m e l).
Proof.
  unfold binary_round_aux.
  destruct (shr_fexp prec emax m e l) as [mrs' e'].
  destruct (shr_fexp prec emax _ e' loc_Exact) as [mrs'' e''].
  destruct (shr_m mrs'') as [|p|p]; try reflexivity.
  destruct (e'' <=? emax - prec); reflexivity.
Qed.

Lemma binary_round_aux_sign (s : bool) (m e : Z) (l : location) :
  sign_is s (binary_round_aux prec emax s m e l).
Proof.
  unfold binary_round_aux.
  destruct (shr_fexp prec emax m e l) as [mrs' e'].
  destruct (shr_fexp prec emax _ e' loc_Exact) as [mrs'' e''].
  destruct (shr_m mrs'') as [|p|p]; cbn [sign_is]; auto.
  destruct (e'' <=? emax - prec); cbn [sign_is]; auto.
Qed.

Lemma fmul_opp (x y : float) : fmul (SFopp x) y = SFopp (fmul x y).
Proof.
  destruct x as [sx|sx| |sx mx ex], y as [sy|sy| |sy my ey]; cbn;
    try reflexivity; try (destruct sx, sy; reflexivity).
  rewrite <- binary_round_aux_opp. f_equal. destruct sx, sy; reflexivity.
Qed.

Lemma fmul_sign (sx : bool) (x : float) (m : positive) (e : Z) :
  sign_is sx x -> sign_is sx (fmul x (S754_finite false m e)).
Proof.
  destruct x as [s|s| |s mx ex]; cbn; auto.
  - intros ->. destruct sx; reflexivity.
  - intros ->. destruct sx; reflexivity.
  - intros ->. replace (xorb sx false) with sx by (destruct sx; reflexivity).
    apply binary_round_aux_sign.
Qed.

Lemma nearest_ratio_opp (s : bool) (n d : positive) :
  nearest_ratio (negb s) n d = SFopp (nearest_ratio s n d).
Proof.
  unfold nearest_ratio.
  destruct (SFdiv_core_binary prec emax (Zpos n) 0 (Zpos d) 0) as [[q e] l].
  apply binary_round_aux_opp.
Qed.

Lemma nearest_ratio_sign (s : bool) (n d : positive) :
  sign_is s (nearest_ratio s n d).
Proof.
  unfold nearest_ratio.
  destruct (SFdiv_core_binary prec emax (Zpos n) 0 (Zpos d) 0) as [[q e] l].
  apply binary_round_aux_sign.
Qed.

Lemma round2_opp (x : float) : round2 (SFopp x) = SFopp (round2 x).
Proof.
  destruct x as [s|s| |s m e]; try reflexivity.
  cbn [SFopp round2].
  destruct (match e with Zneg p => _ | _ => _ end) as [|n|n]; try reflexivity.
  apply nearest_ratio_opp.
Qed.

Lemma round2_sign (s : bool) (x : float) : sign_is s x -> sign_is s (round2 x).
Proof.
  destruct x as [t|t| |t m e]; cbn [round2]; auto.
  cbn [sign_is]. intros ->.
  destruct (match e with Zneg p => _ | _ => _ end) as [|n|n]; cbn; auto.
  apply nearest_ratio_sign.
Qed.

Lemma binary_round_opp (s : bool) (m : positive) (e : Z) :
  binary_round prec emax (negb s) m e = SFopp (binary_round prec emax s m e).
Proof.
  unfold binary_round.
  destruct (shl_align m e _) as [mz ez]. apply binary_round_aux_opp.
Qed.

(** Adding two floats of the same sign commutes with negation. *)
Lemma fadd_opp (s : bool) (x y : float) :
  sign_is s x -> sign_is s y ->
  fadd (SFopp x) (SFopp y) = SFopp (fadd x y).
Proof.
  destruct x as [sx|sx| |sx mx ex], y as [sy|sy| |sy my ey]; cbn [sign_is];
    intros Hx Hy; subst; try reflexivity;
    try (cbn; destruct s; reflexivity).
  cbn [SFopp fadd SFadd]. unfold fadd, SFadd.
  set (a := fst (shl_align mx ex (Z.min ex ey))).
  set (b := fst (shl_align my ey (Z.min ex ey))).
  destruct s; cbn [negb cond_Zopp Z.opp Z.add binary_normalize].
  - apply (binary_round_opp true).
  - apply (binary_round_opp false).
Qed.

Lemma binary_round_sign (s : bool) (m : positive) (e : Z) :
  sign_is s (binary_round prec emax s m e).
Proof.
  unfold binary_round. destruct (shl_align m e _) as [mz ez].
  apply binary_round_aux_sign.
Qed.

Lemma is_finite_opp (x : float) : is_finite (SFopp x) = is_finite x.
Proof. destruct x; reflexivity. Qed.

Lemma float_of_int_opp (z : Z) (f : float) :
  z <> 0 -> float_of_int z = inr f ->
  float_of_int (- z) = inr (SFopp f) /\ sign_is (z <? 0) f.
Proof.
  unfold float_of_int, binary_normalize. intros Hz.
  destruct z as [|m|m]; [congruence| |]; cbn [Z.opp Z.ltb Z.compare].
  - pose proof (binary_round_opp false m 0) as Ho. cbn [negb] in Ho.
    rewrite Ho, is_finite_opp.
    destruct (is_finite (binary_round prec emax false m 0));
      intros H; inversion H; subst.
    split; [reflexivity | apply binary_round_sign].
  - pose proof (binary_round_opp true m 0) as Ho. cbn [negb] in Ho.
    rewrite Ho, is_finite_opp.
    destruct (is_finite (binary_round prec emax true m 0));
      intros H; inversion H; subst.
    split; [reflexivity | apply binary_round_sign].
Qed.

Lemma tax_rate_positive :
  tax_rate DB_LIMITS = S754_finite false 7926335344172073 (-55).
Proof. vm_compute. reflexivity. Qed.

(** The tax and the gross of a float with sign [s]. *)
Lemma tax_gross_opp (s : bool) (f : float) :
  sign_is s f ->
  let tax := round2 (fmul f (tax_rate DB_LIMITS)) in
  sign_is s tax /\
  round2 (fmul (SFopp f) (tax_rate DB_LIMITS)) = SFopp tax /\
  round2 (fadd (SFopp f) (SFopp tax)) = SFopp (round2 (fadd f tax)).
Proof.
  intros Hf tax.
  assert (Ht : sign_is s tax).
  { unfold tax. rewrite tax_rate_positive. apply round2_sign, fmul_sign, Hf. }
  split; [exact Ht|]. split.
  - rewrite fmul_opp, round2_opp. reflexivity.
  - rewrite (fadd_opp s) by assumption. apply round2_opp.
Qed.

Lemma sign_exists (f : float) : exists s, sign_is s f.
Proof. destruct f as [s|s| |s m e]; cbn; eauto. exists true. exact I. Qed.

(** X1: the calculator is odd.  Negating a float price negates the tax
    and the gross, sign of zero included; the same holds for a non-zero
    int price; and the tax never has the sign opposite to the price's. *)
Theorem calculator_is_odd :
  (forall f, exists tax gross,
     calculate_tax (PyFloat f) = inr tax /\
     calculate_gross (PyFloat f) = inr gross /\
     calculate_tax (PyFloat (SFopp f)) = inr (SFopp tax) /\
     calculate_gross (PyFloat (SFopp f)) = inr (SFopp gross) /\
     (forall s, sign_is s f -> sign_is s tax)) /\
  (forall z tax gross,
     z <> 0 ->
     calculate_tax (PyInt z) = inr tax ->
     calculate_gross (PyInt z) = inr gross ->
     calculate_tax (PyInt (- z)) = inr (SFopp tax) /\
     calculate_gross (PyInt (- z)) = inr (SFopp gross) /\
     sign_is (z <? 0) tax).
Proof.
  split.
  - intros f. unfold calculate_gross, calculate_tax. cbn [to_float].
    destruct (sign_exists f) as [s Hs].
    destruct (tax_gross_opp s f Hs) as (_ & Ht & Hg).
    do 2 eexists. split; [reflexivity|]. split; [reflexivity|].
    rewrite Ht, Hg. split; [reflexivity|]. split; [reflexivity|].
    intros s' Hs'. apply (tax_gross_opp s' f Hs').
  - intros z tax gross Hz. unfold calculate_gross, calculate_tax.
    cbn [to_float].
    destruct (float_of_int z) as [e|f] eqn:Hf; [discriminate|].
    destruct (float_of_int_opp z f Hz Hf) as [-> Hs].
    destruct (tax_gross_opp _ f Hs) as (Hst & Ht & Hg).
    intros H1 H2. injection H1 as <-. injection H2 as <-.
    rewrite Ht, Hg. auto.
Qed.

(** X1 at the refund of the config's sample data: price -3500 gives tax
    -770.0 and gross -4270.0, the negations of the values for 3500. *)
Lemma calculator_is_odd_witness :
  calculate_tax (PyInt (- (3500))) = inr (SFopp (decimal 7700 1)) /\
  calculate_gross (PyInt (- (3500))) = inr (SFopp (decimal 42700 1)) /\
  sign_is (3500 <? 0) (decimal 7700 1).
Proof.
  apply (proj2 calculator_is_odd 3500 (decimal 7700 1) (decimal 42700 1)).
  - discriminate.
  - vm_compute. reflexivity.
  - vm_compute. reflexivity.
Defined.

Local Open Scope string_scope.
Local Open Scope list_scope.

(** ** Bodies that are not objects *)

Lemma py_eq_str (a : str) (y : json) :
  py_eq (JStr a) y = true <-> y = JStr a.
Proof.
  destruct y; cbn; try (split; [discriminate | congruence]).
  rewrite String.eqb_eq. split; congruence.
Qed.

Lemma has_str_in (a : str) (l : list json) :
  existsb (py_eq (JStr a)) l = true <-> In (JStr a) l.
Proof.
  rewrite existsb_exists. split.
  - intros (y & Hy & He). apply py_eq_str in He. subst. exact Hy.
  - intros H. exists (JStr a). split; [exact H | apply py_eq_str; reflexivity].
Qed.

(** X2: on a response with status 200 or 201 whose body is not an
    object, [extract_service_from_response] returns only the body itself,
    and only for a text that contains "uuid" or a list that has the text
    "uuid" among its elements; every other body (null, a boolean, a
    number, any other text or list) ends in a [TypeError] or an
    [AttributeError], never in the [pytest.fail] that names the keys. *)
Theorem extract_of_non_object (code : Z) (j : json) :
  let r := {| status_code := code; body := Some j |} in
  status_ok r = true ->
  (forall kv, j <> JObj kv) ->
  (forall v, extract_service_from_response r = Return v <->
     v = j /\
     ((exists s, j = JStr s /\ str_in "uuid" s = true) \/
      (exists l, j = JArr l /\ In (JStr "uuid") l))) /\
  (forall e, extract_service_from_response r = Raise e ->
     e = TypeError \/ e = AttributeError).
Proof.
  cbn zeta. intros Hok Hj.
  unfold extract_service_from_response, response_json. rewrite Hok.
  cbn [py_assert rbind body].
  destruct j as [| b | n | s | l | kv]; cbn [py_in rbind];
    try (split; [intros v; split; [discriminate|];
                 intros (_ & [(s0 & H & _)|(l0 & H & _)]); discriminate
                | intros e H; injection H as <-; auto]).
  - destruct (str_in "uuid" s) eqn:Hu.
    + split; [|discriminate]. intros v. split.
      * intros H. injection H as <-. split; [reflexivity|]. left. eauto.
      * intros [-> _]. reflexivity.
    + destruct (str_in "data" s); cbn [getitem rbind py_keys];
        (split; [intros v; split; [discriminate|];
                 intros (_ & [(s0 & H & Hs)|(l0 & H & _)]);
                 [injection H as <-; congruence | discriminate]
                | intros e H; injection H as <-; auto]).
  - destruct (existsb (py_eq (JStr "uuid")) l) eqn:Hu.
    + split; [|discriminate]. intros v. split.
      * intros H. injection H as <-. split; [reflexivity|]. right.
        exists l. split; [reflexivity | apply has_str_in; exact Hu].
      * intros [-> _]. reflexivity.
    + destruct (existsb (py_eq (JStr "data")) l); cbn [getitem rbind py_keys];
        (split; [intros v; split; [discriminate|];
                 intros (_ & [(s0 & H & _)|(l0 & H & Hl)]);
                 [discriminate
                 | injection H as <-; apply has_str_in in Hl; congruence]
                | intros e H; injection H as <-; auto]).
  - exfalso. exact (Hj kv eq_refl).
Qed.

(** X2 on a body that is the bare text of an identifier. *)
Lemma extract_of_non_object_witness :
  extract_service_from_response
    {| status_code := 200; body := Some (JStr "uuid-42") |}
  = Return (JStr "uuid-42").
Proof.
  apply (proj1 (extract_of_non_object 200 (JStr "uuid-42") eq_refl
                  ltac:(discriminate))).
  split; [reflexivity|]. left. exists "uuid-42". split; reflexivity.
Defined.

(** ** The remaining tests of the service *)

Section MoreProperties.

Variable server : list Api.request -> Api.request -> result response.
Variable num_str : num -> str.
Variable str_lower : str -> str.

(** A response in the single-record shape: what is extracted and what
    is tracked. *)
Lemma extract_single (r : response) kv u :
  status_ok r = true -> body r = Some (JObj kv) ->
  lookup "uuid" kv = Some u ->
  extract_service_from_response r = Return (JObj kv) /\
  track r [] = [u] /\ (forall l, track r l = l ++ [u]).
Proof.
  intros Hok Hb Hu.
  assert (Hex : extract_service_from_response r = Return (JObj kv)).
  { unfold extract_service_from_response, response_json.
    rewrite Hok, Hb. cbn [py_assert rbind py_in].
    rewrite key_in_lookup, Hu. reflexivity. }
  split; [exact Hex|].
  unfold track, tracked_uuid. rewrite Hok, Hex, Hu. auto.
Qed.

Lemma extract_returns_ok (r : response) v :
  extract_service_from_response r = Return v -> status_ok r = true.
Proof.
  unfold extract_service_from_response.
  destruct (status_ok r); [reflexivity | discriminate].
Qed.

Lemma assert_item_eq_returns (x : json) key expected u :
  ApiTests.assert_item_eq x key expected = Return u <->
  field_equals x key expected.
Proof.
  unfold ApiTests.assert_item_eq, field_equals. split.
  - destruct (getitem x key) as [a|e]; cbn [rbind]; [|discriminate].
    intros H. apply assert_returns in H. eauto.
  - intros (a & -> & He). cbn [rbind]. rewrite He. destruct u. reflexivity.
Qed.

(** X3: [test_create_service_from_example] passes exactly when the
    service answers the example payload and the record extracted from
    the answer, in either shape, has name "service", price 100, tax 22
    and gross 122; it sends that one POST. *)
Theorem example_test_passes_iff (st st' : Api.test_state) :
  ApiTests.test_create_service_from_example server st = (Return tt, st') <->
  exists r created_service,
    server (Api.sent st) (Api.POST ApiTests.example_data) = Return r /\
    extract_service_from_response r = Return created_service /\
    field_equals created_service "name" (JStr "service") /\
    field_equals created_service "price" (JNum (PyInt 100)) /\
    field_equals created_service "tax" (JNum (PyInt 22)) /\
    field_equals created_service "gross" (JNum (PyInt 122)) /\
    st' = {| Api.created_service_uuids := track r (Api.created_service_uuids st);
             Api.sent := Api.sent st ++ [Api.POST ApiTests.example_data] |}.
Proof.
  unfold ApiTests.test_create_service_from_example. split.
  - intros H.
    run_step H as r st1 Hr. rewrite create_service_run in Hr.
    destruct (server (Api.sent st) (Api.POST ApiTests.example_data))
      as [r0|e] eqn:Hpost; [|discriminate].
    injection Hr as E1 E2. subst r st1.
    pure_step H as created_service Hex.
    pure_step H as u1 Hn. apply assert_item_eq_returns in Hn.
    pure_step H as u2 Hp. apply assert_item_eq_returns in Hp.
    pure_step H as u3 Ht. apply assert_item_eq_returns in Ht.
    apply lift_returns in H. destruct H as [Hg ->].
    apply assert_item_eq_returns in Hg.
    exists r0, created_service. auto 10.
  - intros (r & created_service & Hpost & Hex & Hn & Hp & Ht & Hg & ->).
    unfold bind at 1. rewrite create_service_run, Hpost.
    unfold bind, lift. rewrite Hex.
    apply (assert_item_eq_returns _ _ _ tt) in Hn, Hp, Ht, Hg.
    rewrite Hn, Hp, Ht, Hg. reflexivity.
Qed.


Lemma calculated_100 (name : str) (quantity : json) :
  ApiTests.calculated_data name quantity (PyInt 100) =
  Return (ApiTests.service_data (JStr name) quantity (JNum (PyInt 100))
            (JNum (PyFloat (decimal 220 1)))
            (JNum (PyFloat (decimal 1220 1)))).
Proof.
  unfold ApiTests.calculated_data.
  destruct calculate_examples as (-> & -> & _). reflexivity.
Qed.

Lemma assert_in_object (key : str) kv msg u :
  ApiTests.assert_in key (JObj kv) msg = Return u <-> lookup key kv <> None.
Proof.
  unfold ApiTests.assert_in. cbn [py_in rbind]. rewrite key_in_lookup.
  destruct (lookup key kv); cbn; destruct u; split; congruence.
Qed.

Lemma assert_same_item_returns (x : json) name quantity price tax gross key u :
  In key ["name"; "price"; "tax"; "gross"] ->
  ApiTests.assert_same_item x
    (ApiTests.service_data name quantity price tax gross) key = Return u <->
  field_equals x key
    (if String.eqb key "name" then name
     else if String.eqb key "price" then price
     else if String.eqb key "tax" then tax else gross).
Proof.
  intros Hk. unfold ApiTests.assert_same_item, field_equals.
  assert (Hget : getitem (ApiTests.service_data name quantity price tax gross) key
                 = Return (if String.eqb key "name" then name
                           else if String.eqb key "price" then price
                           else if String.eqb key "tax" then tax else gross)).
  { cbn in Hk. destruct Hk as [<-|[<-|[<-|[<-|[]]]]]; reflexivity. }
  rewrite Hget. split.
  - destruct (getitem x key) as [a|e]; cbn [rbind]; [|discriminate].
    intros H. apply assert_returns in H. eauto.
  - intros (a & -> & He). cbn [rbind]. rewrite He. destruct u. reflexivity.
Qed.

(** X4: [test_create_service_success] passes exactly when the record
    extracted from the answer is an object that has the five keys name,
    description, price, tax and gross, carries the name, the price, the
    tax 22.0 and the gross 122.0 that were sent, and also has a [uuid]
    (the closing print reads it): a [description] is required though
    none is sent, and a collection whose first record has no [uuid]
    fails the test. *)
Theorem create_success_passes_iff (st st' : Api.test_state) :
  ApiTests.test_create_service_success server st = (Return tt, st') <->
  exists r kv u description,
    server (Api.sent st) (Api.POST create_success_data) = Return r /\
    extract_service_from_response r = Return (JObj kv) /\
    lookup "uuid" kv = Some u /\
    lookup "description" kv = Some description /\
    field_equals (JObj kv) "name" (JStr "Test Service") /\
    field_equals (JObj kv) "price" (JNum (PyInt 100)) /\
    field_equals (JObj kv) "tax" (JNum (PyFloat (decimal 220 1))) /\
    field_equals (JObj kv) "gross" (JNum (PyFloat (decimal 1220 1))) /\
    st' = {| Api.created_service_uuids := track r (Api.created_service_uuids st);
             Api.sent := Api.sent st ++ [Api.POST create_success_data] |}.
Proof.
  unfold ApiTests.test_create_service_success. rewrite calculated_100.
  fold create_success_data. split.
  - intros H.
    pure_step H as data Hd. injection Hd as <-.
    run_step H as r st1 Hr. rewrite create_service_run in Hr.
    destruct (server (Api.sent st) (Api.POST create_success_data))
      as [r0|e] eqn:Hpost; [|discriminate].
    injection Hr as E1 E2. subst r st1.
    pure_step H as created_service Hex.
    pure_step H as u1 H1. pure_step H as u2 H2. pure_step H as u3 H3.
    pure_step H as u4 H4. pure_step H as u5 H5.
    pure_step H as u6 Hn. pure_step H as u7 Hp.
    pure_step H as u8 Ht. pure_step H as u9 Hg.
    pure_step H as u Hu. injection H as <-.
    destruct created_service as [| | | | |kv]; try discriminate.
    cbn [getitem] in Hu.
    destruct (lookup "uuid" kv) as [u0|] eqn:Hlu; [|discriminate].
    apply assert_in_object in H2.
    destruct (lookup "description" kv) as [d|] eqn:Hld; [|congruence].
    unfold create_success_data in Hn, Hp, Ht, Hg.
    apply assert_same_item_returns in Hn; [|cbn; tauto].
    apply assert_same_item_returns in Hp; [|cbn; tauto].
    apply assert_same_item_returns in Ht; [|cbn; tauto].
    apply assert_same_item_returns in Hg; [|cbn; tauto].
    exists r0, kv, u0, d. cbn in Hn, Hp, Ht, Hg. auto 12.
  - intros (r & kv & u & d & Hpost & Hex & Hu & Hd & Hn & Hp & Ht & Hg & ->).
    assert (Hkey : forall key expected msg,
              field_equals (JObj kv) key expected ->
              ApiTests.assert_in key (JObj kv) msg = Return tt).
    { intros key expected msg (a & Ha & _). apply assert_in_object.
      cbn [getitem] in Ha. destruct (lookup key kv); congruence. }
    unfold bind at 1. unfold lift at 1.
    unfold bind at 1. rewrite create_service_run, Hpost.
    unfold bind, lift. rewrite Hex.
    rewrite (Hkey _ _ _ Hn), (Hkey _ _ _ Hp), (Hkey _ _ _ Ht), (Hkey _ _ _ Hg).
    rewrite (proj2 (assert_in_object "description" kv _ tt)) by congruence.
    unfold create_success_data.
    rewrite (proj2 (assert_same_item_returns _ _ _ _ _ _ "name" tt
                      ltac:(cbn; tauto))) by exact Hn.
    rewrite (proj2 (assert_same_item_returns _ _ _ _ _ _ "price" tt
                      ltac:(cbn; tauto))) by exact Hp.
    rewrite (proj2 (assert_same_item_returns _ _ _ _ _ _ "tax" tt
                      ltac:(cbn; tauto))) by exact Ht.
    rewrite (proj2 (assert_same_item_returns _ _ _ _ _ _ "gross" tt
                      ltac:(cbn; tauto))) by exact Hg.
    cbn [getitem]. rewrite Hu. reflexivity.
Qed.


Lemma calculated_data_returns name quantity price data :
  ApiTests.calculated_data name quantity price = Return data ->
  exists tax gross,
    data = ApiTests.service_data (JStr name) quantity (JNum price)
             (JNum (PyFloat tax)) (JNum (PyFloat gross)).
Proof.
  unfold ApiTests.calculated_data.
  destruct (calculate_tax price) as [e|tax]; [discriminate|].
  destruct (calculate_gross price) as [e|gross]; [discriminate|].
  cbn. intros H. injection H as <-. eauto.
Qed.

Lemma some_creation_accepted_later log more :
  some_creation_accepted server log ->
  some_creation_accepted server (log ++ more).
Proof.
  intros (before & data & after & r & -> & H).
  exists before, data, (after ++ more), r. split; [|exact H].
  rewrite <- app_assoc. reflexivity.
Qed.

(** A run of the loop over any list of services: the prices posted are
    those of the rows that are not skipped, in order, and the counter
    grows only on an accepted creation. *)
Lemma realistic_loop_run (services : list service_info) :
  forall (n n' : Z) (st st' : Api.test_state),
  ApiTests.realistic_loop server services n st = (Return n', st') ->
  exists more,
    Api.sent st' = Api.sent st ++ more /\
    map posted_price more =
      map (fun info => Some (JNum (info_price info)))
          (filter ApiTests.eligible services) /\
    (n <= n')%Z /\
    ((n < n')%Z -> some_creation_accepted server (Api.sent st')).
Proof.
  induction services as [|info rest IH]; intros n n' st st' H.
  - cbn in H. injection H as <- <-. exists []. rewrite app_nil_r.
    repeat split; try reflexivity; lia.
  - cbn [ApiTests.realistic_loop] in H. cbn [filter].
    unfold ApiTests.eligible at 1.
    destruct (num_le_int (info_price info) 0); cbn [negb andb];
      [apply IH; exact H|].
    destruct (num_gt_int (info_price info) (max_int DB_LIMITS));
      cbn [negb andb]; [apply IH; exact H|].
    pure_step H as data Hd.
    destruct (calculated_data_returns _ _ _ _ Hd) as (tax & gross & ->).
    run_step H as r st1 Hr. rewrite create_service_run in Hr.
    match type of Hr with
    | match server ?l ?rq with _ => _ end = _ =>
        destruct (server l rq) as [r0|e] eqn:Hpost; [|discriminate]
    end.
    injection Hr as E1 E2. subst r st1.
    destruct (IH _ _ _ _ H) as (more & Hsent & Hprices & Hle & Hsome).
    cbn [Api.sent] in Hsent. rewrite <- app_assoc in Hsent. cbn [app] in Hsent.
    eexists. split; [exact Hsent|]. split.
    + cbn [map posted_price ApiTests.service_data lookup String.eqb].
      rewrite Hprices. reflexivity.
    + destruct (status_ok r0) eqn:Hok.
      * split; [lia|]. intros _. rewrite Hsent.
        eexists (Api.sent st), _, more, r0. auto.
      * split; [lia|]. exact Hsome.
Qed.

(** X5: a passing [test_create_realistic_services] has posted exactly
    seven services, with the prices 3000, 2147483646, 2147483647.0, 2500,
    2000, 1500 and 100.0 in this order: the row with the negative price
    -3500 and the row with 2147483648, above the int maximum, are never
    sent; and at least one of the creations was answered with status 200
    or 201. *)
Theorem realistic_services_posted (st st' : Api.test_state) :
  ApiTests.test_create_realistic_services server st = (Return tt, st') ->
  exists more,
    Api.sent st' = Api.sent st ++ more /\
    map posted_price more =
      [Some (JNum (PyInt 3000)); Some (JNum (PyInt 2147483646));
       Some (JNum (PyFloat (decimal 214748364700 2)));
       Some (JNum (PyInt 2500)); Some (JNum (PyInt 2000));
       Some (JNum (PyInt 1500)); Some (JNum (PyFloat (decimal 10000 2)))] /\
    some_creation_accepted server (Api.sent st').
Proof.
  unfold ApiTests.test_create_realistic_services. intros H.
  run_step H as n st1 Hloop.
  apply lift_returns in H. destruct H as [H ->].
  apply assert_returns in H. apply Z.ltb_lt in H.
  destruct (realistic_loop_run _ _ _ _ _ Hloop) as (more & Hs & Hp & _ & Hsome).
  exists more. split; [exact Hs|]. split; [|exact (Hsome H)].
  rewrite Hp. vm_compute. reflexivity.
Qed.


(** ** Tests under the fixture *)

Lemma teardown_eq (st : Api.test_state) :
  Api.teardown server st = (Return tt, after_teardown st).
Proof. unfold Api.teardown, bind, gets. apply delete_loop_run. Qed.

(** A test run under the fixture, in one equation: the outcome is the
    test's, from an empty tracked list, and the teardown follows. *)
Lemma run_test_eq (test : M Api.test_state unit) (st : Api.test_state) :
  Api.run_test server test st =
  (fst (test (Api.set_created [] st)),
   after_teardown (snd (test (Api.set_created [] st)))).
Proof.
  unfold Api.run_test, Api.setup. unfold bind at 1.
  destruct (test (Api.set_created [] st)) as [[[]|e] st1]; cbn [fst snd];
    rewrite teardown_eq; reflexivity.
Qed.

Lemma list_remove_singleton (u x : json) (l : list json) :
  Api.list_remove u [x] = Some l -> l = [].
Proof.
  cbn. destruct (py_eq x u); cbn; congruence.
Qed.

Lemma object_with_uuid (created : json) (u : json) :
  getitem created "uuid" = Return u ->
  exists kv, created = JObj kv /\ lookup "uuid" kv = Some u.
Proof.
  intros H. destruct created as [| | | | |kv]; try discriminate H.
  cbn in H. destruct (lookup "uuid" kv) as [u0|] eqn:Hl; [|discriminate H].
  injection H as <-. eauto.
Qed.

(** A passing run of [test_delete_service_success] from a state that
    tracks nothing. *)
Lemma delete_success_run (st st' : Api.test_state) :
  Api.created_service_uuids st = [] ->
  ApiTests.test_delete_service_success server st = (Return tt, st') ->
  exists r kv u rd rg,
    server (Api.sent st) (Api.POST delete_data) = Return r /\
    status_ok r = true /\ body r = Some (JObj kv) /\
    lookup "uuid" kv = Some u /\
    server (Api.sent st ++ [Api.POST delete_data]) (Api.DELETE u) = Return rd /\
    status_in rd [200; 204]%Z = true /\
    server (Api.sent st ++ [Api.POST delete_data; Api.DELETE u]) (Api.GET u)
      = Return rg /\
    status_code rg = 404%Z /\
    st' = {| Api.created_service_uuids := [];
             Api.sent := Api.sent st
                         ++ [Api.POST delete_data; Api.DELETE u; Api.GET u] |}.
Proof.
  unfold ApiTests.test_delete_service_success. rewrite calculated_100.
  fold delete_data. intros Hempty H.
  pure_step H as data Hd. injection Hd as <-.
  run_step H as r st1 Hr. rewrite create_service_run in Hr.
  destruct (server (Api.sent st) (Api.POST delete_data))
    as [r0|e] eqn:Hpost; [|discriminate].
  injection Hr as E1 E2. subst r st1.
  pure_step H as u1 Hok. apply assert_returns in Hok.
  pure_step H as created Hbody. apply response_json_returns in Hbody.
  pure_step H as u Hu.
  destruct (object_with_uuid _ _ Hu) as (kv & -> & Hlu).
  destruct (extract_single _ _ _ Hok Hbody Hlu) as (_ & Htrack & _).
  rewrite Hempty, Htrack in H.
  run_step H as rd st2 Hdel. unfold Api.http in Hdel.
  cbn [Api.sent Api.created_service_uuids] in Hdel.
  injection Hdel as Hdel E. subst st2.
  pure_step H as u2 Hdok. apply assert_returns in Hdok.
  run_step H as rg st3 Hget. unfold Api.http in Hget.
  cbn [Api.sent Api.created_service_uuids] in Hget.
  injection Hget as Hget E. subst st3.
  pure_step H as u3 Hgok. apply assert_returns in Hgok.
  apply Z.eqb_eq in Hgok.
  unfold Api.remove_created in H. cbn [Api.created_service_uuids] in H.
  destruct (Api.list_remove u [u]) as [l|] eqn:Hrm; [|discriminate].
  apply list_remove_singleton in Hrm. subst l.
  injection H as <-.
  rewrite <- app_assoc in Hget. cbn [app] in Hget.
  exists r0, kv, u, rd, rg. unfold Api.set_created. cbn [Api.sent].
  rewrite <- !app_assoc. cbn [app]. auto 12.
Qed.

(** X6: a passing [test_delete_service_success], run under the fixture,
    sends exactly three requests: the creation, the DELETE of the
    identifier the answer carried (answered 200 or 204) and the GET of it
    (answered 404).  The test takes the identifier off the tracked list,
    so the teardown sends no second DELETE. *)
Theorem delete_test_sends_no_second_delete (st : Api.test_state) :
  fst (Api.run_test server (ApiTests.test_delete_service_success server) st)
    = Return tt ->
  exists r kv u rd rg,
    server (Api.sent st) (Api.POST delete_data) = Return r /\
    status_ok r = true /\ body r = Some (JObj kv) /\
    lookup "uuid" kv = Some u /\
    server (Api.sent st ++ [Api.POST delete_data]) (Api.DELETE u) = Return rd /\
    status_in rd [200; 204]%Z = true /\
    server (Api.sent st ++ [Api.POST delete_data; Api.DELETE u]) (Api.GET u)
      = Return rg /\
    status_code rg = 404%Z /\
    snd (Api.run_test server (ApiTests.test_delete_service_success server) st)
    = {| Api.created_service_uuids := [];
         Api.sent := Api.sent st
                     ++ [Api.POST delete_data; Api.DELETE u; Api.GET u] |}.
Proof.
  rewrite run_test_eq. cbn [fst snd]. intros H.
  destruct (ApiTests.test_delete_service_success server (Api.set_created [] st))
    as [o st1] eqn:Hrun.
  cbn [fst] in H. subst o.
  destruct (delete_success_run (Api.set_created [] st) st1 eq_refl Hrun)
    as (r & kv & u & rd & rg & H1 & H2 & H3 & H4 & H5 & H6 & H7 & H8 & ->).
  exists r, kv, u, rd, rg. cbn [snd]. unfold after_teardown.
  cbn [Api.created_service_uuids Api.sent map Api.set_created] in *.
  rewrite app_nil_r. auto 12.
Qed.


(** A passing run of [test_delete_service_twice] from a state that
    tracks nothing. *)
Lemma delete_twice_run (st st' : Api.test_state) :
  Api.created_service_uuids st = [] ->
  ApiTests.test_delete_service_twice server st = (Return tt, st') ->
  exists u,
    st' = {| Api.created_service_uuids := [];
             Api.sent := Api.sent st
                         ++ [Api.POST double_delete_data; Api.DELETE u;
                             Api.DELETE u] |}.
Proof.
  unfold ApiTests.test_delete_service_twice. rewrite calculated_100.
  fold double_delete_data. intros Hempty H.
  pure_step H as data Hd. injection Hd as <-.
  run_step H as r st1 Hr. rewrite create_service_run in Hr.
  destruct (server (Api.sent st) (Api.POST double_delete_data))
    as [r0|e] eqn:Hpost; [|discriminate].
  injection Hr as E1 E2. subst r st1.
  destruct (status_ok r0) eqn:Hok.
  2:{ unfold bind at 1 in H. unfold lift at 1 in H. discriminate. }
  run_step H as u0 st1 Hskip. injection Hskip as _ <-.
  pure_step H as created Hbody. apply response_json_returns in Hbody.
  pure_step H as u Hu.
  destruct (object_with_uuid _ _ Hu) as (kv & -> & Hlu).
  destruct (extract_single _ _ _ Hok Hbody Hlu) as (_ & Htrack & _).
  rewrite Hempty, Htrack in H.
  run_step H as rd st2 Hdel. unfold Api.http in Hdel.
  cbn [Api.sent Api.created_service_uuids] in Hdel.
  injection Hdel as Hdel E. subst st2.
  pure_step H as u2 Hdok.
  run_step H as rd2 st3 Hdel2. unfold Api.http in Hdel2.
  cbn [Api.sent Api.created_service_uuids] in Hdel2.
  injection Hdel2 as Hdel2 E. subst st3.
  pure_step H as u3 Hdok2.
  unfold Api.remove_created in H. cbn [Api.created_service_uuids] in H.
  destruct (Api.list_remove u [u]) as [l|] eqn:Hrm; [|discriminate].
  apply list_remove_singleton in Hrm. subst l.
  injection H as <-.
  exists u. unfold Api.set_created. cbn [Api.sent].
  rewrite <- !app_assoc. reflexivity.
Qed.

(** X7: [test_delete_service_twice] under the fixture.  When the
    creation is answered with a status other than 200 and 201 the test
    is skipped, not failed, and nothing but the creation was sent.  When
    it passes it has sent the creation and two DELETEs of the same
    identifier, and the teardown sends no third. *)
Theorem double_delete_under_fixture (st : Api.test_state) :
  (forall r,
     server (Api.sent st) (Api.POST double_delete_data) = Return r ->
     status_ok r = false ->
     Api.run_test server (ApiTests.test_delete_service_twice server) st =
     (Raise (Skipped (Fmt "Не удалось создать услугу для теста" [])),
      {| Api.created_service_uuids := [];
         Api.sent := Api.sent st ++ [Api.POST double_delete_data] |})) /\
  (fst (Api.run_test server (ApiTests.test_delete_service_twice server) st)
     = Return tt ->
   exists u,
     snd (Api.run_test server (ApiTests.test_delete_service_twice server) st)
     = {| Api.created_service_uuids := [];
          Api.sent := Api.sent st
                      ++ [Api.POST double_delete_data; Api.DELETE u;
                          Api.DELETE u] |}).
Proof.
  split.
  - intros r Hpost Hok.
    assert (Hrun : ApiTests.test_delete_service_twice server
                     (Api.set_created [] st) =
                   (Raise (Skipped (Fmt "Не удалось создать услугу для теста" [])),
                    {| Api.created_service_uuids := [];
                       Api.sent := Api.sent st ++ [Api.POST double_delete_data] |})).
    { unfold ApiTests.test_delete_service_twice. rewrite calculated_100.
      fold double_delete_data. unfold bind, lift.
      rewrite create_service_run.
      cbn [Api.set_created Api.sent Api.created_service_uuids].
      rewrite Hpost. unfold track, tracked_uuid. rewrite Hok. reflexivity. }
    rewrite run_test_eq, Hrun. cbn [fst snd]. unfold after_teardown.
    cbn [Api.created_service_uuids Api.sent map].
    rewrite app_nil_r. reflexivity.
  - rewrite run_test_eq. cbn [fst snd]. intros H.
    destruct (ApiTests.test_delete_service_twice server (Api.set_created [] st))
      as [o st1] eqn:Hrun.
    cbn [fst] in H. subst o.
    destruct (delete_twice_run (Api.set_created [] st) st1 eq_refl Hrun)
      as (u & ->).
    exists u. cbn [snd]. unfold after_teardown.
    cbn [Api.created_service_uuids Api.sent map Api.set_created].
    rewrite app_nil_r. reflexivity.
Qed.

Lemma status_ok_not_422 (r : response) :
  status_ok r = true -> (status_code r =? 422)%Z = false.
Proof.
  unfold status_ok. cbn [existsb]. rewrite Bool.orb_false_r.
  intros H. apply Bool.orb_true_iff in H.
  destruct H as [H|H]; apply Z.eqb_eq in H; rewrite H; reflexivity.
Qed.

Lemma assert_validation_error_not_422 (r : response) field :
  (status_code r =? 422)%Z = false ->
  assert_validation_error r field = Raise (expected_422 r).
Proof.
  intros H. unfold assert_validation_error. rewrite H. reflexivity.
Qed.

(** X9: a negative test that creates through [create_service] cleans up
    after a service that wrongly accepts its payload.  When the answer
    has status 200 or 201 and carries an identifier, the test fails with
    the assertion error "Ожидался код 422", and the teardown deletes the
    record that was created: the requests are the creation and one
    DELETE of that identifier.  This holds for the four minimum-value
    tests (of which [test_validation_min_quantity] is one) and for
    [test_validation_empty_name]. *)
Theorem accepted_invalid_payload_is_deleted
    (st : Api.test_state) (data : json) (field : str)
    (r : response) (kv : list (str * json)) (u : json) :
  server (Api.sent st) (Api.POST data) = Return r ->
  status_ok r = true ->
  body r = Some (JObj kv) ->
  lookup "uuid" kv = Some u ->
  Api.run_test server (ApiTests.validation_min_test server str_lower data field) st
  = (Raise (expected_422 r),
     {| Api.created_service_uuids := [u];
        Api.sent := Api.sent st ++ [Api.POST data; Api.DELETE u] |}) /\
  (data = ApiTests.empty_name_data ->
   Api.run_test server (ApiTests.test_validation_empty_name server str_lower) st
   = (Raise (expected_422 r),
      {| Api.created_service_uuids := [u];
         Api.sent := Api.sent st ++ [Api.POST data; Api.DELETE u] |})) /\
  ApiTests.validation_min_test server str_lower Api.min_quantity_data "quantity"
  = Api.test_validation_min_quantity server str_lower.
Proof.
  intros Hpost Hok Hb Hu.
  destruct (extract_single _ _ _ Hok Hb Hu) as (_ & Htrack & _).
  pose proof (status_ok_not_422 _ Hok) as H422.
  split; [|split; [|reflexivity]].
  - assert (Hrun : ApiTests.validation_min_test server str_lower data field
                     (Api.set_created [] st) =
                   (Raise (expected_422 r),
                    {| Api.created_service_uuids := [u];
                       Api.sent := Api.sent st ++ [Api.POST data] |})).
    { unfold ApiTests.validation_min_test, bind, lift.
      rewrite create_service_run.
      cbn [Api.set_created Api.sent Api.created_service_uuids].
      rewrite Hpost, Htrack.
      rewrite assert_validation_error_not_422 by exact H422. reflexivity. }
    rewrite run_test_eq, Hrun. cbn [fst snd]. unfold after_teardown.
    cbn [Api.created_service_uuids Api.sent map].
    rewrite <- app_assoc. reflexivity.
  - intros ->.
    assert (Hrun : ApiTests.test_validation_empty_name server str_lower
                     (Api.set_created [] st) =
                   (Raise (expected_422 r),
                    {| Api.created_service_uuids := [u];
                       Api.sent := Api.sent st
                                   ++ [Api.POST ApiTests.empty_name_data] |})).
    { unfold ApiTests.test_validation_empty_name, bind, lift.
      rewrite create_service_run.
      cbn [Api.set_created Api.sent Api.created_service_uuids].
      rewrite Hpost, Htrack. unfold ApiTests.check_name_errors.
      rewrite assert_validation_error_not_422 by exact H422. reflexivity. }
    rewrite run_test_eq, Hrun. cbn [fst snd]. unfold after_teardown.
    cbn [Api.created_service_uuids Api.sent map].
    rewrite <- app_assoc. reflexivity.
Qed.

(** X10: the two negative tests that call [requests.post] themselves,
    [test_validation_missing_name] and [test_validation_empty_json],
    leave the tracked list empty whatever the service answers, so under
    the fixture the only request is their POST: a record that the service
    wrongly created for them is never deleted. *)
Theorem direct_posts_are_never_cleaned (st : Api.test_state) :
  snd (Api.run_test server
         (ApiTests.test_validation_missing_name server str_lower) st)
  = {| Api.created_service_uuids := [];
       Api.sent := Api.sent st ++ [Api.POST ApiTests.missing_name_data] |} /\
  snd (Api.run_test server (ApiTests.test_validation_empty_json server) st)
  = {| Api.created_service_uuids := [];
       Api.sent := Api.sent st ++ [Api.POST (JObj [])] |}.
Proof.
  rewrite !run_test_eq. cbn [snd]. split.
  - unfold ApiTests.test_validation_missing_name, bind, lift, Api.http.
    cbn [Api.set_created Api.sent Api.created_service_uuids].
    destruct (server (Api.sent st) (Api.POST ApiTests.missing_name_data))
      as [r|e]; cbn [snd];
      unfold after_teardown; cbn [Api.created_service_uuids Api.sent map];
      rewrite app_nil_r; reflexivity.
  - unfold ApiTests.test_validation_empty_json, bind, lift, ret, Api.http.
    cbn [Api.set_created Api.sent Api.created_service_uuids].
    destruct (server (Api.sent st) (Api.POST (JObj []))) as [r|e].
    + destruct (assert_validation_error r None) as [v|e].
      * destruct (ApiTests.assert_fields ApiTests.required_fields v).
        -- destruct (py_keys v); cbn [snd]; unfold after_teardown;
             cbn [Api.created_service_uuids Api.sent map];
             rewrite app_nil_r; reflexivity.
        -- cbn [snd]. unfold after_teardown.
           cbn [Api.created_service_uuids Api.sent map].
           rewrite app_nil_r. reflexivity.
      * cbn [snd]. unfold after_teardown.
        cbn [Api.created_service_uuids Api.sent map].
        rewrite app_nil_r. reflexivity.
    + cbn [snd]. unfold after_teardown.
      cbn [Api.created_service_uuids Api.sent map].
      rewrite app_nil_r. reflexivity.
Qed.


Lemma assert_fields_object (fields : list str) ekv :
  ApiTests.assert_fields fields (JObj ekv) = Return tt <->
  Forall (fun field => lookup field ekv <> None) fields.
Proof.
  induction fields as [|field rest IH]; cbn [ApiTests.assert_fields].
  - split; [constructor | reflexivity].
  - cbn [py_in rbind]. rewrite key_in_lookup. split.
    + destruct (lookup field ekv) eqn:Hl; cbn [py_assert rbind]; [|discriminate].
      intros H. constructor; [congruence | apply IH; exact H].
    + intros H. inversion H as [|? ? Hf Hr]; subst.
      destruct (lookup field ekv); [|congruence]. cbn [py_assert rbind].
      apply IH. exact Hr.
Qed.

(** X8: [test_validation_empty_json] passes exactly when the service
    answers the empty object with status 422 and a body whose [errors]
    is a mapping that has all five required fields as keys (a list of
    the five names is not enough: the closing print reads the keys); in
    every case its POST is the only request and nothing is tracked. *)
Theorem empty_json_passes_iff (st st' : Api.test_state) :
  ApiTests.test_validation_empty_json server st = (Return tt, st') <->
  exists r kv ekv,
    server (Api.sent st) (Api.POST (JObj [])) = Return r /\
    status_code r = 422%Z /\
    body r = Some (JObj kv) /\
    lookup "errors" kv = Some (JObj ekv) /\
    Forall (fun field => lookup field ekv <> None) ApiTests.required_fields /\
    st' = {| Api.created_service_uuids := Api.created_service_uuids st;
             Api.sent := Api.sent st ++ [Api.POST (JObj [])] |}.
Proof.
  unfold ApiTests.test_validation_empty_json. split.
  - intros H.
    run_step H as r st1 Hr. unfold Api.http in Hr.
    injection Hr as Hpost E. subst st1.
    pure_step H as all_errors Herr.
    apply assert_validation_error_returns in Herr.
    destruct Herr as (Hcode & kv & errors & Hb & Hl & Hcase).
    destruct Hcase as [[_ ->]|(f & ekv & Hf & _)]; [|discriminate].
    pure_step H as u1 Hfields.
    pure_step H as ks Hkeys. injection H as <-.
    destruct errors as [| | | | |ekv]; try discriminate.
    destruct u1. apply assert_fields_object in Hfields.
    exists r, kv, ekv. auto 10.
  - intros (r & kv & ekv & Hpost & Hcode & Hb & Hl & Hfields & ->).
    apply assert_fields_object in Hfields.
    unfold bind, lift, ret, Api.http. rewrite Hpost.
    unfold assert_validation_error. rewrite Hcode.
    cbn [Z.eqb Pos.eqb py_assert rbind].
    unfold parse_validation_errors, response_json. rewrite Hb.
    cbn [rbind py_in]. rewrite key_in_lookup, Hl.
    cbn [py_assert rbind getitem]. rewrite Hl.
    cbn [try_except_Exception]. rewrite Hfields. reflexivity.
Qed.

(** X11: the two observations [test_bug_integer_overflow_quantity] and
    [test_bug_integer_underflow] pass on every answer of the service,
    whatever its status and body (a body that is not JSON included): they
    post a quantity of 2147483648, and a quantity and price of
    -2147483649, and only look at the status. *)
Theorem overflow_observations_never_fail
    (st : Api.test_state) (r : response) :
  getitem ApiTests.overflow_quantity_data "quantity"
    = Return (JNum (PyInt 2147483648)) /\
  getitem ApiTests.underflow_data "quantity"
    = Return (JNum (PyInt (-2147483649))) /\
  getitem ApiTests.underflow_data "price"
    = Return (JNum (PyInt (-2147483649))) /\
  (server (Api.sent st) (Api.POST ApiTests.overflow_quantity_data) = Return r ->
   fst (ApiTests.test_bug_integer_overflow_quantity server st) = Return tt) /\
  (server (Api.sent st) (Api.POST ApiTests.underflow_data) = Return r ->
   fst (ApiTests.test_bug_integer_underflow server st) = Return tt).
Proof.
  split; [reflexivity|]. split; [reflexivity|]. split; [reflexivity|]. split.
  - intros Hpost. unfold ApiTests.test_bug_integer_overflow_quantity, bind.
    rewrite create_service_run, Hpost. reflexivity.
  - intros Hpost. unfold ApiTests.test_bug_integer_underflow, bind.
    rewrite create_service_run, Hpost. reflexivity.
Qed.

(** X12: [test_bug_integer_overflow_price] fails on an answer of the
    service in one case only: the status is 200 or 201 and the body is
    not a JSON object (it calls [response.json().get("price")]); every
    other answer, a 422 or any other status with any body, passes. *)
Theorem overflow_price_fails_only_on_bad_body
    (st : Api.test_state) (r : response) :
  server (Api.sent st) (Api.POST ApiTests.overflow_price_data) = Return r ->
  (fst (ApiTests.test_bug_integer_overflow_price server st) = Return tt <->
   (status_ok r = true -> exists kv, body r = Some (JObj kv))).
Proof.
  intros Hpost. unfold ApiTests.test_bug_integer_overflow_price, bind.
  rewrite create_service_run, Hpost.
  destruct (status_ok r) eqn:Hok.
  - rewrite (status_ok_not_422 _ Hok). unfold lift, response_json.
    destruct (body r) as [j|]; cbn [fst].
    + destruct j as [| | | | |kv]; cbn [py_get fst];
        try (split; [discriminate | intros H; destruct (H eq_refl); discriminate]).
      split; [eauto|]. intros _. destruct (lookup "price" kv); reflexivity.
    + split; [discriminate | intros H; destruct (H eq_refl); discriminate].
  - destruct (status_code r =? 422)%Z; cbn [fst ret];
      (split; [discriminate | reflexivity]).
Qed.

(** X13: [test_bug_critical_inconsistent_response_structure] passes
    exactly when the creation is answered with status 200 or 201 and a
    JSON object that either has a [uuid], or has no [data], or has a
    [data] that it can print (empty, or a list whose first element is an
    object).  So the body that the extraction rejects as an unexpected
    structure, an object with neither key, passes here. *)
Theorem inconsistent_structure_passes_iff (st st' : Api.test_state) :
  ApiTests.test_bug_critical_inconsistent_response_structure server st
    = (Return tt, st') <->
  exists r kv,
    server (Api.sent st) (Api.POST ApiTests.inconsistent_data) = Return r /\
    status_ok r = true /\
    body r = Some (JObj kv) /\
    (lookup "uuid" kv = None ->
     forall d, lookup "data" kv = Some d -> data_printable d = true) /\
    st' = {| Api.created_service_uuids := track r (Api.created_service_uuids st);
             Api.sent := Api.sent st ++ [Api.POST ApiTests.inconsistent_data] |}.
Proof.
  unfold ApiTests.test_bug_critical_inconsistent_response_structure. split.
  - intros H.
    run_step H as r st1 Hr. rewrite create_service_run in Hr.
    destruct (server (Api.sent st) (Api.POST ApiTests.inconsistent_data))
      as [r0|e] eqn:Hpost; [|discriminate].
    injection Hr as E1 E2. subst r st1.
    pure_step H as u1 Hok. apply assert_returns in Hok.
    pure_step H as response_data Hb. apply response_json_returns in Hb.
    pure_step H as ks Hk.
    destruct response_data as [| | | | |kv]; try discriminate.
    pure_step H as has_uuid Hu. cbn [py_in] in Hu.
    rewrite key_in_lookup in Hu. injection Hu as <-.
    exists r0, kv. split; [reflexivity|]. split; [exact Hok|].
    split; [exact Hb|].
    destruct (lookup "uuid" kv) as [u|] eqn:Hlu.
    + pure_step H as u2 Hg. injection H as <-. split; [discriminate | reflexivity].
    + pure_step H as has_data Hd. cbn [py_in] in Hd.
      rewrite key_in_lookup in Hd. injection Hd as <-.
      destruct (lookup "data" kv) as [d|] eqn:Hld.
      * pure_step H as d' Hgd. cbn [getitem] in Hgd. rewrite Hld in Hgd.
        injection Hgd as <-.
        pure_step H as n Hlen.
        destruct d as [| | |s|l|dkv]; try discriminate.
        -- destruct s as [|c s]; cbn [py_truthy] in H.
           ++ injection H as <-. split; [|reflexivity].
              intros _ d Hd. injection Hd as <-. reflexivity.
           ++ pure_step H as first Hf. pure_step H as ks' Hk'.
              cbn [getitem0] in Hf.
              destruct (snd (utf8_split (String c s))); [discriminate|].
              injection Hf as <-. discriminate.
        -- destruct l as [|x l]; cbn [py_truthy] in H.
           ++ injection H as <-. split; [|reflexivity].
              intros _ d Hd. injection Hd as <-. reflexivity.
           ++ pure_step H as first Hf. cbn [getitem0] in Hf. injection Hf as <-.
              pure_step H as ks' Hk'.
              destruct x as [| | | | |xkv]; try discriminate.
              injection H as <-. split; [|reflexivity].
              intros _ d Hd. injection Hd as <-. reflexivity.
        -- destruct dkv as [|p dkv]; cbn [py_truthy] in H.
           ++ injection H as <-. split; [|reflexivity].
              intros _ d Hd. injection Hd as <-. reflexivity.
           ++ pure_step H as first Hf. discriminate.
      * injection H as <-. split; [|reflexivity]. intros _ d Hd. discriminate.
  - intros (r & kv & Hpost & Hok & Hb & Hdata & ->).
    unfold bind at 1. rewrite create_service_run, Hpost.
    unfold bind, lift, ret, response_json. rewrite Hok, Hb.
    cbn [py_assert py_keys py_in]. rewrite !key_in_lookup.
    destruct (lookup "uuid" kv) as [u|] eqn:Hlu.
    + cbn [getitem]. rewrite Hlu. reflexivity.
    + destruct (lookup "data" kv) as [d|] eqn:Hld; [|reflexivity].
      cbn [getitem]. rewrite Hld.
      specialize (Hdata eq_refl d eq_refl).
      destruct d as [| | |s|l|dkv]; try discriminate.
      * destruct s; [reflexivity | discriminate].
      * destruct l as [|x l]; [reflexivity|].
        destruct x; try discriminate. reflexivity.
      * destruct dkv; [reflexivity | discriminate].
Qed.


(** ** The precision table *)

Lemma precision_table_matches :
  Forall row_matches_calculator ApiTests.precision_cases.
Proof.
  repeat constructor; vm_compute; reflexivity.
Qed.

(** One passing iteration on a row that matches the calculator. *)
Lemma precision_step_run (case : num * float * float)
    (st st' : Api.test_state) :
  row_matches_calculator case ->
  ApiTests.precision_step server num_str case st = (Return tt, st') ->
  (exists rq, Api.sent st' = Api.sent st ++ [rq]) /\
  precision_checked server num_str (Api.sent st') case.
Proof.
  destruct case as [[price expected_tax] expected_gross].
  intros [Htax Hgross]. unfold ApiTests.precision_step. intros H.
  rewrite Htax, Hgross in H.
  pure_step H as tax Ht. injection Ht as <-.
  pure_step H as gross Hg. injection Hg as <-.
  fold (precision_data num_str price expected_tax expected_gross) in H.
  run_step H as r st1 Hr. rewrite create_service_run in Hr.
  destruct (server (Api.sent st)
              (Api.POST (precision_data num_str price expected_tax expected_gross)))
    as [r0|e] eqn:Hpost; [|discriminate].
  injection Hr as E1 E2. subst r st1.
  pure_step H as u1 Hok. apply assert_returns in Hok.
  pure_step H as response_data Hb. apply response_json_returns in Hb.
  pure_step H as actual_tax Hat.
  pure_step H as tax_close Htc.
  pure_step H as u2 Hta. apply assert_returns in Hta. subst tax_close.
  pure_step H as actual_gross Hag.
  pure_step H as gross_close Hgc.
  apply lift_returns in H. destruct H as [Hga ->].
  apply assert_returns in Hga. subst gross_close.
  cbn [Api.sent]. split; [eauto|].
  exists (Api.sent st), [], r0, response_data, actual_tax, actual_gross.
  auto 12.
Qed.

Lemma precision_checked_later log more case :
  precision_checked server num_str log case ->
  precision_checked server num_str (log ++ more) case.
Proof.
  destruct case as [[price expected_tax] expected_gross].
  intros (before & after & r & rd & t & g & -> & H).
  exists before, (after ++ more), r, rd, t, g. split; [|exact H].
  rewrite <- app_assoc. reflexivity.
Qed.

Lemma precision_loop_run (cases : list (num * float * float)) :
  forall st st',
  Forall row_matches_calculator cases ->
  for_each cases (ApiTests.precision_step server num_str) st = (Return tt, st') ->
  (exists more, Api.sent st' = Api.sent st ++ more /\
                List.length more = List.length cases) /\
  Forall (precision_checked server num_str (Api.sent st')) cases.
Proof.
  induction cases as [|case rest IH]; intros st st' Hrows H.
  - cbn in H. injection H as <-. split; [|constructor].
    exists []. rewrite app_nil_r. auto.
  - cbn [for_each] in H. run_step H as u st1 Hstep. destruct u.
    inversion Hrows as [|? ? Hrow Hrest]; subst.
    destruct (precision_step_run _ _ _ Hrow Hstep) as [[rq Hsent] Hchecked].
    destruct (IH _ _ Hrest H) as [(more & Hmore & Hlen) Hall].
    split.
    + exists (rq :: more). rewrite Hmore, Hsent, <- app_assoc.
      cbn [app List.length]. auto.
    + constructor; [|exact Hall]. rewrite Hmore.
      apply precision_checked_later. exact Hchecked.
Qed.

(** X15: the expected tax and gross of every row of the table of
    [test_tax_calculation_precision] are exactly what the calculator
    returns for the row's price; so a passing run has posted, for each of
    the seven rows, the row's price with the expected tax and gross, got
    status 200 or 201, and found in the answer a [tax] and a [gross]
    within 0.01 of the expected ones; it has sent seven requests. *)
Theorem precision_table_checked (st st' : Api.test_state) :
  Forall row_matches_calculator ApiTests.precision_cases /\
  (ApiTests.test_tax_calculation_precision server num_str st = (Return tt, st') ->
   (exists more, Api.sent st' = Api.sent st ++ more /\ List.length more = 7%nat) /\
   Forall (precision_checked server num_str (Api.sent st'))
          ApiTests.precision_cases).
Proof.
  split; [exact precision_table_matches|]. intros H.
  apply (precision_loop_run _ st st' precision_table_matches H).
Qed.

(** ** Reading the first error of a field *)

(** X16: on a 422 answer, [test_bug_exceeding_name_length] passes
    whatever the body is, because it reads the first error inside a
    [try] with a bare [except]; [test_negative_price] and
    [test_invalid_data_type_quantity_as_string] read it unguarded, so
    their outcome is the outcome of that reading: they fail with
    [JSONDecodeError] on a body that is not JSON and with [IndexError]
    on an empty list of messages for their field, and pass when the body
    is an object without [errors]. *)
Theorem first_error_is_guarded_in_one_test
    (st : Api.test_state) (r : response) :
  status_code r = 422%Z ->
  (server (Api.sent st) (Api.POST exceeding_name_data) = Return r ->
   fst (ApiTests.test_bug_exceeding_name_length server st) = Return tt) /\
  (server (Api.sent st) (Api.POST ApiTests.negative_price_data) = Return r ->
   fst (ApiTests.test_negative_price server st)
   = ApiTests.first_error "price" r) /\
  (server (Api.sent st) (Api.POST ApiTests.quantity_as_string_data) = Return r ->
   fst (ApiTests.test_invalid_data_type_quantity_as_string server st)
   = ApiTests.first_error "quantity" r) /\
  (forall field,
     body r = None -> ApiTests.first_error field r = Raise JSONDecodeError) /\
  (forall field kv ekv,
     body r = Some (JObj kv) -> lookup "errors" kv = Some (JObj ekv) ->
     lookup field ekv = Some (JArr []) ->
     ApiTests.first_error field r = Raise IndexError) /\
  (forall field kv,
     body r = Some (JObj kv) -> lookup "errors" kv = None ->
     ApiTests.first_error field r = Return tt).
Proof.
  intros Hcode. apply Z.eqb_eq in Hcode.
  split; [|split; [|split; [|split; [|split]]]].
  - intros Hpost. unfold ApiTests.test_bug_exceeding_name_length.
    rewrite calculated_100. fold exceeding_name_data.
    unfold bind, lift. rewrite create_service_run, Hpost, Hcode.
    unfold try_except. destruct (ApiTests.first_error "name" r) as [[]|e];
      reflexivity.
  - intros Hpost. unfold ApiTests.test_negative_price, bind, lift.
    rewrite create_service_run, Hpost, Hcode. reflexivity.
  - intros Hpost.
    unfold ApiTests.test_invalid_data_type_quantity_as_string, bind, lift.
    rewrite create_service_run, Hpost, Hcode. reflexivity.
  - intros field Hb. unfold ApiTests.first_error, response_json.
    rewrite Hb. reflexivity.
  - intros field kv ekv Hb He Hf. unfold ApiTests.first_error, response_json.
    rewrite Hb. cbn [rbind py_get_default]. rewrite He.
    cbn [rbind py_in]. rewrite key_in_lookup, Hf.
    cbn [getitem]. rewrite Hf. reflexivity.
  - intros field kv Hb He. unfold ApiTests.first_error, response_json.
    rewrite Hb. cbn [rbind py_get_default]. rewrite He. reflexivity.
Qed.

End MoreProperties.

(** ** The cleanup loop of the form tests *)

(** X14: when every click on a delete link removes at least one of them,
    [cleanup_services] ends after at most as many clicks as there were
    links, and leaves a page without delete links; when the links never
    go away it does not end, whatever the bound on the clicks. *)
Theorem cleanup_services_ends (delete_buttons : nat -> nat) :
  ((forall k, (0 < delete_buttons k)%nat ->
              (delete_buttons (S k) < delete_buttons k)%nat) ->
   forall fuel clicks,
     (delete_buttons clicks <= fuel)%nat ->
     exists n,
       UiCleanup.cleanup_services delete_buttons fuel clicks = Some n /\
       delete_buttons n = 0%nat /\
       (clicks <= n <= clicks + delete_buttons clicks)%nat) /\
  ((forall k, (0 < delete_buttons k)%nat) ->
   forall fuel clicks,
     UiCleanup.cleanup_services delete_buttons fuel clicks = None).
Proof.
  split.
  - intros Hless fuel. induction fuel as [|fuel IH]; intros clicks Hfuel.
    + exists clicks. cbn.
      assert (delete_buttons clicks = 0%nat) as -> by lia.
      cbn. repeat split; lia.
    + cbn [UiCleanup.cleanup_services].
      destruct (0 <? delete_buttons clicks)%nat eqn:Hpos.
      * apply Nat.ltb_lt in Hpos. specialize (Hless clicks Hpos).
        destruct (IH (S clicks)) as (n & Hrun & Hzero & Hn); [lia|].
        exists n. repeat split; [exact Hrun | exact Hzero | lia | lia].
      * apply Nat.ltb_ge in Hpos. exists clicks. repeat split; lia.
  - intros Hpos fuel. induction fuel as [|fuel IH]; intros clicks;
      cbn [UiCleanup.cleanup_services];
      (replace (0 <? delete_buttons clicks)%nat with true
         by (symmetry; apply Nat.ltb_lt, Hpos)); [reflexivity | apply IH].
Qed.

(** ** The further theorems on sample collaborators *)

(** X3 on the collection service: the example test passes on the
    collection shape, and the first record is tracked. *)
Lemma example_test_witness :
  ApiTests.test_create_service_from_example MoreSamples.collection_server
    Sample.start
  = (Return tt,
     {| Api.created_service_uuids := [JNum (PyInt 0)];
        Api.sent := [Api.POST ApiTests.example_data] |}).
Proof.
  apply (proj2 (example_test_passes_iff MoreSamples.collection_server
                  Sample.start _)).
  eexists _, _. split; [reflexivity|]. split; [reflexivity|].
  repeat split; try (eexists; split; reflexivity).
Defined.

(** X4 on the storing service, which adds a [uuid] and a
    [description]. *)
Lemma create_success_witness :
  ApiTests.test_create_service_success MoreSamples.store_server Sample.start
  = (Return tt,
     {| Api.created_service_uuids := [JNum (PyInt 0)];
        Api.sent := [Api.POST create_success_data] |}).
Proof.
  apply (proj2 (create_success_passes_iff MoreSamples.store_server
                  Sample.start _)).
  eexists _, _, _, _. split; [reflexivity|]. split; [reflexivity|].
  split; [reflexivity|]. split; [reflexivity|].
  repeat split; try (eexists; split; [reflexivity | vm_compute; reflexivity]).
Defined.

(** X5 on the storing service of the first samples. *)
Lemma realistic_services_witness :
  exists more,
    Api.sent (snd (ApiTests.test_create_realistic_services
                     Sample.memory_server Sample.start))
    = Api.sent Sample.start ++ more /\
    map posted_price more =
      [Some (JNum (PyInt 3000)); Some (JNum (PyInt 2147483646));
       Some (JNum (PyFloat (decimal 214748364700 2)));
       Some (JNum (PyInt 2500)); Some (JNum (PyInt 2000));
       Some (JNum (PyInt 1500)); Some (JNum (PyFloat (decimal 10000 2)))] /\
    some_creation_accepted Sample.memory_server
      (Api.sent (snd (ApiTests.test_create_realistic_services
                        Sample.memory_server Sample.start))).
Proof.
  apply (realistic_services_posted Sample.memory_server Sample.start).
  vm_compute. reflexivity.
Defined.

(** X6 on the service that stores and deletes. *)
Lemma delete_test_witness :
  exists u,
    snd (Api.run_test MoreSamples.store_server
           (ApiTests.test_delete_service_success MoreSamples.store_server)
           Sample.start)
    = {| Api.created_service_uuids := [];
         Api.sent := Api.sent Sample.start
                     ++ [Api.POST delete_data; Api.DELETE u; Api.GET u] |}.
Proof.
  destruct (delete_test_sends_no_second_delete MoreSamples.store_server
              Sample.start)
    as (r & kv & u & rd & rg & _ & _ & _ & _ & _ & _ & _ & _ & H).
  - vm_compute. reflexivity.
  - exists u. exact H.
Defined.

(** X7 on a service that is down: the test is skipped. *)
Lemma double_delete_witness :
  Api.run_test MoreSamples.failing_server
    (ApiTests.test_delete_service_twice MoreSamples.failing_server)
    Sample.start
  = (Raise (Skipped (Fmt "Не удалось создать услугу для теста" [])),
     {| Api.created_service_uuids := [];
        Api.sent := Api.sent Sample.start ++ [Api.POST double_delete_data] |}).
Proof.
  apply (proj1 (double_delete_under_fixture MoreSamples.failing_server
                  Sample.start)
           {| status_code := 500; body := None |}); reflexivity.
Defined.

(** X8 on the refusing service. *)
Lemma empty_json_witness :
  ApiTests.test_validation_empty_json MoreSamples.refusing_server Sample.start
  = (Return tt,
     {| Api.created_service_uuids := [];
        Api.sent := [Api.POST (JObj [])] |}).
Proof.
  apply (proj2 (empty_json_passes_iff MoreSamples.refusing_server
                  Sample.start _)).
  eexists _, _, _. split; [reflexivity|]. split; [reflexivity|].
  split; [reflexivity|]. split; [reflexivity|].
  split; [|reflexivity]. repeat constructor; discriminate.
Defined.

(** X9 on the storing service, which accepts a price of 0. *)
Lemma accepted_invalid_payload_witness :
  Api.run_test Sample.memory_server
    (ApiTests.validation_min_test Sample.memory_server Sample.str_lower
       ApiTests.min_price_data "price") Sample.start
  = (Raise (AssertionError
              (Some (Fmt "Ожидался код 422, получен {}" [JNum (PyInt 201)]))),
     {| Api.created_service_uuids := [JNum (PyInt 0)];
        Api.sent := [Api.POST ApiTests.min_price_data;
                     Api.DELETE (JNum (PyInt 0))] |}).
Proof.
  apply (proj1 (accepted_invalid_payload_is_deleted Sample.memory_server
                  Sample.str_lower Sample.start ApiTests.min_price_data "price"
                  {| status_code := 201;
                     body := Some (JObj (("uuid", JNum (PyInt 0))
                                         :: [("name", JStr "Test");
                                             ("quantity", JNum (PyInt 1));
                                             ("price", JNum (PyInt 0));
                                             ("tax", JNum (PyInt 0));
                                             ("gross", JNum (PyInt 0))])) |}
                  _ (JNum (PyInt 0)) eq_refl eq_refl eq_refl eq_refl)).
Defined.

(** X12 on the storing service: the overflowing price is accepted with
    an object body, and the observation passes. *)
Lemma overflow_price_witness :
  fst (ApiTests.test_bug_integer_overflow_price Sample.memory_server
         Sample.start) = Return tt.
Proof.
  apply (proj2 (overflow_price_fails_only_on_bad_body Sample.memory_server
                  Sample.start _ eq_refl)).
  intros _. eexists. reflexivity.
Defined.

(** X13 on the listing service of the first samples. *)
Lemma inconsistent_structure_witness :
  ApiTests.test_bug_critical_inconsistent_response_structure
    Sample.listing_server Sample.start
  = (Return tt,
     {| Api.created_service_uuids := [];
        Api.sent := [Api.POST ApiTests.inconsistent_data] |}).
Proof.
  apply (proj2 (inconsistent_structure_passes_iff Sample.listing_server
                  Sample.start _)).
  eexists _, _. split; [reflexivity|]. split; [reflexivity|].
  split; [reflexivity|]. split; [|reflexivity].
  intros _ d H. injection H as <-. reflexivity.
Defined.

(** X14 on a page with three links. *)
Lemma cleanup_services_witness :
  exists n,
    UiCleanup.cleanup_services MoreSamples.three_links 3 0 = Some n /\
    MoreSamples.three_links n = 0%nat /\
    (0 <= n <= 0 + MoreSamples.three_links 0)%nat.
Proof.
  apply (proj1 (cleanup_services_ends MoreSamples.three_links)).
  - intros k. unfold MoreSamples.three_links. lia.
  - unfold MoreSamples.three_links. lia.
Defined.

(** X15 on the storing service, which gives back the tax and gross it
    is sent. *)
Lemma precision_table_witness :
  Forall
    (precision_checked Sample.memory_server Sample.num_str
       (Api.sent (snd (ApiTests.test_tax_calculation_precision
                         Sample.memory_server Sample.num_str Sample.start))))
    ApiTests.precision_cases.
Proof.
  apply (proj2 (precision_table_checked Sample.memory_server Sample.num_str
                  Sample.start _)).
  vm_compute. reflexivity.
Defined.

(** X16 on a service that refuses with a page that is not JSON. *)
Lemma first_error_witness :
  fst (ApiTests.test_bug_exceeding_name_length MoreSamples.blunt_server
         Sample.start) = Return tt /\
  fst (ApiTests.test_negative_price MoreSamples.blunt_server Sample.start)
  = Raise JSONDecodeError.
Proof.
  destruct (first_error_is_guarded_in_one_test MoreSamples.blunt_server
              Sample.start {| status_code := 422; body := None |} eq_refl)
    as (H1 & H2 & _ & H4 & _).
  split.
  - apply H1. reflexivity.
  - rewrite H2 by reflexivity. apply H4. reflexivity.
Defined.

(** ** The read-back and the positive boundary tests *)

Section BoundaryProperties.

Variable server : list Api.request -> Api.request -> result response.

Lemma py_eq_one (x : json) :
  py_eq x (JNum (PyInt 1)) = true <-> equals_one x.
Proof.
  unfold equals_one. split.
  - destruct x as [|b|n|s|l|kv]; try discriminate.
    + destruct b; [auto | discriminate].
    + intros H. right. exists n. auto.
  - intros [->|(n & -> & H)]; [reflexivity | exact H].
Qed.

(** A passing run of [test_get_service_success]: what it leaves
    tracked. *)
Lemma read_back_run (st st' : Api.test_state) :
  Api.test_get_service_success server st = (Return tt, st') ->
  exists r kv u,
    server (Api.sent st) (Api.POST get_service_data) = Return r /\
    status_ok r = true /\ body r = Some (JObj kv) /\
    lookup "uuid" kv = Some u /\
    st' = {| Api.created_service_uuids := Api.created_service_uuids st ++ [u];
             Api.sent := Api.sent st
                         ++ [Api.POST get_service_data; Api.GET u] |}.
Proof.
  unfold Api.test_get_service_success. intros H.
  destruct calculate_200 as [H200 H244].
  pure_step H as tax Htax. apply of_arith_returns in Htax.
  pure_step H as gross Hgross. apply of_arith_returns in Hgross.
  assert (tax = decimal 440 1) by congruence.
  assert (gross = decimal 2440 1) by congruence. subst tax gross.
  fold get_service_data in H.
  run_step H as r st1 Hr. rewrite create_service_run in Hr.
  destruct (server (Api.sent st) (Api.POST get_service_data))
    as [r0|e] eqn:Hpost; [|discriminate].
  injection Hr as E1 E2. subst r st1.
  pure_step H as u1 Hok. apply assert_returns in Hok.
  pure_step H as created Hbody. apply response_json_returns in Hbody.
  pure_step H as u Hu.
  destruct (object_with_uuid _ _ Hu) as (kv & -> & Hlu).
  destruct (extract_single _ _ _ Hok Hbody Hlu) as (_ & _ & Htrack).
  rewrite Htrack in H.
  run_step H as rg st2 Hget. unfold Api.http in Hget.
  cbn [Api.sent Api.created_service_uuids] in Hget.
  injection Hget as Hget E. subst st2.
  pure_step H as u2 H1. pure_step H as rd H2.
  pure_step H as a1 H3. pure_step H as u3 H4.
  pure_step H as a2 H5. pure_step H as a3 H6. pure_step H as u4 H7.
  pure_step H as a4 H8. pure_step H as u5 H9.
  pure_step H as a5 H10. pure_step H as a6 H11.
  apply lift_returns in H. destruct H as [_ ->].
  exists r0, kv, u. rewrite <- app_assoc. cbn [app]. auto 8.
Qed.

(** X17: [test_get_service_success] under the fixture.  A passing run
    has made the checks of the read-back and leaves its record to the
    teardown: the requests are the creation, the GET and one DELETE of
    the identifier.  The test reads the identifier from the top level of
    the body, so on an accepted creation whose body is an object without
    [uuid] (the collection shape) it ends in [KeyError], and the teardown
    deletes whatever [create_service] tracked from the first record. *)
Theorem read_back_under_fixture (st : Api.test_state) :
  (fst (Api.run_test server (Api.test_get_service_success server) st)
     = Return tt ->
   exists u,
     read_back_checked server (Api.sent st)
       (Api.sent st ++ [Api.POST get_service_data; Api.GET u]) /\
     snd (Api.run_test server (Api.test_get_service_success server) st)
     = {| Api.created_service_uuids := [u];
          Api.sent := Api.sent st
                      ++ [Api.POST get_service_data; Api.GET u;
                          Api.DELETE u] |}) /\
  (forall r kv,
     server (Api.sent st) (Api.POST get_service_data) = Return r ->
     status_ok r = true ->
     body r = Some (JObj kv) ->
     lookup "uuid" kv = None ->
     Api.run_test server (Api.test_get_service_success server) st
     = (Raise (KeyError "uuid"),
        {| Api.created_service_uuids := track r [];
           Api.sent := Api.sent st
                       ++ Api.POST get_service_data
                          :: map Api.DELETE (track r []) |})).
Proof.
  split.
  - rewrite run_test_eq. cbn [fst snd]. intros H.
    destruct (Api.test_get_service_success server (Api.set_created [] st))
      as [o st1] eqn:Hrun.
    cbn [fst] in H. subst o.
    pose proof Hrun as Hchk. apply get_service_run in Hchk.
    destruct (read_back_run _ _ Hrun) as (r & kv & u & _ & _ & _ & _ & ->).
    exists u. cbn [Api.sent Api.set_created Api.created_service_uuids app] in *.
    split; [exact Hchk|].
    unfold after_teardown. cbn [snd Api.sent Api.created_service_uuids map].
    rewrite <- app_assoc. reflexivity.
  - intros r kv Hpost Hok Hbody Hnone.
    assert (Hrun : Api.test_get_service_success server (Api.set_created [] st)
                   = (Raise (KeyError "uuid"),
                      {| Api.created_service_uuids := track r [];
                         Api.sent := Api.sent st
                                     ++ [Api.POST get_service_data] |})).
    { unfold Api.test_get_service_success. cbv zeta.
      destruct calculate_200 as [H200 H244].
      unfold bind at 1. unfold lift at 1. rewrite H200. cbn [of_arith].
      unfold bind at 1. unfold lift at 1. rewrite H244. cbn [of_arith].
      fold get_service_data.
      unfold bind at 1. rewrite create_service_run.
      cbn [Api.sent Api.set_created Api.created_service_uuids].
      rewrite Hpost.
      unfold bind, lift. rewrite Hok. cbn [py_assert].
      unfold response_json. rewrite Hbody. cbn [getitem]. rewrite Hnone.
      reflexivity. }
    rewrite run_test_eq, Hrun. cbn [fst snd]. unfold after_teardown.
    cbn [Api.sent Api.created_service_uuids].
    rewrite <- app_assoc. reflexivity.
Qed.

Lemma object_with_key (x : json) (k : str) (v : json) :
  getitem x k = Return v ->
  exists kv, x = JObj kv /\ lookup k kv = Some v.
Proof.
  intros H. destruct x as [| | | | |kv]; try discriminate H.
  cbn in H. destruct (lookup k kv) as [v0|] eqn:Hl; [|discriminate H].
  injection H as <-. eauto.
Qed.

Lemma max_name_length : py_len (JStr ApiTests.max_name) = Return 255%Z.
Proof. vm_compute. reflexivity. Qed.

(** X18: [test_create_service_with_max_name_length] passes exactly when
    the creation is answered with status 200 or 201 and a JSON object
    whose [name] has a length of at most 255 (a text, a list or an
    object).  The name that comes back is not compared with the 255
    letters that were sent; a service that echoes them passes. *)
Theorem max_name_length_passes_iff (st st' : Api.test_state) :
  (ApiTests.test_create_service_with_max_name_length server st
     = (Return tt, st') <->
   exists r kv name n,
     server (Api.sent st) (Api.POST max_name_data) = Return r /\
     status_ok r = true /\
     body r = Some (JObj kv) /\
     lookup "name" kv = Some name /\
     py_len name = Return n /\
     (n <= 255)%Z /\
     st' = {| Api.created_service_uuids := track r (Api.created_service_uuids st);
              Api.sent := Api.sent st ++ [Api.POST max_name_data] |}) /\
  (forall r kv,
     server (Api.sent st) (Api.POST max_name_data) = Return r ->
     status_ok r = true ->
     body r = Some (JObj kv) ->
     lookup "name" kv = Some (JStr ApiTests.max_name) ->
     fst (ApiTests.test_create_service_with_max_name_length server st)
     = Return tt).
Proof.
  assert (Hiff : forall st',
    ApiTests.test_create_service_with_max_name_length server st
      = (Return tt, st') <->
    exists r kv name n,
      server (Api.sent st) (Api.POST max_name_data) = Return r /\
      status_ok r = true /\
      body r = Some (JObj kv) /\
      lookup "name" kv = Some name /\
      py_len name = Return n /\
      (n <= 255)%Z /\
      st' = {| Api.created_service_uuids := track r (Api.created_service_uuids st);
               Api.sent := Api.sent st ++ [Api.POST max_name_data] |}).
  { intros st2. unfold ApiTests.test_create_service_with_max_name_length.
    rewrite calculated_100. fold max_name_data. split.
    - intros H.
      pure_step H as data Hd. injection Hd as <-.
      run_step H as r st1 Hr. rewrite create_service_run in Hr.
      destruct (server (Api.sent st) (Api.POST max_name_data))
        as [r0|e] eqn:Hpost; [|discriminate].
      injection Hr as E1 E2. subst r st1.
      pure_step H as u1 Hok. apply assert_returns in Hok.
      pure_step H as response_data Hbody. apply response_json_returns in Hbody.
      pure_step H as name Hname.
      destruct (object_with_key _ _ _ Hname) as (kv & -> & Hl).
      pure_step H as n Hn.
      apply lift_returns in H. destruct H as [Hle ->].
      apply assert_returns in Hle. apply Z.leb_le in Hle.
      exists r0, kv, name, n. auto 10.
    - intros (r & kv & name & n & Hpost & Hok & Hbody & Hl & Hn & Hle & ->).
      unfold bind at 1. unfold lift at 1.
      unfold bind at 1. rewrite create_service_run, Hpost.
      unfold bind, lift. rewrite Hok. cbn [py_assert].
      unfold response_json. rewrite Hbody. cbn [getitem]. rewrite Hl, Hn.
      apply Z.leb_le in Hle. cbn [name_max_length DB_LIMITS].
      rewrite Hle. reflexivity. }
  split; [apply Hiff|].
  intros r kv Hpost Hok Hbody Hl.
  erewrite (proj2 (Hiff _)); [reflexivity|].
  exists r, kv, (JStr ApiTests.max_name), 255%Z.
  repeat split; auto using max_name_length. lia.
Qed.

Lemma min_positive_values_computed :
  Api.min_positive_values_data = Return min_positive_data.
Proof. vm_compute. reflexivity. Qed.

(** X19: [test_create_service_with_min_positive_values] passes exactly
    when the creation of the record with price 1, tax 0.22 and gross 1.22
    is answered with status 200 or 201 and a JSON object whose [price]
    equals 1: a number equal to 1 (1.0 included) or [true], not the text
    of the number. *)
Theorem min_positive_values_passes_iff (st st' : Api.test_state) :
  Api.test_create_service_with_min_positive_values server st
    = (Return tt, st') <->
  exists r kv price,
    server (Api.sent st) (Api.POST min_positive_data) = Return r /\
    status_ok r = true /\
    body r = Some (JObj kv) /\
    lookup "price" kv = Some price /\
    equals_one price /\
    st' = {| Api.created_service_uuids := track r (Api.created_service_uuids st);
             Api.sent := Api.sent st ++ [Api.POST min_positive_data] |}.
Proof.
  unfold Api.test_create_service_with_min_positive_values.
  rewrite min_positive_values_computed. split.
  - intros H.
    pure_step H as data Hd. injection Hd as <-.
    run_step H as r st1 Hr. rewrite create_service_run in Hr.
    destruct (server (Api.sent st) (Api.POST min_positive_data))
      as [r0|e] eqn:Hpost; [|discriminate].
    injection Hr as E1 E2. subst r st1.
    pure_step H as u1 Hok. apply assert_returns in Hok.
    pure_step H as response_data Hbody. apply response_json_returns in Hbody.
    pure_step H as price Hprice.
    destruct (object_with_key _ _ _ Hprice) as (kv & -> & Hl).
    apply lift_returns in H. destruct H as [Heq ->].
    apply assert_returns in Heq. apply py_eq_one in Heq.
    exists r0, kv, price. auto 10.
  - intros (r & kv & price & Hpost & Hok & Hbody & Hl & Hone & ->).
    apply py_eq_one in Hone.
    unfold bind at 1. unfold lift at 1.
    unfold bind at 1. rewrite create_service_run, Hpost.
    unfold bind, lift. rewrite Hok. cbn [py_assert].
    unfold response_json. rewrite Hbody. cbn [getitem]. rewrite Hl.
    cbn [price_min DB_LIMITS]. rewrite Hone. reflexivity.
Qed.

Lemma calculated_1000000 (name : str) (quantity : json) :
  ApiTests.calculated_data name quantity (PyInt 1000000) =
  Return (ApiTests.service_data (JStr name) quantity (JNum (PyInt 1000000))
            (JNum (PyFloat (decimal 2200000 1)))
            (JNum (PyFloat (decimal 12200000 1)))).
Proof. vm_compute. reflexivity. Qed.

(** X20: [test_create_service_with_boundary_integers] asserts nothing.
    When the service answers its two creations (price 1000000 with tax
    220000.0 and gross 1220000.0, then quantity 1000 at price 100), the
    test passes whatever the answers are, and tracks what
    [create_service] tracks; when the first call raises, the second
    creation is never sent. *)
Theorem boundary_integers_never_fail (st : Api.test_state) :
  (forall r1 r2,
     server (Api.sent st) (Api.POST large_price_data) = Return r1 ->
     server (Api.sent st ++ [Api.POST large_price_data])
       (Api.POST large_quantity_data) = Return r2 ->
     ApiTests.test_create_service_with_boundary_integers server st
     = (Return tt,
        {| Api.created_service_uuids :=
             track r2 (track r1 (Api.created_service_uuids st));
           Api.sent := Api.sent st
                       ++ [Api.POST large_price_data;
                           Api.POST large_quantity_data] |})) /\
  (forall e,
     server (Api.sent st) (Api.POST large_price_data) = Raise e ->
     ApiTests.test_create_service_with_boundary_integers server st
     = (Raise e,
        {| Api.created_service_uuids := Api.created_service_uuids st;
           Api.sent := Api.sent st ++ [Api.POST large_price_data] |})).
Proof.
  unfold ApiTests.test_create_service_with_boundary_integers,
    ApiTests.boundary_cases.
  cbn [for_each ApiTests.boundary_step].
  rewrite calculated_1000000, calculated_100.
  fold large_price_data. fold large_quantity_data.
  split.
  - intros r1 r2 H1 H2.
    unfold bind, lift, ret. rewrite create_service_run, H1.
    rewrite create_service_run.
    cbn [Api.sent Api.created_service_uuids]. rewrite H2.
    rewrite <- app_assoc. reflexivity.
  - intros e H1.
    unfold bind, lift, ret. rewrite create_service_run, H1. reflexivity.
Qed.

(** X21: [test_invalid_data_type_name_as_number], which posts the number
    123 as the name, fails on an answer of the service in one case only:
    the status is 200 or 201 and the body is not a JSON object (it calls
    [response.json().get("name")]); every other answer passes. *)
Theorem name_as_number_fails_only_on_bad_body
    (st : Api.test_state) (r : response) :
  server (Api.sent st) (Api.POST ApiTests.name_as_number_data) = Return r ->
  (fst (ApiTests.test_invalid_data_type_name_as_number server st) = Return tt
   <-> (status_ok r = true -> exists kv, body r = Some (JObj kv))).
Proof.
  intros Hpost. unfold ApiTests.test_invalid_data_type_name_as_number, bind.
  rewrite create_service_run, Hpost.
  destruct (status_ok r) eqn:Hok.
  - rewrite (status_ok_not_422 _ Hok). unfold lift, response_json.
    destruct (body r) as [j|]; cbn [fst].
    + destruct j as [| | | | |kv]; cbn [py_get fst];
        try (split; [discriminate | intros H; destruct (H eq_refl); discriminate]).
      split; [eauto|]. intros _. destruct (lookup "name" kv); reflexivity.
    + split; [discriminate | intros H; destruct (H eq_refl); discriminate].
  - destruct (status_code r =? 422)%Z; cbn [fst ret];
      (split; [discriminate | reflexivity]).
Qed.

End BoundaryProperties.

(** X17 on the storing service, where the run passes, and on the
    collection service, where it ends in [KeyError] and the record is
    deleted all the same. *)
Lemma read_back_witness :
  (exists u,
     snd (Api.run_test Sample.memory_server
            (Api.test_get_service_success Sample.memory_server) Sample.start)
     = {| Api.created_service_uuids := [u];
          Api.sent := Api.sent Sample.start
                      ++ [Api.POST get_service_data; Api.GET u;
                          Api.DELETE u] |}) /\
  Api.run_test MoreSamples.collection_server
    (Api.test_get_service_success MoreSamples.collection_server) Sample.start
  = (Raise (KeyError "uuid"),
     {| Api.created_service_uuids := [JNum (PyInt 0)];
        Api.sent := [Api.POST get_service_data;
                     Api.DELETE (JNum (PyInt 0))] |}).
Proof.
  split.
  - destruct (proj1 (read_back_under_fixture Sample.memory_server Sample.start))
      as (u & _ & H).
    + vm_compute. reflexivity.
    + exists u. exact H.
  - apply (proj2 (read_back_under_fixture MoreSamples.collection_server
                    Sample.start)
             {| status_code := 200;
                body := Some (JObj [("data", JArr [JObj (("uuid", JNum (PyInt 0))
                                       :: [("name", JStr "Service for GET");
                                           ("quantity", JNum (PyInt 5));
                                           ("price", JNum (PyInt 200));
                                           ("tax", JNum (PyFloat (decimal 440 1)));
                                           ("gross", JNum (PyFloat (decimal 2440 1)))])]);
                                    ("pagination", JObj [])]) |}
             _ eq_refl eq_refl eq_refl eq_refl).
Defined.

(** X18 on the storing service, which echoes the name. *)
Lemma max_name_length_witness :
  fst (ApiTests.test_create_service_with_max_name_length Sample.memory_server
         Sample.start) = Return tt.
Proof.
  eapply (proj2 (max_name_length_passes_iff Sample.memory_server
                   Sample.start Sample.start));
    [reflexivity | reflexivity | reflexivity | reflexivity].
Defined.

(** X19 on the storing service. *)
Lemma min_positive_values_witness :
  Api.test_create_service_with_min_positive_values Sample.memory_server
    Sample.start
  = (Return tt,
     {| Api.created_service_uuids := [JNum (PyInt 0)];
        Api.sent := [Api.POST min_positive_data] |}).
Proof.
  apply (proj2 (min_positive_values_passes_iff Sample.memory_server
                  Sample.start _)).
  eexists _, _, _. split; [reflexivity|]. split; [reflexivity|].
  split; [reflexivity|]. split; [reflexivity|].
  split; [|reflexivity].
  right. eexists. split; reflexivity.
Defined.

(** X20 on the storing service. *)
Lemma boundary_integers_witness :
  ApiTests.test_create_service_with_boundary_integers Sample.memory_server
    Sample.start
  = (Return tt,
     {| Api.created_service_uuids := [JNum (PyInt 0); JNum (PyInt 1)];
        Api.sent := [Api.POST large_price_data;
                     Api.POST large_quantity_data] |}).
Proof.
  apply (proj1 (boundary_integers_never_fail Sample.memory_server
                  Sample.start) _ _ eq_refl eq_refl).
Defined.

(** X21 on the storing service, which stores the number as it is. *)
Lemma name_as_number_witness :
  fst (ApiTests.test_invalid_data_type_name_as_number Sample.memory_server
         Sample.start) = Return tt.
Proof.
  apply (proj2 (name_as_number_fails_only_on_bad_body Sample.memory_server
                  Sample.start _ eq_refl)).
  intros _. eexists. reflexivity.
Defined.

(** ** The calculator on int prices *)

Local Open Scope Z_scope.

(** A number of [d] binary digits is below [2^d]. *)
Lemma digits2_pos_upper (m : positive) :
  Zpos m < 2 ^ Zpos (digits2_pos m).
Proof.
  induction m as [m IH|m IH|]; cbn [digits2_pos].
  - rewrite Pos2Z.inj_succ, Z.pow_succ_r by lia. lia.
  - rewrite Pos2Z.inj_succ, Z.pow_succ_r by lia. lia.
  - cbn. lia.
Qed.

(** The number of digits, from bounds. *)
Lemma digits2_pos_bounds (m : positive) (d : Z) :
  2 ^ (d - 1) <= Zpos m < 2 ^ d -> Zpos (digits2_pos m) = d.
Proof.
  intros [Hl Hu].
  pose proof (digits2_pos_lower m) as Hl'.
  pose proof (digits2_pos_upper m) as Hu'.
  assert (Hd : 0 < d).
  { destruct (Z_lt_le_dec 0 d) as [|Hn]; [assumption|].
    exfalso. destruct d as [|d|d]; cbn in Hu; lia. }
  destruct (Z.lt_trichotomy (Zpos (digits2_pos m)) d) as [H|[H|H]];
    [exfalso|assumption|exfalso].
  - assert (2 ^ Zpos (digits2_pos m) <= 2 ^ (d - 1))
      by (apply Z.pow_le_mono_r; lia).
    lia.
  - assert (2 ^ d <= 2 ^ (Zpos (digits2_pos m) - 1))
      by (apply Z.pow_le_mono_r; lia).
    lia.
Qed.

(** One shift halves the mantissa. *)
Lemma shr_1_m (mrs : shr_record) :
  0 <= shr_m mrs -> shr_m (shr_1 mrs) = shr_m mrs / 2.
Proof.
  destruct mrs as [m r s]. cbn [shr_m shr_1]. intros Hm.
  destruct m as [|[p|p|]|p]; cbn [shr_m]; try lia.
  - reflexivity.
  - rewrite Pos2Z.inj_xI.
    apply (Z.div_unique_pos _ _ _ 1); lia.
  - rewrite Pos2Z.inj_xO.
    apply (Z.div_unique_pos _ _ _ 0); lia.
  - reflexivity.
Qed.

(** [p] shifts divide the mantissa by [2^p]. *)
Lemma iter_pos_shr_m (p : positive) :
  forall mrs : shr_record,
    0 <= shr_m mrs ->
    shr_m (iter_pos shr_1 p mrs) = shr_m mrs / 2 ^ Zpos p.
Proof.
  induction p as [p IH|p IH|]; intros mrs Hm; cbn [iter_pos].
  - assert (H1 : 0 <= shr_m (shr_1 mrs)).
    { rewrite shr_1_m by assumption. apply Z.div_pos; lia. }
    assert (H2 : 0 <= shr_m (iter_pos shr_1 p (shr_1 mrs))).
    { rewrite IH by assumption. apply Z.div_pos; [assumption|].
      apply Z.pow_pos_nonneg; lia. }
    assert (Hpow : 2 ^ Zpos p~1 = 2 * (2 ^ Zpos p * 2 ^ Zpos p)).
    { rewrite Pos2Z.inj_xI.
      replace (2 * Zpos p + 1) with (1 + (Zpos p + Zpos p)) by lia.
      rewrite !Z.pow_add_r by lia. reflexivity. }
    assert (Hp : 0 < 2 ^ Zpos p) by (apply Z.pow_pos_nonneg; lia).
    rewrite IH, IH, shr_1_m by assumption.
    rewrite !Z.div_div by lia. rewrite Hpow. reflexivity.
  - assert (H2 : 0 <= shr_m (iter_pos shr_1 p mrs)).
    { rewrite IH by assumption. apply Z.div_pos; [assumption|].
      apply Z.pow_pos_nonneg; lia. }
    assert (Hpow : 2 ^ Zpos p~0 = 2 ^ Zpos p * 2 ^ Zpos p).
    { rewrite <- Z.pow_add_r by lia. f_equal. lia. }
    assert (Hp : 0 < 2 ^ Zpos p) by (apply Z.pow_pos_nonneg; lia).
    rewrite IH, IH by assumption.
    rewrite !Z.div_div by lia. rewrite Hpow. reflexivity.
  - rewrite shr_1_m by assumption. reflexivity.
Qed.

Lemma shr_record_of_loc_m (m : Z) (l : location) :
  shr_m (shr_record_of_loc m l) = m.
Proof. destruct l as [|[]]; reflexivity. Qed.

(** Rounding to nearest moves the mantissa by at most one. *)
Lemma round_nearest_even_near (m : Z) (l : location) :
  round_nearest_even m l = m \/ round_nearest_even m l = m + 1.
Proof.
  destruct l as [|[]]; cbn [round_nearest_even]; auto.
  destruct (Z.even m); auto.
Qed.

(** The mantissa that [shr_fexp] leaves, and its exponent: for a number
    of [d] digits, [d >= 53], in the normal range, the mantissa is
    divided by [2^(d - 53)]. *)
Lemma shr_fexp_m (m : positive) (e : Z) (l : location) :
  let d := Zpos (digits2_pos m) in
  53 <= d -> -1074 <= d + e - 53 ->
  exists mrs,
    shr_fexp prec emax (Zpos m) e l = (mrs, e + (d - 53)) /\
    shr_m mrs = Zpos m / 2 ^ (d - 53).
Proof.
  intros d Hd He. unfold shr_fexp.
  assert (Hf : fexp prec emax (Zdigits2 (Zpos m) + e) - e = d - 53).
  { unfold fexp, emin, prec, emax. cbn [Zdigits2]. fold d. lia. }
  rewrite Hf. unfold shr.
  destruct (d - 53) as [|p|p] eqn:Hn; [| |lia].
  - eexists. split; [f_equal; lia|].
    rewrite shr_record_of_loc_m. cbn. rewrite Z.div_1_r. reflexivity.
  - eexists. split; [reflexivity|].
    rewrite iter_pos_shr_m by (rewrite shr_record_of_loc_m; lia).
    rewrite shr_record_of_loc_m. reflexivity.
Qed.

(** Rounding a positive number of at least 53 digits in the normal
    range: the result is finite, its mantissa has 53 digits, and its
    value is within one unit in the last place of the number. *)
Lemma binary_round_aux_near (s : bool) (M : positive) (E : Z) (l : location) :
  let d := Zpos (digits2_pos M) in
  53 <= d -> -1074 <= d + E - 53 -> d + E - 53 < 971 ->
  exists m' k,
    binary_round_aux prec emax s (Zpos M) E l = S754_finite s m' (E + k) /\
    0 <= k /\
    2 ^ 52 <= Zpos m' < 2 ^ 53 /\
    Zpos m' * 2 ^ k - 2 ^ k <= Zpos M <= Zpos m' * 2 ^ k + 2 ^ k.
Proof.
  intros d Hd Hlo Hhi.
  destruct (shr_fexp_m M E l Hd Hlo) as (mrs & Hshr & Hm). fold d in Hshr, Hm.
  unfold binary_round_aux. rewrite Hshr.
  set (n := d - 53) in *.
  assert (Hn : 0 <= n) by (unfold n; lia).
  assert (Hpn : 0 < 2 ^ n) by (apply Z.pow_pos_nonneg; lia).
  pose proof (digits2_pos_lower M) as HMl.
  pose proof (digits2_pos_upper M) as HMu. fold d in HMl, HMu.
  assert (Hsplit : 2 ^ d = 2 ^ 53 * 2 ^ n).
  { rewrite <- Z.pow_add_r by lia. f_equal. unfold n. lia. }
  assert (Hsplit' : 2 ^ (d - 1) = 2 ^ 52 * 2 ^ n).
  { rewrite <- Z.pow_add_r by lia. f_equal. unfold n. lia. }
  set (f := Zpos M / 2 ^ n) in *.
  assert (Hf : f * 2 ^ n <= Zpos M < (f + 1) * 2 ^ n).
  { unfold f. pose proof (Z.div_mod (Zpos M) (2 ^ n) ltac:(lia)) as Hdm.
    pose proof (Z.mod_pos_bound (Zpos M) (2 ^ n) Hpn). nia. }
  assert (Hfb : 2 ^ 52 <= f < 2 ^ 53).
  { split.
    - unfold f. apply Z.div_le_lower_bound; [lia|]. lia.
    - unfold f. apply Z.div_lt_upper_bound; [lia|]. lia. }
  set (r := round_nearest_even (shr_m mrs) (loc_of_shr_record mrs)).
  assert (Hr : r = f \/ r = f + 1).
  { unfold r. rewrite Hm. apply round_nearest_even_near. }
  assert (Hrpos : 0 < r) by lia.
  destruct r as [|R|R] eqn:HR; try lia.
  destruct (Z_lt_le_dec (Zpos R) (2 ^ 53)) as [Hlt|Hge].
  - (* no carry *)
    assert (HdR : Zpos (digits2_pos R) = 53).
    { apply digits2_pos_bounds. change (53 - 1) with 52. lia. }
    destruct (shr_fexp_m R (E + n) loc_Exact) as (mrs2 & Hshr2 & Hm2);
      [lia | lia |].
    rewrite HdR in Hshr2, Hm2. change (53 - 53) with 0 in Hshr2, Hm2.
    rewrite Hshr2. cbn in Hm2. rewrite Z.div_1_r in Hm2. rewrite Hm2.
    replace (E + n + 0 <=? emax - prec) with true
      by (symmetry; apply Z.leb_le; unfold emax, prec; lia).
    exists R, n. split; [f_equal; lia|].
    split; [assumption|]. split; [lia|]. nia.
  - (* the mantissa carried to [2^53] *)
    assert (HR53 : Zpos R = 2 ^ 53) by lia.
    assert (HdR : Zpos (digits2_pos R) = 54).
    { apply digits2_pos_bounds. change (54 - 1) with 53. rewrite HR53.
      split; [lia|]. apply Z.pow_lt_mono_r; lia. }
    destruct (shr_fexp_m R (E + n) loc_Exact) as (mrs2 & Hshr2 & Hm2);
      [lia | lia |].
    rewrite HdR in Hshr2, Hm2. change (54 - 53) with 1 in Hshr2, Hm2.
    rewrite Hshr2. rewrite HR53 in Hm2.
    change (2 ^ 53 / 2 ^ 1) with (2 ^ 52) in Hm2.
    destruct (shr_m mrs2) as [|m2|m2] eqn:Hm2'; try (exfalso; lia).
    replace (E + n + 1 <=? emax - prec) with true
      by (symmetry; apply Z.leb_le; unfold emax, prec; lia).
    exists m2, (n + 1). split; [f_equal; lia|].
    split; [lia|]. split; [lia|].
    rewrite Z.pow_add_r by lia. change (2 ^ 1) with 2. nia.
Qed.

(** [float(z)] of a positive int below [2^53]: a 53-digit mantissa
    [z * 2^a]. *)
Lemma float_of_int_normal (z : positive) :
  Zpos z < 2 ^ 53 ->
  exists mz a,
    float_of_int (Zpos z) = inr (S754_finite false mz (- a)) /\
    0 <= a <= 52 /\
    Zpos mz = Zpos z * 2 ^ a /\
    2 ^ 52 <= Zpos mz < 2 ^ 53.
Proof.
  intros Hz. pose proof (digits2_pos_small z Hz) as Hd.
  pose proof (digits2_pos_lower z) as Hl.
  pose proof (digits2_pos_upper z) as Hu.
  unfold float_of_int, binary_normalize, binary_round, shl_align.
  assert (Hf : fexp prec emax (Zpos (digits2_pos z) + 0)
               = Zpos (digits2_pos z) - 53).
  { unfold fexp, emin, prec, emax. lia. }
  rewrite Hf.
  destruct (Zpos (digits2_pos z) - 53 - 0) as [|k|k] eqn:Hk; [| lia |].
  - assert (Hd53 : Zpos (digits2_pos z) = 53) by lia.
    rewrite binary_round_aux_exact by lia. cbn [is_finite].
    exists z, 0. rewrite Hd53 in Hl, Hu. change (53 - 1) with 52 in Hl.
    split; [reflexivity|]. split; [lia|]. split; [cbn; lia | lia].
  - destruct (iter_xO_spec z k) as [Hdig Hval].
    assert (Hd53 : Zpos (digits2_pos (Pos.iter xO z k)) = 53).
    { rewrite Hdig, Pos2Z.inj_add. lia. }
    rewrite binary_round_aux_exact by lia. cbn [is_finite].
    pose proof (digits2_pos_lower (Pos.iter xO z k)) as Hl'.
    pose proof (digits2_pos_upper (Pos.iter xO z k)) as Hu'.
    rewrite Hd53 in Hl', Hu'. change (53 - 1) with 52 in Hl'.
    exists (Pos.iter xO z k), (Zpos k).
    split; [do 2 f_equal; lia|]. split; [lia|]. split; [exact Hval | lia].
Qed.

(** The integer nearest to [n / d], from a bound on the distance. *)
Lemma round_half_even_near (n d q : Z) :
  0 < d -> - d < 2 * (n - q * d) < d -> round_half_even n d = q.
Proof.
  intros Hd Hq. unfold round_half_even.
  pose proof (Z.div_mod n d ltac:(lia)) as Hdm.
  pose proof (Z.mod_pos_bound n d Hd) as Hr.
  set (q' := n / d) in *. set (r := n mod d) in *.
  assert (Hcases : q' = q \/ q' = q - 1) by nia.
  destruct (Z.compare_spec (2 * r) d) as [He|Hlt|Hgt].
  - exfalso. destruct Hcases as [->| ->]; nia.
  - destruct Hcases as [->| ->]; [reflexivity | exfalso; nia].
  - destruct Hcases as [->| ->]; [exfalso; nia | lia].
Qed.

(** [round(x, 2)] of a positive float with a negative exponent. *)
Lemma round2_scaled (m : positive) (b q : Z) (n : positive) :
  0 < b ->
  Zpos n = q ->
  - 2 ^ b < 2 * (Zpos m * 100 - q * 2 ^ b) < 2 ^ b ->
  round2 (S754_finite false m (- b)) = nearest_ratio false n 100.
Proof.
  intros Hb Hn Hq. destruct b as [|p|p]; try lia.
  cbn [Z.opp round2].
  rewrite Pos2Z.inj_pow.
  rewrite (round_half_even_near _ _ q); [| apply Z.pow_pos_nonneg; lia | exact Hq].
  rewrite <- Hn. reflexivity.
Qed.

(** The product of a 53-digit mantissa with the mantissa of the rate has
    105 or 106 digits. *)
Lemma product_digits (mz : positive) :
  2 ^ 52 <= Zpos mz < 2 ^ 53 ->
  105 <= Zpos (digits2_pos (mz * 7926335344172073)) <= 106.
Proof.
  intros Hb.
  pose proof (digits2_pos_lower (mz * 7926335344172073)) as Hl.
  pose proof (digits2_pos_upper (mz * 7926335344172073)) as Hu.
  rewrite Pos2Z.inj_mul in Hl, Hu.
  set (d := Zpos (digits2_pos (mz * 7926335344172073))) in *.
  assert (H104 : 2 ^ 104 < Zpos mz * 7926335344172073) by nia.
  assert (H106 : Zpos mz * 7926335344172073 < 2 ^ 106) by nia.
  split.
  - destruct (Z_le_gt_dec 105 d) as [|Hn]; [assumption|]. exfalso.
    assert (2 ^ d <= 2 ^ 104) by (apply Z.pow_le_mono_r; lia). lia.
  - destruct (Z_le_gt_dec d 106) as [|Hn]; [assumption|]. exfalso.
    assert (2 ^ 106 <= 2 ^ (d - 1)) by (apply Z.pow_le_mono_r; lia). lia.
Qed.

(** The tax of a positive int price up to [2^40]: the double nearest to
    22 hundredths of the price. *)
Lemma tax_of_positive_int (z : positive) :
  Zpos z <= 2 ^ 40 ->
  calculate_tax (PyInt (Zpos z)) = inr (decimal (22 * Zpos z) 2).
Proof.
  intros Hz. unfold calculate_tax, to_float.
  destruct (float_of_int_normal z) as (mz & a & -> & Ha & Hv & Hb); [lia|].
  rewrite tax_rate_positive. unfold fmul, SFmul. cbn [xorb].
  pose proof (product_digits mz Hb) as Hd.
  destruct (binary_round_aux_near false (mz * 7926335344172073) (- a + -55)
              loc_Exact) as (m' & k & -> & Hk & Hm' & Herr); [lia | lia | lia |].
  rewrite Pos2Z.inj_mul in Herr. rewrite Hv in Herr.
  assert (HA : 1 <= 2 ^ a) by (apply (Z.pow_le_mono_r 2 0 a); lia).
  assert (HK : 1 <= 2 ^ k) by (apply (Z.pow_le_mono_r 2 0 k); lia).
  set (A := 2 ^ a) in *. set (K := 2 ^ k) in *.
  set (T := Zpos z * A) in *.
  assert (HT : 1 <= T <= 2 ^ 40 * A) by (unfold T; nia).
  set (W := Zpos m' * K) in *.
  assert (HW : 2 ^ 52 * K <= W) by (unfold W; nia).
  (* the exponent of the product is negative *)
  assert (Hsmall : 400 * K < 2 ^ 55 * A) by lia.
  assert (Hka : k < 55 + a).
  { apply (Z.pow_lt_mono_r_iff 2); [lia | lia |].
    rewrite Z.pow_add_r by lia. fold A K. lia. }
  set (b := 55 + a - k).
  assert (HP : 2 ^ b * K = 2 ^ 55 * A).
  { unfold K, A, b. rewrite <- !Z.pow_add_r by lia. f_equal. lia. }
  replace (- a + -55 + k) with (- b) by (unfold b; lia).
  f_equal. change (22 * Zpos z) with (Zpos (22 * z)).
  apply (round2_scaled m' b (22 * Zpos z)); [unfold b; lia | reflexivity |].
  assert (HPpos : 0 < 2 ^ b) by (apply Z.pow_pos_nonneg; unfold b; lia).
  set (P := 2 ^ b) in *.
  assert (Hx : - (P * K) < 2 * (Zpos m' * 100 - 22 * Zpos z * P) * K < P * K).
  { replace (2 * (Zpos m' * 100 - 22 * Zpos z * P) * K)
      with (2 * (100 * W - 22 * (Zpos z * (P * K)))) by (unfold W; ring).
    rewrite HP. replace (Zpos z * (2 ^ 55 * A)) with (2 ^ 55 * T)
      by (unfold T; ring).
    lia. }
  split; nia.
Qed.

(** The digits of a number between two powers of two. *)
Lemma digits2_pos_between (m : positive) (lo hi : Z) :
  0 <= lo -> 2 ^ lo <= Zpos m < 2 ^ hi ->
  lo < Zpos (digits2_pos m) <= hi.
Proof.
  intros Hlo [Hl Hu].
  pose proof (digits2_pos_lower m) as Hl'.
  pose proof (digits2_pos_upper m) as Hu'.
  set (d := Zpos (digits2_pos m)) in *.
  split.
  - destruct (Z_lt_le_dec lo d) as [|Hn]; [assumption|]. exfalso.
    assert (2 ^ d <= 2 ^ lo) by (apply Z.pow_le_mono_r; lia). lia.
  - destruct (Z_le_gt_dec d hi) as [|Hn]; [assumption|]. exfalso.
    assert (2 ^ hi <= 2 ^ (d - 1)) by (apply Z.pow_le_mono_r; lia). lia.
Qed.

(** The double nearest to [n / 100], for [n] between 22 and [2^45]: a
    53-digit mantissa with a negative exponent, within two units in the
    last place of the quotient. *)
Lemma nearest_hundredths (n : positive) :
  22 <= Zpos n < 2 ^ 45 ->
  exists m b,
    nearest_ratio false n 100 = S754_finite false m (- b) /\
    0 < b /\
    2 ^ 52 <= Zpos m < 2 ^ 53 /\
    -200 <= 100 * Zpos m - Zpos n * 2 ^ b <= 100.
Proof.
  intros Hn.
  destruct (digits2_pos_between n 4 45 ltac:(lia) ltac:(lia)) as [Hd4 Hd45].
  pose proof (digits2_pos_lower n) as Hl.
  pose proof (digits2_pos_upper n) as Hu.
  set (d1 := Zpos (digits2_pos n)) in *.
  unfold nearest_ratio, SFdiv_core_binary.
  change (Zdigits2 (Zpos n)) with d1.
  change (Zdigits2 (Zpos 100)) with 7.
  assert (He : Z.min (fexp prec emax (d1 + 0 - (7 + 0))) (0 - 0) = d1 - 60).
  { unfold fexp, emin, prec, emax. lia. }
  rewrite He.
  set (s := 60 - d1).
  replace (0 - 0 - (d1 - 60)) with s by (unfold s; lia).
  assert (Hs : 15 <= s <= 55) by (unfold s; lia).
  destruct s as [|sp|sp] eqn:Hsp; try lia. rewrite <- Hsp in *.
  rewrite Z.shiftl_mul_pow2 by lia.
  assert (HS : 2 ^ 15 <= 2 ^ s) by (apply Z.pow_le_mono_r; lia).
  assert (Hlow : 2 ^ 59 <= Zpos n * 2 ^ s).
  { replace (2 ^ 59) with (2 ^ (d1 - 1) * 2 ^ s)
      by (rewrite <- Z.pow_add_r by lia; f_equal; unfold s; lia).
    nia. }
  assert (Hhigh : Zpos n * 2 ^ s < 2 ^ 60).
  { replace (2 ^ 60) with (2 ^ d1 * 2 ^ s)
      by (rewrite <- Z.pow_add_r by lia; f_equal; unfold s; lia).
    nia. }
  pose proof (Z_div_mod (Zpos n * 2 ^ s) 100 ltac:(lia)) as Hdm.
  destruct (Z.div_eucl (Zpos n * 2 ^ s) 100) as [q r].
  destruct Hdm as [Hq Hr].
  assert (Hqb : 2 ^ 52 <= q < 2 ^ 54) by lia.
  destruct q as [|Q|Q]; try lia.
  destruct (digits2_pos_between Q 52 54 ltac:(lia) Hqb) as [HdQ1 HdQ2].
  destruct (binary_round_aux_near false Q (d1 - 60) (new_location 100 r))
    as (m & k & -> & Hk & Hm & Herr); [lia | lia | lia |].
  assert (HK : 1 <= 2 ^ k) by (apply (Z.pow_le_mono_r 2 0 k); lia).
  assert (HK4 : 2 ^ k < 2 ^ 15) by nia.
  assert (Hks : k < s).
  { apply (Z.pow_lt_mono_r_iff 2); lia. }
  set (b := s - k).
  assert (HB : 2 ^ b * 2 ^ k = 2 ^ s).
  { rewrite <- Z.pow_add_r by (unfold b; lia). f_equal. unfold b. lia. }
  assert (HBpos : 0 < 2 ^ b) by (apply Z.pow_pos_nonneg; unfold b; lia).
  exists m, b.
  split; [f_equal; unfold b, s; lia|].
  split; [unfold b; lia|]. split; [assumption|].
  rewrite <- HB in Hq.
  set (K := 2 ^ k) in *. set (B := 2 ^ b) in *.
  split; nia.
Qed.

(** Aligning a mantissa to a smaller exponent multiplies it by a power
    of two. *)
Lemma shl_align_fst (mx : positive) (ex ex' : Z) :
  ex' <= ex ->
  Zpos (fst (shl_align mx ex ex')) = Zpos mx * 2 ^ (ex - ex').
Proof.
  intros H. unfold shl_align.
  destruct (ex' - ex) as [|d|d] eqn:Hd; try lia; cbn [fst].
  - replace (ex - ex') with 0 by lia. cbn. lia.
  - destruct (iter_xO_spec mx d) as [_ ->]. do 2 f_equal. lia.
Qed.

(** Normalising a positive number of at least 53 digits rounds it. *)
Lemma binary_round_long (m : positive) (e : Z) :
  53 <= Zpos (digits2_pos m) ->
  -1074 <= Zpos (digits2_pos m) + e - 53 ->
  binary_round prec emax false m e
  = binary_round_aux prec emax false (Zpos m) e loc_Exact.
Proof.
  intros Hd He. unfold binary_round, shl_align.
  assert (Hf : fexp prec emax (Zpos (digits2_pos m) + e) - e
               = Zpos (digits2_pos m) - 53).
  { unfold fexp, emin, prec, emax. lia. }
  rewrite Hf.
  destruct (Zpos (digits2_pos m) - 53) as [|p|p] eqn:Hp; try lia; reflexivity.
Qed.

(** The gross of a positive int price up to [2^40]: the double nearest
    to 122 hundredths of the price. *)
Lemma gross_of_positive_int (z : positive) :
  Zpos z <= 2 ^ 40 ->
  calculate_gross (PyInt (Zpos z)) = inr (decimal (122 * Zpos z) 2).
Proof.
  intros Hz. unfold calculate_gross.
  rewrite (tax_of_positive_int z Hz). unfold to_float.
  destruct (float_of_int_normal z) as (mz & a & -> & Ha & Hv & Hb); [lia|].
  change (22 * Zpos z) with (Zpos (22 * z)).
  change (decimal (Zpos (22 * z)) 2) with (nearest_ratio false (22 * z) 100).
  destruct (nearest_hundredths (22 * z)) as (mt & bt & -> & Hbt & Hmt & Ht);
    [rewrite Pos2Z.inj_mul; lia|].
  rewrite Pos2Z.inj_mul in Ht.
  assert (HA : 1 <= 2 ^ a) by (apply (Z.pow_le_mono_r 2 0 a); lia).
  assert (HBt : 1 <= 2 ^ bt) by (apply (Z.pow_le_mono_r 2 0 bt); lia).
  (* the tax has the smaller exponent *)
  assert (Hab : a <= bt).
  { destruct (Z_le_gt_dec a bt) as [|Hgt]; [assumption|]. exfalso.
    assert (H2 : 2 ^ (bt + 1) <= 2 ^ a) by (apply Z.pow_le_mono_r; lia).
    rewrite Z.pow_add_r in H2 by lia. change (2 ^ 1) with 2 in H2. nia. }
  unfold fadd, SFadd. rewrite Z.min_r by lia. cbn [cond_Zopp].
  pose proof (shl_align_fst mz (- a) (- bt) ltac:(lia)) as H1.
  pose proof (shl_align_fst mt (- bt) (- bt) ltac:(lia)) as H2.
  replace (- a - - bt) with (bt - a) in H1 by lia.
  replace (- bt - - bt) with 0 in H2 by lia.
  change (2 ^ 0) with 1 in H2. rewrite Z.mul_1_r in H2.
  set (m1 := fst (shl_align mz (- a) (- bt))) in *.
  set (m2 := fst (shl_align mt (- bt) (- bt))) in *.
  assert (Hm1 : Zpos m1 = Zpos z * 2 ^ bt).
  { rewrite H1, Hv, <- Z.mul_assoc, <- Z.pow_add_r by lia.
    do 2 f_equal. lia. }
  clear H1. cbn [Z.add binary_normalize].
  pose proof (Pos2Z.inj_add m1 m2) as Hsum. rewrite Hm1, H2 in Hsum.
  set (M := (m1 + m2)%positive) in *.
  set (B := 2 ^ bt) in *. set (V := Zpos z * B) in *.
  assert (HV : V <= 2 ^ 40 * B) by (unfold V; nia).
  assert (HM : 2 ^ 52 <= Zpos M < 2 ^ 56) by lia.
  destruct (digits2_pos_between M 52 56 ltac:(lia) HM) as [Hd1 Hd2].
  assert (HB56 : B < 2 ^ 56) by (unfold V in *; nia).
  assert (Hbt56 : bt < 56).
  { apply (Z.pow_lt_mono_r_iff 2); [lia | lia | exact HB56]. }
  rewrite binary_round_long by lia.
  destruct (binary_round_aux_near false M (- bt) loc_Exact)
    as (mg & k & -> & Hk & Hmg & Herr); [lia | lia | lia |].
  assert (HK : 1 <= 2 ^ k) by (apply (Z.pow_le_mono_r 2 0 k); lia).
  set (K := 2 ^ k) in *.
  set (W := Zpos mg * K) in *.
  assert (HW : 2 ^ 52 * K <= W) by (unfold W; nia).
  assert (Hsmall : 400 + 200 * K < B) by lia.
  assert (Hkb : k < bt).
  { apply (Z.pow_lt_mono_r_iff 2); [lia | lia |]. fold K B. lia. }
  set (b := bt - k).
  assert (HP : 2 ^ b * K = B).
  { unfold K, B, b. rewrite <- Z.pow_add_r by lia. f_equal. lia. }
  replace (- bt + k) with (- b) by (unfold b; lia).
  f_equal. change (122 * Zpos z) with (Zpos (122 * z)).
  change (decimal (Zpos (122 * z)) 2) with (nearest_ratio false (122 * z) 100).
  apply (round2_scaled mg b (122 * Zpos z)); [unfold b; lia | reflexivity |].
  assert (HPpos : 0 < 2 ^ b) by (apply Z.pow_pos_nonneg; unfold b; lia).
  set (P := 2 ^ b) in *.
  assert (Hx : - (P * K) < 2 * (Zpos mg * 100 - 122 * Zpos z * P) * K < P * K).
  { replace (2 * (Zpos mg * 100 - 122 * Zpos z * P) * K)
      with (2 * (100 * W - 122 * (Zpos z * (P * K)))) by (unfold W; ring).
    rewrite HP. fold V. lia. }
  split; nia.
Qed.

(** X22: on int prices the calculator is exact.  For every int price of
    magnitude up to [2^40], which covers the 32-bit range of
    [DB_LIMITS], [calculate_tax] returns the double nearest to 22
    hundredths of the price and [calculate_gross] the double nearest to
    122 hundredths of it: the values the literals [0.22 * price] and
    [1.22 * price] would have with two decimals, with no error from the
    binary rate, the product, the sum or the two roundings. *)
Theorem calculator_exact_on_ints (z : Z) :
  Z.abs z <= 2 ^ 40 ->
  calculate_tax (PyInt z) = inr (decimal (22 * z) 2) /\
  calculate_gross (PyInt z) = inr (decimal (122 * z) 2).
Proof.
  intros Hz. destruct z as [|p|p].
  - split; vm_compute; reflexivity.
  - split; [apply tax_of_positive_int | apply gross_of_positive_int]; lia.
  - pose proof (tax_of_positive_int p ltac:(lia)) as Ht.
    pose proof (gross_of_positive_int p ltac:(lia)) as Hg.
    unfold calculate_gross, calculate_tax in *. cbn [to_float] in *.
    destruct (float_of_int (Zpos p)) as [e|f] eqn:Hf; [discriminate|].
    destruct (float_of_int_opp (Zpos p) f ltac:(lia) Hf) as [Hneg Hs].
    cbn [Z.opp] in Hneg. rewrite Hneg.
    destruct (tax_gross_opp _ f Hs) as (_ & Hto & Hgo).
    cbv beta iota in Ht, Hg |- *.
    assert (Ht' : round2 (fmul f (tax_rate DB_LIMITS))
                  = decimal (22 * Zpos p) 2) by congruence.
    assert (Hg' : round2 (fadd f (round2 (fmul f (tax_rate DB_LIMITS))))
                  = decimal (122 * Zpos p) 2) by congruence.
    rewrite Hto, Hgo, Hg', Ht'.
    change (22 * Zpos p) with (Zpos (22 * p)).
    change (122 * Zpos p) with (Zpos (122 * p)).
    change (22 * Zneg p) with (Zneg (22 * p)).
    change (122 * Zneg p) with (Zneg (122 * p)).
    unfold decimal.
    pose proof (nearest_ratio_opp false) as Ho. cbn [negb] in Ho.
    rewrite !Ho. split; reflexivity.
Qed.

(** X22 at the largest int of [DB_LIMITS]: 2147483647 gives the tax
    472446402.34 and the gross 2619930049.34. *)
Lemma calculator_exact_witness :
  calculate_tax (PyInt (max_int DB_LIMITS)) = inr (decimal 47244640234 2) /\
  calculate_gross (PyInt (max_int DB_LIMITS))
  = inr (decimal 261993004934 2).
Proof.
  apply (calculator_exact_on_ints 2147483647).
  cbn. lia.
Defined.

(** ** The boundary cases *)

Local Open Scope string_scope.
Local Open Scope list_scope.

Section BoundaryCases.

Variable server : list Api.request -> Api.request -> result response.
Variable num_str : num -> str.
Variable str_lower : str -> str.
Variable browser : list Ui.form_fill -> Ui.page_view.

(** [test_price_boundaries] on a row: when it passes. *)
Lemma price_boundary_passes (price : float) (should_pass : bool)
    (st st' : Ui.ui_state) :
  Ui.test_price_boundaries browser num_str str_lower price should_pass st
    = (Return tt, st') <->
  st' = st ++ [price_form num_str price] /\
  if should_pass then
    (Ui.list_items (browser st) < Ui.list_items (browser st'))%nat
  else
    Ui.list_items (browser st') = Ui.list_items (browser st) /\
    str_in Ui.price_error_message
      (str_lower (str_join " " (Ui.invalid_feedback (browser st')))) = true.
Proof.
  unfold Ui.test_price_boundaries, Ui.count_items, Ui.all_inner_texts,
    Ui.fill_and_submit, bind, gets, lift.
  fold (price_form num_str price).
  destruct should_pass.
  - destruct (Nat.ltb_spec (Ui.list_items (browser st))
                (Ui.list_items (browser (st ++ [price_form num_str price]))))
      as [Hlt|Hge]; cbn [py_assert].
    + split.
      * intros H. injection H as <-. auto.
      * intros [-> _]. reflexivity.
    + split; [discriminate|]. intros [-> H]. lia.
  - destruct (Nat.eqb_spec
                (Ui.list_items (browser (st ++ [price_form num_str price])))
                (Ui.list_items (browser st))) as [Heq|Hne]; cbn [py_assert].
    + destruct (str_in Ui.price_error_message _) eqn:Hmsg; cbn [py_assert].
      * split.
        -- intros H. injection H as <-. auto.
        -- intros [-> _]. reflexivity.
      * split; [discriminate|]. intros (-> & _ & H). congruence.
    + split; [discriminate|]. intros (-> & H & _). congruence.
Qed.

(** [test_name_validation]: when it passes. *)
Lemma name_validation_passes (st st' : Ui.ui_state) :
  Ui.test_name_validation browser st = (Return tt, st') <->
  st' = st ++ [name_form (str_repeat "a" 255);
               name_form (str_repeat "a" 256); name_form ""] /\
  (Ui.list_items (browser st)
   < Ui.list_items (browser (st ++ [name_form (str_repeat "a" 255)])))%nat /\
  Ui.list_items (browser (st ++ [name_form (str_repeat "a" 255);
                                 name_form (str_repeat "a" 256)])) =
  Ui.list_items (browser (st ++ [name_form (str_repeat "a" 255)])) /\
  Ui.list_items (browser (st ++ [name_form (str_repeat "a" 255);
                                 name_form (str_repeat "a" 256);
                                 name_form ""])) =
  Ui.list_items (browser (st ++ [name_form (str_repeat "a" 255);
                                 name_form (str_repeat "a" 256)])).
Proof.
  unfold Ui.test_name_validation, Ui.name_cases. cbn [for_each].
  unfold Ui.name_validation_step. cbv beta iota zeta.
  fold (name_form (str_repeat "a" 255)).
  fold (name_form (str_repeat "a" 256)).
  fold (name_form "").
  unfold Ui.count_items, Ui.fill_and_submit, bind, gets, lift, ret.
  replace (st ++ [name_form (str_repeat "a" 255);
                  name_form (str_repeat "a" 256); name_form ""])
    with (((st ++ [name_form (str_repeat "a" 255)])
            ++ [name_form (str_repeat "a" 256)]) ++ [name_form ""])
    by (rewrite <- !app_assoc; reflexivity).
  replace (st ++ [name_form (str_repeat "a" 255);
                  name_form (str_repeat "a" 256)])
    with ((st ++ [name_form (str_repeat "a" 255)])
            ++ [name_form (str_repeat "a" 256)])
    by (rewrite <- !app_assoc; reflexivity).
  set (s1 := st ++ [name_form (str_repeat "a" 255)]).
  set (s2 := s1 ++ [name_form (str_repeat "a" 256)]).
  set (s3 := s2 ++ [name_form ""]).
  destruct (Nat.ltb_spec (Ui.list_items (browser st))
              (Ui.list_items (browser s1))) as [H1|H1]; cbn [py_assert];
    [|split; [discriminate | intros (_ & H & _); lia]].
  destruct (Nat.eqb_spec (Ui.list_items (browser s2))
              (Ui.list_items (browser s1))) as [H2|H2]; cbn [py_assert];
    [|split; [discriminate | intros (_ & _ & H & _); congruence]].
  destruct (Nat.eqb_spec (Ui.list_items (browser s3))
              (Ui.list_items (browser s2))) as [H3|H3]; cbn [py_assert];
    [|split; [discriminate | intros (_ & _ & _ & H); congruence]].
  split.
  - intros H. injection H as <-. auto.
  - intros (-> & _). reflexivity.
Qed.

(** A 422 leaves the tracked list as it was. *)
Lemma track_422 (r : response) (l : list json) :
  status_code r = 422%Z -> track r l = l.
Proof.
  intros H. unfold track, tracked_uuid, status_ok. rewrite H. reflexivity.
Qed.

(** On a 422 whose [errors] is a mapping with the field,
    [assert_validation_error] returns the field's value. *)
Lemma assert_validation_error_of_field (r : response) (c : ascii) (f : str)
    kv ekv v :
  status_code r = 422%Z ->
  body r = Some (JObj kv) ->
  lookup "errors" kv = Some (JObj ekv) ->
  lookup (String c f) ekv = Some v ->
  assert_validation_error r (Some (String c f)) = Return v.
Proof.
  intros Hc Hb He Hl. unfold assert_validation_error. rewrite Hc.
  cbn [Z.eqb Pos.eqb py_assert rbind].
  unfold parse_validation_errors, response_json. rewrite Hb.
  cbn [rbind py_in truthy getitem]. rewrite key_in_lookup, He.
  cbn [py_assert rbind py_in]. rewrite key_in_lookup, Hl.
  cbn [rbind getitem]. rewrite Hl. reflexivity.
Qed.

(** [test_validation_min_quantity]: when it passes. *)
Lemma min_quantity_passes (st st' : Api.test_state) :
  Api.test_validation_min_quantity server str_lower st = (Return tt, st') <->
  exists r kv ekv errors items first,
    server (Api.sent st) (Api.POST Api.min_quantity_data) = Return r /\
    status_code r = 422%Z /\
    body r = Some (JObj kv) /\
    lookup "errors" kv = Some (JObj ekv) /\
    lookup "quantity" ekv = Some errors /\
    py_iter errors = Return items /\
    Api.any_minimum_message str_lower items = Return true /\
    getitem0 errors = Return first /\
    st' = {| Api.created_service_uuids := Api.created_service_uuids st;
             Api.sent := Api.sent st ++ [Api.POST Api.min_quantity_data] |}.
Proof.
  unfold Api.test_validation_min_quantity. split.
  - intros H.
    run_step H as r st1 Hr. rewrite create_service_run in Hr.
    destruct (server (Api.sent st) (Api.POST Api.min_quantity_data))
      as [r0|e] eqn:Hpost; [|discriminate].
    injection Hr as E1 E2. subst r st1.
    pure_step H as errors Herr.
    apply assert_validation_error_returns in Herr.
    destruct Herr as (Hc & kv & errors0 & Hb & He & Hcase).
    destruct Hcase as [[Ht _]|(f & ekv & Hf & _ & -> & Hl)];
      [discriminate Ht|].
    injection Hf as <-.
    pure_step H as items Hitems.
    pure_step H as hit Hhit.
    pure_step H as u Hassert. apply assert_returns in Hassert. subst hit.
    pure_step H as first Hfirst.
    unfold ret in H. injection H as <-.
    rewrite (track_422 _ _ Hc).
    exists r0, kv, ekv, errors, items, first. auto 12.
  - intros (r & kv & ekv & errors & items & first
            & Hpost & Hc & Hb & He & Hl & Hitems & Hhit & Hfirst & ->).
    unfold bind at 1. rewrite create_service_run, Hpost.
    rewrite (track_422 _ _ Hc). unfold bind, lift, ret.
    rewrite (assert_validation_error_of_field r _ _ kv ekv errors Hc Hb He Hl).
    rewrite Hitems, Hhit. cbn [py_assert]. rewrite Hfirst. reflexivity.
Qed.

(** [test_bug_exceeding_name_length] asserts nothing on the status: it
    passes on a 422, and on an accepted creation whose body carries a
    name. *)
Lemma exceeding_name_observed (st : Api.test_state) (r : response) :
  server (Api.sent st) (Api.POST exceeding_name_data) = Return r ->
  status_code r = 422%Z \/
  (status_ok r = true /\
   exists kv name, body r = Some (JObj kv) /\
                   lookup "name" kv = Some (JStr name)) ->
  fst (ApiTests.test_bug_exceeding_name_length server st) = Return tt.
Proof.
  intros Hpost Hcase. unfold ApiTests.test_bug_exceeding_name_length.
  rewrite calculated_100. fold exceeding_name_data.
  unfold bind at 1. unfold lift at 1.
  unfold bind at 1. rewrite create_service_run, Hpost.
  destruct Hcase as [Hc|(Hok & kv & name & Hb & Hl)].
  - rewrite Hc. cbn [Z.eqb Pos.eqb]. unfold try_except, lift, ret.
    destruct (ApiTests.first_error "name" r) as [[]|e]; reflexivity.
  - rewrite (status_ok_not_422 _ Hok), Hok.
    unfold bind, lift, ret, response_json. rewrite Hb.
    cbn [py_get_default]. rewrite Hl. reflexivity.
Qed.


End BoundaryCases.


